(** * Diamond collectors: a shallow embedding and its properties

    The collectors of [src/collectors] (ip, udp, kvm, ksm, memcached,
    mesos_cgroup, uptime) are embedded as functions of a small
    state-and-exception monad.  The state holds what the host framework
    observes of a collection cycle: the calls to [publish],
    [publish_gauge], [publish_counter], the log, the table behind
    [derivative], and the socket calls.  The file system, the sockets and
    the HTTP endpoint are inputs (a [world]). *)

From Stdlib Require Import Bool Ascii String List ZArith NArith QArith Lia Permutation.
Import ListNotations.

Local Open Scope string_scope.
Local Open Scope list_scope.

(** ** Python built-ins used by the collectors *)

Module Py.

Definition nl : ascii := ascii_of_nat 10.
Definition cr : ascii := ascii_of_nat 13.
Definition nul : ascii := ascii_of_nat 0.
Definition dquote : string := String (ascii_of_nat 34) EmptyString.

(** Characters [str.split()] and [str.strip()] treat as white space. *)
Definition is_space (c : ascii) : bool :=
  let n := N_of_ascii c in
  ((9 <=? n) && (n <=? 13))%N || (n =? 32)%N.

Definition is_digit (c : ascii) : bool :=
  let n := N_of_ascii c in ((48 <=? n) && (n <=? 57))%N.

Definition is_empty (s : string) : bool :=
  match s with EmptyString => true | String _ _ => false end.

(** [s.startswith(p)] *)
Definition startswith (p s : string) : bool := String.prefix p s.

Fixpoint rev_string (s : string) : string :=
  match s with
  | EmptyString => EmptyString
  | String c s' => rev_string s' ++ String c EmptyString
  end.

(** [s.endswith(p)] *)
Definition endswith (p s : string) : bool :=
  String.prefix (rev_string p) (rev_string s).

(** [c in s] for a one-character [c]. *)
Fixpoint contains_char (c : ascii) (s : string) : bool :=
  match s with
  | EmptyString => false
  | String d s' => Ascii.eqb c d || contains_char c s'
  end.

(** [p in s] for strings: [p] occurs in [s]. *)
Fixpoint contains (p s : string) : bool :=
  String.prefix p s ||
  match s with
  | EmptyString => false
  | String _ s' => contains p s'
  end.

(** [s.replace(a, b)] for one-character [a] and [b]. *)
Fixpoint replace_char (a b : ascii) (s : string) : string :=
  match s with
  | EmptyString => EmptyString
  | String c s' =>
      String (if Ascii.eqb c a then b else c) (replace_char a b s')
  end.

(** [sep.join(l)] *)
Fixpoint join (sep : string) (l : list string) : string :=
  match l with
  | [] => EmptyString
  | [x] => x
  | x :: rest => x ++ sep ++ join sep rest
  end.

(** [s.split()] : maximal runs of characters that are not white space. *)
Fixpoint split_go (s : string) : string * list string :=
  match s with
  | EmptyString => (EmptyString, [])
  | String c s' =>
      let (w, ws) := split_go s' in
      if is_space c
      then (EmptyString, if is_empty w then ws else w :: ws)
      else (String c w, ws)
  end.

Definition split (s : string) : list string :=
  let (w, ws) := split_go s in
  if is_empty w then ws else w :: ws.

(** [s.split(sep)] for a one-character [sep]: empty pieces are kept. *)
Fixpoint split_on (sep : ascii) (s : string) : list string :=
  match s with
  | EmptyString => [EmptyString]
  | String c s' =>
      match split_on sep s' with
      | [] => [EmptyString]
      | w :: ws =>
          if Ascii.eqb c sep then EmptyString :: w :: ws else String c w :: ws
      end
  end.

(** [s.splitlines()] of a byte string: lines end at LF, CR or CR LF, the
    terminators are dropped and there is no empty last line. *)
Fixpoint splitlines (s : string) : list string :=
  match s with
  | EmptyString => []
  | String c s' =>
      if Ascii.eqb c nl then EmptyString :: splitlines s'
      else if Ascii.eqb c cr then
        match s' with
        | String d s'' =>
            if Ascii.eqb d nl then EmptyString :: splitlines s''
            else EmptyString :: splitlines s'
        | EmptyString => [EmptyString]
        end
      else
        match splitlines s' with
        | [] => [String c EmptyString]
        | l :: ls => String c l :: ls
        end
  end.

(** [s.strip()], [s.rstrip()] *)
Fixpoint lstrip (s : string) : string :=
  match s with
  | EmptyString => EmptyString
  | String c s' => if is_space c then lstrip s' else s
  end.

Definition rstrip (s : string) : string := rev_string (lstrip (rev_string s)).
Definition strip (s : string) : string := rstrip (lstrip s).

(** A file object is modelled by the results its successive
    [readline(limit)] calls give: each is a line with its LF, cut after
    [limit] characters.  [room] is what the line being read may still
    take. *)
Fixpoint readlines_limit (limit room : N) (s : string) : list string :=
  match s with
  | EmptyString => []
  | String c s' =>
      if Ascii.eqb c nl || (room <=? 1)%N
      then String c EmptyString :: readlines_limit limit limit s'
      else
        match readlines_limit limit (room - 1) s' with
        | [] => [String c EmptyString]
        | l :: ls => String c l :: ls
        end
  end.

(** [f.readlines()] : every line, with its LF. *)
Fixpoint readlines (s : string) : list string :=
  match s with
  | EmptyString => []
  | String c s' =>
      if Ascii.eqb c nl then String c EmptyString :: readlines s'
      else
        match readlines s' with
        | [] => [String c EmptyString]
        | l :: ls => String c l :: ls
        end
  end.

(** *** Numbers *)

Definition digit_val (c : ascii) : Z := Z.of_N (N_of_ascii c) - 48.

(** Value of a run of decimal digits, [None] when another character
    occurs.  [acc] is the value of the digits already read. *)
Fixpoint digits_from (acc : Z) (s : string) : option Z :=
  match s with
  | EmptyString => Some acc
  | String c s' =>
      if is_digit c then digits_from (10 * acc + digit_val c) s' else None
  end.

Definition digits (s : string) : option Z :=
  if is_empty s then None else digits_from 0 s.

(** An optional sign in front of [s]. *)
Definition signed (s : string) : bool * string :=
  match s with
  | String "-" s' => (true, s')
  | String "+" s' => (false, s')
  | _ => (false, s)
  end.

(** A decimal literal with an optional sign. *)
Definition integer (t : string) : option Z :=
  let (neg, body) := signed t in
  match digits body with
  | Some z => Some (if neg then - z else z)%Z
  | None => None
  end.

(** [int(s)] on a string: a decimal literal with an optional sign, white
    space around it ignored; [None] stands for [ValueError]. *)
Definition int_of_string (s : string) : option Z := integer (strip s).

(** [long(s)] on a string: as [int(s)], and the literal may end in one
    [L] or [l]. *)
Definition long_of_string (s : string) : option Z :=
  let t := strip s in
  match rev_string t with
  | String c r =>
      if Ascii.eqb c "L" || Ascii.eqb c "l" then integer (rev_string r)
      else integer t
  | EmptyString => None
  end.

(** Splits [s] at the first character [p] accepts. *)
Fixpoint break_at (p : ascii -> bool) (s : string) : string * option string :=
  match s with
  | EmptyString => (EmptyString, None)
  | String c s' =>
      if p c then (EmptyString, Some s')
      else let (a, b) := break_at p s' in (String c a, b)
  end.

Definition pow10 (e : Z) : Q :=
  if (0 <=? e)%Z then inject_Z (10 ^ e) else / inject_Z (10 ^ (- e)).

(** Mantissa [i.f], [i.], [.f] or [i]; at least one digit. *)
Definition mantissa (s : string) : option Q :=
  let (i, rest) := break_at (Ascii.eqb ".") s in
  let f := match rest with Some f => f | None => EmptyString end in
  if is_empty i && is_empty f then None
  else
    match digits_from 0 i, digits_from 0 f with
    | Some zi, Some zf =>
        Some (inject_Z zi + inject_Z zf * pow10 (- Z.of_nat (String.length f)))
    | _, _ => None
    end.

(** *** Floats *)

(** A Python float: a number, an infinity or [nan].  A number is kept as
    the rational it stands for.  A Python float is the double nearest to
    that rational; the rounding to 53 bits is not modelled, so that two
    literals which round to the same double stay apart here, and the two
    zeros are one. *)
Inductive float : Type :=
| Finite (q : Q)
| Inf (negative : bool)
| NaN.

(** From this bound on a decimal literal rounds to an infinity: the
    middle between the largest double and [2 ^ 1024]. *)
Definition OVERFLOW : Q := inject_Z (2 ^ 1024 - 2 ^ 970).

Definition to_float (q : Q) : float :=
  if Qle_bool OVERFLOW q then Inf false
  else if Qle_bool q (- OVERFLOW) then Inf true
  else Finite q.

Definition flt_neg (a : float) : float :=
  match a with
  | Finite q => Finite (- q)
  | Inf negative => Inf (negb negative)
  | NaN => NaN
  end.

(** [a + b] : the sum of two infinities of different sign is [nan]. *)
Definition flt_add (a b : float) : float :=
  match a, b with
  | NaN, _ | _, NaN => NaN
  | Inf x, Inf y => if Bool.eqb x y then Inf x else NaN
  | Inf x, Finite _ => Inf x
  | Finite _, Inf y => Inf y
  | Finite p, Finite q => Finite (p + q)
  end.

Definition flt_sub (a b : float) : float := flt_add a (flt_neg b).

(** [a < b] and [a <= b] : false as soon as one side is [nan]. *)
Definition flt_ltb (a b : float) : bool :=
  match a, b with
  | NaN, _ | _, NaN => false
  | Finite p, Finite q =>
      match (p ?= q)%Q with Lt => true | _ => false end
  | Inf x, Inf y => x && negb y
  | Inf x, Finite _ => x
  | Finite _, Inf y => negb y
  end.


(** [a / d] for a number [d] above zero. *)
Definition flt_div (a : float) (d : Q) : float :=
  match a with
  | Finite q => Finite (q / d)
  | other => other
  end.

Definition lower (c : ascii) : ascii :=
  let n := N_of_ascii c in
  if ((65 <=? n) && (n <=? 90))%N then ascii_of_N (n + 32) else c.

(** [s.lower()] *)
Fixpoint lowercase (s : string) : string :=
  match s with
  | EmptyString => EmptyString
  | String c s' => String (lower c) (lowercase s')
  end.

(** A decimal literal without sign: a mantissa and an optional exponent
    [e] or [E] with its own sign. *)
Definition decimal (body : string) : option Q :=
  let (m, e) :=
    break_at (fun c => Ascii.eqb c "e" || Ascii.eqb c "E") body in
  match mantissa m with
  | None => None
  | Some q =>
      match e with
      | None => Some q
      | Some es =>
          let (eneg, ebody) := signed es in
          match digits ebody with
          | Some z => Some (q * pow10 (if eneg then - z else z))
          | None => None
          end
      end
  end.

(** [float(s)] on a string: white space around the text is ignored, a
    sign may come first, and what follows is [inf], [infinity] or [nan]
    in any case of letters, or a decimal literal.  [None] stands for
    [ValueError]. *)
Definition float_of_string (s : string) : option float :=
  let (neg, body) := signed (strip s) in
  let word := lowercase body in
  if String.eqb word "inf" || String.eqb word "infinity" then Some (Inf neg)
  else if String.eqb word "nan" then Some NaN
  else
    match decimal body with
    | Some q => Some (to_float (if neg then - q else q))
    | None => None
    end.

(** [glob.has_magic(s)] : one of the characters a pattern is made with
    occurs in [s]. *)
Definition has_magic (s : string) : bool :=
  contains_char "*" s || contains_char "?" s || contains_char "[" s.

(** *** os.path *)

(** [os.path.join(a, b)] on POSIX. *)
Definition path_join (a b : string) : string :=
  if startswith "/" b then b
  else if is_empty a || endswith "/" a then a ++ b
  else a ++ "/" ++ b.

(** [os.path.basename(p)] : what follows the last slash. *)
Definition basename (p : string) : string :=
  last (split_on "/" p) EmptyString.

End Py.

(** ** Regular expressions

    The two patterns of the memcached collector need literal characters,
    one-character classes, greedy [+] over a class, greedy [?] and groups.
    The matcher backtracks the way Python's [re] does: a greedy operator
    tries its longest match first and gives characters back when what
    follows fails. *)

Module Re.

Inductive re : Type :=
| Chr (c : ascii)
| Plus (p : ascii -> bool)
| Seq (a b : re)
| Opt (a : re)
| Grp (n : nat) (a : re).

Definition captures := list (nat * string).

(** [m.group(n)] : [None] when group [n] took no part in the match. *)
Fixpoint group (n : nat) (caps : captures) : option string :=
  match caps with
  | [] => None
  | (k, v) :: rest => if Nat.eqb k n then Some v else group n rest
  end.

(** The [n] first characters of [s]. *)
Fixpoint take (n : nat) (s : string) : string :=
  match n, s with
  | S n', String c s' => String c (take n' s')
  | _, _ => EmptyString
  end.

(** What was consumed between [s] and its suffix [s']. *)
Definition consumed (s s' : string) : string :=
  take (String.length s - String.length s') s.

Section Matcher.
Variable R : Type.

(** One or more characters of class [p], longest run first. *)
Fixpoint plus (p : ascii -> bool) (s : string) (k : string -> option R)
  : option R :=
  match s with
  | EmptyString => None
  | String c s' =>
      if p c then
        match plus p s' k with
        | Some r => Some r
        | None => k s'
        end
      else None
  end.

Fixpoint run (r : re) (s : string) (caps : captures)
    (k : string -> captures -> option R) : option R :=
  match r with
  | Chr c =>
      match s with
      | String d s' => if Ascii.eqb c d then k s' caps else None
      | EmptyString => None
      end
  | Plus p => plus p s (fun s' => k s' caps)
  | Seq a b => run a s caps (fun s' caps' => run b s' caps' k)
  | Opt a =>
      match run a s caps k with
      | Some x => Some x
      | None => k s caps
      end
  | Grp n a =>
      run a s caps (fun s' caps' => k s' ((n, consumed s s') :: caps'))
  end.
End Matcher.

(** [re.match(r, s)] *)
Definition match_here (r : re) (s : string) : option captures :=
  run captures r s [] (fun _ caps => Some caps).

(** [re.search(r, s)] : the match at the leftmost position that has one. *)
Fixpoint search (r : re) (s : string) : option captures :=
  match match_here r s with
  | Some caps => Some caps
  | None =>
      match s with
      | EmptyString => None
      | String _ s' => search r s'
      end
  end.

Definition any_but (c : ascii) (d : ascii) : bool := negb (Ascii.eqb c d).

End Re.

(** ** The host framework as the collectors see it *)

Module Host.

(** What a metric is published with. *)
Inductive value : Type :=
| VInt (z : Z)
| VFloat (f : Py.float)
| VStr (s : string).

Inductive kind : Type := Plain | Gauge | Counter.

(** One call of [publish] ([Plain]), [publish_gauge] or
    [publish_counter]: the name and the value passed.  The precision some
    calls pass as well is not kept. *)
Record sample : Type := Sample {
  s_kind : kind;
  s_name : string;
  s_value : value
}.

Inductive level : Type := Error | Debug | Exception.

(** One call on [self.log]: the level and the message, the format's
    arguments put in. *)
Record entry : Type := Entry {
  e_level : level;
  e_text : string
}.

Inductive family : Type := AF_UNIX | AF_INET.

(** The calls a collector makes itself on the [socket] objects it
    creates, in order.  What [urllib2] does underneath [urlopen] is not
    among them. *)
Inductive sock_call : Type :=
| SockCreate (f : family)
| SockConnect (host : string) (port : option Z)
| SockSetTimeout (seconds : Z)
| SockSend (data : string)
| SockRecv (size : Z)
| SockClose.

Record state : Type := State {
  published : list sample;
  log : list entry;
  last_values : list (string * Py.float);
  sock_calls : list sock_call
}.

Definition initial : state := State [] [] [] [].

Inductive exn : Type :=
| ValueError | IndexError | KeyError | TypeError | AttributeError
| IOError | OSError | URLError | HTTPError | NotImplementedError.

Definition exn_name (e : exn) : string :=
  match e with
  | ValueError => "ValueError" | IndexError => "IndexError"
  | KeyError => "KeyError" | TypeError => "TypeError"
  | AttributeError => "AttributeError" | IOError => "IOError"
  | OSError => "OSError" | URLError => "URLError"
  | HTTPError => "HTTPError"
  | NotImplementedError => "NotImplementedError"
  end.

Inductive result (A : Type) : Type :=
| Ok (a : A)
| Raise (e : exn).
Arguments Ok {A} a.
Arguments Raise {A} e.

(** A computation: it returns or raises, and leaves a state either way. *)
Definition M (A : Type) : Type := state -> result A * state.

Definition ret {A} (a : A) : M A := fun st => (Ok a, st).
Definition raise {A} (e : exn) : M A := fun st => (Raise e, st).

Definition bind {A B} (c : M A) (k : A -> M B) : M B :=
  fun st =>
    match c st with
    | (Ok a, st') => k a st'
    | (Raise e, st') => (Raise e, st')
    end.

(** [try: c except <caught>: handler] *)
Definition try_except {A} (c : M A) (caught : exn -> bool)
    (handler : exn -> M A) : M A :=
  fun st =>
    match c st with
    | (Raise e, st') => if caught e then handler e st' else (Raise e, st')
    | r => r
    end.

(** A Python expression that may raise. *)
Definition lift {A} (e : exn) (o : option A) : M A :=
  match o with
  | Some a => ret a
  | None => raise e
  end.

Declare Scope py_scope.
Delimit Scope py_scope with py.
Notation "x <- c ;; k" := (bind c (fun x => k))
  (at level 61, c at next level, right associativity) : py_scope.
Notation "c ;; k" := (bind c (fun _ => k))
  (at level 61, right associativity) : py_scope.
Local Open Scope py_scope.

(** [for x in l: body x] *)
Fixpoint for_each {A} (l : list A) (body : A -> M unit) : M unit :=
  match l with
  | [] => ret tt
  | x :: rest => body x ;; for_each rest body
  end.

(** [for x in l: acc = body acc x] : a loop that updates local variables. *)
Fixpoint fold_each {A B} (l : list A) (acc : B) (body : B -> A -> M B)
  : M B :=
  match l with
  | [] => ret acc
  | x :: rest => acc' <- body acc x ;; fold_each rest acc' body
  end.

Definition emit (s : sample) : M unit :=
  fun st => (Ok tt, State (published st ++ [s]) (log st)
                          (last_values st) (sock_calls st)).

(** Modelled from the spec: [Collector.publish], [publish_gauge] and
    [publish_counter] of [diamond/collector.py], which is not among the
    sources.  The spec gives them as [publish(name, value, precision?)],
    [publish_gauge(name, value)] and [publish_counter(name, value)]
    supplied by the host, and has gauges and counters published "with the
    raw value": each is the record of one call, with the name and the
    value passed, and what the host does with a counter downstream is not
    part of it. *)
Definition publish (name : string) (v : value) : M unit :=
  emit (Sample Plain name v).

(** Modelled from the spec: [Collector.publish_gauge], as [publish]. *)
Definition publish_gauge (name : string) (v : value) : M unit :=
  emit (Sample Gauge name v).

(** Modelled from the spec: [Collector.publish_counter], as [publish]:
    the spec has counters published "with the raw value". *)
Definition publish_counter (name : string) (v : value) : M unit :=
  emit (Sample Counter name v).

Definition log_at (l : level) (text : string) : M unit :=
  fun st => (Ok tt, State (published st) (log st ++ [Entry l text])
                          (last_values st) (sock_calls st)).

Definition log_error := log_at Error.
Definition log_debug := log_at Debug.
Definition log_exception := log_at Exception.

Definition sock (c : sock_call) : M unit :=
  fun st => (Ok tt, State (published st) (log st) (last_values st)
                          (sock_calls st ++ [c])).

(** *** The table behind [derivative] *)

Fixpoint lookup {A} (k : string) (d : list (string * A)) : option A :=
  match d with
  | [] => None
  | (k', v) :: rest => if String.eqb k k' then Some v else lookup k rest
  end.

(** [d[k] = v] on a dictionary kept in insertion order.  Python gives the
    keys of a dictionary no order a caller may rely on; the properties
    below are stated up to the order of what is published. *)
Fixpoint dict_set {A} (k : string) (v : A) (d : list (string * A))
  : list (string * A) :=
  match d with
  | [] => [(k, v)]
  | (k', v') :: rest =>
      if String.eqb k k' then (k, v) :: rest
      else (k', v') :: dict_set k v rest
  end.

Definition keys {A} (d : list (string * A)) : list string := map fst d.

(** Modelled from the spec: [Collector.derivative] of
    [diamond/collector.py], which is not among the sources.  The spec
    gives it as [derivative(name, raw_value, modulus?) -> delta] over a
    table from metric name to the raw value seen before: with previous
    value [v0] and new value [v1], the delta is [v1 - v0] when
    [v1 >= v0] and [(modulus - v0) + v1] when [v1 < v0]; the new value
    replaces the old one.  The spec leaves the first observation of a
    name open ("published as 0 or suppressed"); it gives 0 here.  With a
    [nan] on either side no comparison holds, and the delta is the
    difference. *)
Definition derivative (name : string) (new : Py.float) (modulus : Q)
  : M Py.float :=
  fun st =>
    let delta :=
      match lookup name (last_values st) with
      | Some old =>
          if Py.flt_ltb new old
          then Py.flt_add (Py.flt_sub (Py.Finite modulus) old) new
          else Py.flt_sub new old
      | None => Py.Finite 0
      end in
    (Ok delta, State (published st) (log st)
                     (dict_set name new (last_values st)) (sock_calls st)).

(** Modelled from the spec: the modulus [derivative] takes when the caller
    passes none.  The spec marks the argument optional ([modulus?]) and
    says no more; it is left to the host's configuration. *)
Record defaults : Type := Defaults {
  derivative_modulus : Q
}.

(** Configuration values: [None], a string, or a list of strings. *)
Inductive cfgval : Type :=
| CNone
| CStr (s : string)
| CList (l : list string).

(** [len(v)]; [None] has no length. *)
Definition cfg_len (v : cfgval) : M nat :=
  match v with
  | CNone => raise TypeError
  | CStr s => ret (String.length s)
  | CList l => ret (List.length l)
  end.

Fixpoint mem (x : string) (l : list string) : bool :=
  match l with
  | [] => false
  | y :: rest => String.eqb x y || mem x rest
  end.

(** [x in v] : an element of a list, a piece of a string. *)
Definition cfg_contains (x : string) (v : cfgval) : M bool :=
  match v with
  | CNone => raise TypeError
  | CStr s => ret (Py.contains x s)
  | CList l => ret (mem x l)
  end.

Fixpoint chars (s : string) : list string :=
  match s with
  | EmptyString => []
  | String c s' => String c EmptyString :: chars s'
  end.

(** [for x in v] : the elements of a list, the characters of a string. *)
Definition cfg_iter (v : cfgval) : M (list string) :=
  match v with
  | CNone => raise TypeError
  | CStr s => ret (chars s)
  | CList l => ret l
  end.

End Host.

(** ** The world a collection cycle runs in *)

Module World.
Import Host.
Local Open Scope py_scope.

(** A path names a file, with its content and whether the process may
    read it, or a directory the process may read and search, with the
    names [os.listdir] gives.  Directories closed to the process are not
    among the worlds. *)
Inductive node : Type :=
| File (readable : bool) (content : string)
| Dir (entries : list string).

(** What a memcached endpoint does: whether [connect] and [send] succeed
    and what the successive [recv] calls give, [None] for one that raises
    [socket.error] (a timeout among them).  After the last one the peer
    has closed and [recv] gives the empty string. *)
Record peer : Type := Peer {
  connect_ok : bool;
  send_ok : bool;
  recvs : list (option string)
}.

(** A JSON document as [json.load] returns it. *)
#[warnings="-register-all"]
Inductive json : Type :=
| JNull
| JBool (b : bool)
| JNum (q : Q)
| JStr (s : string)
| JArr (l : list json)
| JObj (o : list (string * json)).

(** What [json.load(urllib2.urlopen(url))] does: [urlopen] raises
    [HTTPError] or another [URLError], or the body arrives and [json.load]
    decodes it or raises [ValueError].  The connection [urllib2] makes
    for it is not recorded. *)
Inductive fetched : Type :=
| FetchHTTPError
| FetchURLError
| FetchUndecodable
| FetchDocument (doc : json).

Record world : Type := Build {
  fs : string -> option node;
  peer_at : string -> option Z -> peer;
  urlopen : string -> fetched
}.

(** [os.access(p, os.R_OK)] *)
Definition access (w : world) (p : string) : bool :=
  match fs w p with
  | Some (File r _) => r
  | Some (Dir _) => true
  | None => false
  end.

(** [os.path.exists(p)] *)
Definition exists_ (w : world) (p : string) : bool :=
  match fs w p with Some _ => true | None => false end.

(** [os.path.isdir(p)] *)
Definition isdir (w : world) (p : string) : bool :=
  match fs w p with Some (Dir _) => true | _ => false end.

(** [os.listdir(p)] *)
Definition listdir (w : world) (p : string) : M (list string) :=
  match fs w p with
  | Some (Dir es) => ret es
  | _ => raise OSError
  end.

(** [open(p)] for reading: the content still to be read. *)
Definition open (w : world) (p : string) : M string :=
  match fs w p with
  | Some (File true c) => ret c
  | _ => raise IOError
  end.

Definition LIMIT : N := 5000000.

(** The lines successive [readline(5_000_000)] calls give on a file just
    opened; after the last one [readline] gives the empty string. *)
Definition lines (content : string) : list string :=
  Py.readlines_limit LIMIT LIMIT content.

(** The first [readline(5_000_000)] on a file just opened. *)
Definition readline (content : string) : string := hd EmptyString (lines content).

(** [glob.glob(os.path.join(d, "*"))] for a [d] that [Py.has_magic]
    refuses, so that [glob] takes [d] as the name of one directory: the
    entries of [d] whose name does not start with a dot, as paths, in the
    order [os.listdir] gives them; nothing when [d] is no directory.  For
    a [d] with a [*], [?] or [[] in it [glob] would look for the
    directories that match; the properties of the KSM collector are
    stated for a [d] without. *)
Definition glob_all (w : world) (d : string) : list string :=
  match fs w d with
  | Some (Dir es) =>
      map (Py.path_join d)
          (filter (fun n => negb (Py.startswith "." n)) es)
  | _ => []
  end.

(** [j[k]] *)
Definition getitem (j : json) (k : string) : M json :=
  match j with
  | JObj o => lift KeyError (lookup k o)
  | _ => raise TypeError
  end.

Definition json_eqb_str (k : string) (j : json) : bool :=
  match j with JStr s => String.eqb k s | _ => false end.

(** [k in j] for a string [k] *)
Definition contains (k : string) (j : json) : M bool :=
  match j with
  | JObj o => ret (mem k (keys o))
  | JArr l => ret (existsb (json_eqb_str k) l)
  | JStr s => ret (Py.contains k s)
  | _ => raise TypeError
  end.

(** [for x in j] *)
Definition iter (j : json) : M (list json) :=
  match j with
  | JArr l => ret l
  | JObj o => ret (map JStr (keys o))
  | JStr s => ret (map JStr (chars s))
  | _ => raise TypeError
  end.

(** A value used where a string method is called on it. *)
Definition as_str (e : exn) (j : json) : M string :=
  match j with
  | JStr s => ret s
  | _ => raise e
  end.

End World.

(** ** collectors/ip/ip.py *)

Module IPCollector.
Import Host World.
Local Open Scope py_scope.

Definition PROC : list string := ["/proc/net/snmp"].

Definition GAUGES : list string := ["Forwarding"; "DefaultTTL"].

Record config : Type := Config {
  allowed_names : cfgval
}.

(** [get_default_config] : the names come as one string. *)
Definition default_config : config :=
  Config (CStr ("InAddrErrors, InDelivers, InDiscards, " ++
                "InHdrErrors, InReceives, InUnknownProtos, OutDiscards, " ++
                "OutNoRoutes, OutRequests")).

(** [process_config] : an [allowed_names] that is [None] becomes the empty
    list. *)
Definition process_config (c : config) : config :=
  match allowed_names c with
  | CNone => Config (CList [])
  | _ => c
  end.

(** The [while True] loop over [file.readline]: the first line that
    starts with [prefix] is the header and the line read next the data;
    both stay empty when the end of the file comes first. *)
Fixpoint seek (prefix : string) (ls : list string) : string * string :=
  match ls with
  | [] => (EmptyString, EmptyString)
  | line :: rest =>
      if Py.startswith prefix line then (line, hd EmptyString rest)
      else seek prefix rest
  end.

(** [for i in xrange(1, len(header)): metrics[header[i]] = data[i]],
    [names] being [header[i:]]. *)
Fixpoint zip_up (names : list string) (i : nat) (data : list string)
    (metrics : list (string * string)) : M (list (string * string)) :=
  match names with
  | [] => ret metrics
  | name :: rest =>
      v <- lift IndexError (nth_error data i) ;;
      zip_up rest (S i) data (dict_set name v metrics)
  end.

(** The body of [for filepath in self.PROC], shared with the UDP collector
    but for the prefix and the wording of the log.  [open] returns a file
    object or raises, and a file object is true: the [if not file] branch
    is never taken. *)
Definition read_file (w : world) (prefix missing : string)
    (metrics : list (string * string)) (filepath : string)
  : M (list (string * string)) :=
  if negb (access w filepath) then
    log_error ("Permission to access " ++ filepath ++ " denied") ;;
    ret metrics
  else
    file <- open w filepath ;;
    let (header, data) := seek prefix (lines file) in
    if Py.is_empty header || Py.is_empty data then
      log_error (filepath ++ missing) ;;
      ret metrics
    else
      let header := Py.split header in
      let data := Py.split data in
      zip_up (tl header) 1 data metrics.

(** [len(allowed) > 0 and metric_name not in allowed] *)
Definition filtered_out (allowed : cfgval) (metric_name : string) : M bool :=
  n <- cfg_len allowed ;;
  if (0 <? n)%nat then
    present <- cfg_contains metric_name allowed ;;
    ret (negb present)
  else ret false.

Definition publish_metric (c : config) (metrics : list (string * string))
    (metric_name : string) : M unit :=
  skip <- filtered_out (allowed_names c) metric_name ;;
  if skip then ret tt
  else
    raw <- lift KeyError (lookup metric_name metrics) ;;
    value <- lift ValueError (Py.long_of_string raw) ;;
    if mem metric_name GAUGES
    then publish_gauge metric_name (VInt value)
    else publish_counter metric_name (VInt value).

(** The first loop of [collect]: the names and raw values read. *)
Definition scan (w : world) : M (list (string * string)) :=
  fold_each PROC [] (read_file w "Ip" " has no lines starting with Ip").

Definition collect (w : world) (c : config) : M unit :=
  metrics <- scan w ;;
  for_each (keys metrics) (publish_metric c metrics).

End IPCollector.

(** ** collectors/udp/udp.py *)

Module UDPCollector.
Import Host World.
Local Open Scope py_scope.

Definition PROC : list string := ["/proc/net/snmp"].

Record config : Type := Config {
  allowed_names : cfgval
}.

(** [get_default_config] : the names come as one string. *)
Definition default_config : config :=
  Config (CStr ("InDatagrams, NoPorts, InErrors, " ++
                "OutDatagrams, RcvbufErrors, SndbufErrors")).

Definition process_config (c : config) : config :=
  match allowed_names c with
  | CNone => Config (CList [])
  | _ => c
  end.

Definition publish_metric (d : defaults) (c : config)
    (metrics : list (string * string)) (metric_name : string) : M unit :=
  skip <- IPCollector.filtered_out (allowed_names c) metric_name ;;
  if skip then ret tt
  else
    value <- lift KeyError (lookup metric_name metrics) ;;
    raw <- lift ValueError (Py.long_of_string value) ;;
    value <- derivative metric_name (Py.Finite (inject_Z raw))
               (derivative_modulus d) ;;
    publish metric_name (VFloat value).

(** The first loop of [collect]: the names and raw values read. *)
Definition scan (w : world) : M (list (string * string)) :=
  fold_each PROC [] (IPCollector.read_file w "Udp" " has no lines with Udp").

Definition collect (w : world) (d : defaults) (c : config) : M unit :=
  metrics <- scan w ;;
  for_each (keys metrics) (publish_metric d c metrics).

End UDPCollector.

(** What [collect] hands back: nothing, or the empty dictionary of an early
    [return {}]. *)
Inductive returned : Type := RNone | REmptyDict.

(** ** collectors/kvm/kvm.py *)

Module KVMCollector.
Import Host World.
Local Open Scope py_scope.

Definition PROC : string := "/sys/kernel/debug/kvm".

Definition MAX : Q := inject_Z 4294967295.

(** The body of [for filename in os.listdir(self.PROC)].  The names
    [listdir] gives hold no slash, so [os.path.abspath] leaves the joined
    path as it is. *)
Definition collect_file (w : world) (filename : string) : M unit :=
  let filepath := Py.path_join PROC filename in
  fh <- open w filepath ;;
  raw <- lift ValueError (Py.float_of_string (readline fh)) ;;
  metric_value <- derivative filename raw MAX ;;
  publish filename (VFloat metric_value).

Definition collect (w : world) : M returned :=
  if negb (isdir w PROC) then
    log_error ("/sys/kernel/debug/kvm is missing. Did you" ++
               " " ++ Py.dquote ++
               "mount -t debugfs debugfs /sys/kernel/debug" ++
               Py.dquote ++ "?") ;;
    ret REmptyDict
  else
    filenames <- listdir w PROC ;;
    for_each filenames (collect_file w) ;;
    ret RNone.

End KVMCollector.

(** ** collectors/ksm/ksm.py *)

Module KSMCollector.
Import Host World.
Local Open Scope py_scope.

Record config : Type := Config {
  ksm_path : string
}.

Definition default_config : config := Config "/sys/kernel/mm/ksm".

Definition is_ValueError (e : exn) : bool :=
  match e with ValueError => true | _ => false end.

(** The body of [for item in glob.glob(...)]. *)
Definition collect_item (w : world) (item : string) : M unit :=
  if access w item then
    filehandle <- open w item ;;
    try_except
      (v <- lift ValueError
              (Py.float_of_string (Py.rstrip (readline filehandle))) ;;
       publish (Py.basename item) (VFloat v))
      is_ValueError
      (fun _ => ret tt)
  else ret tt.

Definition collect (w : world) (c : config) : M unit :=
  for_each (glob_all w (ksm_path c)) (collect_item w).

End KSMCollector.

(** ** collectors/uptime/uptime.py *)

Module UptimeCollector.
Import Host World.
Local Open Scope py_scope.

Definition PROC : string := "/proc/uptime".

Record config : Type := Config {
  metric_name : string
}.

Definition default_config : config := Config "minutes".

(** Modelled from the spec: [diamond.convertor.time.convert], which is not
    among the sources.  The spec says the seconds read are converted "to
    a configured target unit (default minutes) via a unit-conversion
    utility" and fixes one point of it: with the unit "minutes", 12345.67
    becomes 12345.67/60.  Seconds stay as they are; any other unit is
    outside what the spec says and is modelled as the utility raising. *)
Definition convert (v : Py.float) (old_unit new_unit : string)
  : M Py.float :=
  if negb (String.eqb old_unit "s") then raise NotImplementedError
  else if String.eqb new_unit "minutes"
  then ret (Py.flt_div v (inject_Z 60))
  else if String.eqb new_unit "seconds" then ret v
  else raise NotImplementedError.

(** [read] : [None] stands for Python's [None]. *)
Definition read (w : world) (c : config) : M (option Py.float) :=
  try_except
    (fd <- open w PROC ;;
     let uptime := readline fd in
     tok <- lift IndexError (nth_error (Py.split uptime) 0) ;;
     v <- lift ValueError (Py.float_of_string (Py.strip tok)) ;;
     r <- convert v "s" (metric_name c) ;;
     ret (Some r))
    (fun _ => true)
    (fun e =>
       log_error ("Unable to read uptime from " ++ PROC ++ ": " ++
                  exn_name e) ;;
       ret None).

Definition collect (w : world) (c : config) : M returned :=
  if negb (exists_ w PROC) then
    log_error ("Input path " ++ PROC ++ " does not exist") ;;
    ret REmptyDict
  else
    v <- read w c ;;
    match v with
    | Some v => publish (metric_name c) (VFloat v) ;; ret RNone
    | None => ret RNone
    end.

End UptimeCollector.

(** ** collectors/memcached/memcached.py *)

Module MemcachedCollector.
Import Host World.
Local Open Scope py_scope.

Definition GAUGES : list string :=
  ["bytes"; "connection_structures"; "curr_connections"; "curr_items";
   "threads"; "reserved_fds"; "limit_maxbytes"; "hash_power_level";
   "hash_bytes"; "hash_is_expanding"; "uptime"].

(** [publish] is [None] when the option is not set. *)
Record config : Type := Config {
  hosts : cfgval;
  publish_names : option cfgval
}.

Definition default_config : config :=
  Config (CList ["localhost:11211"]) None.

Definition END : string :=
  "END" ++ String Py.cr (String Py.nl EmptyString).

Definition REQUEST : string := "stats" ++ String Py.nl EmptyString.

(** The [while True] loop over [sock.recv(4096)]: the data gathered, and
    whether a [recv] raised [socket.error]. *)
Fixpoint recv_loop (evs : list (option string)) (data : string)
  : M (string * bool) :=
  sock (SockRecv 4096) ;;
  match evs with
  | [] => ret (data, false)
  | None :: _ => ret (data, true)
  | Some received :: rest =>
      if Py.is_empty received then ret (data, false)
      else
        let data := (data ++ received)%string in
        if Py.endswith END data then ret (data, false)
        else recv_loop rest data
  end.

Definition failed (host : string) (port : option string) : M unit :=
  log_exception ("Failed to get stats from " ++ host ++ ":" ++
                 match port with Some p => p | None => "None" end).

(** [get_raw_stats].  The [try] block is laid out call by call: a call
    that raises [socket.error] goes to the handler, which logs; then the
    socket is closed and [data], as far as it got, is returned.  What
    [connect] does is the peer's: it goes through or raises
    [socket.error].  A number outside 0 to 65535 is no address of a peer;
    [connect] turns it down with an [OverflowError] of its own, which is
    not among the outcomes here, and the properties that depend on it
    are stated for ports from 0 to 65535. *)
Definition get_raw_stats (w : world) (host : string) (port : option string)
  : M string :=
  let data := EmptyString in
  number <- match port with
            | None => sock (SockCreate AF_UNIX) ;; ret None
            | Some p =>
                sock (SockCreate AF_INET) ;;
                n <- lift ValueError (Py.int_of_string p) ;;
                ret (Some n)
            end ;;
  let remote := peer_at w host number in
  sock (SockConnect host number) ;;
  if negb (connect_ok remote) then
    failed host port ;; sock SockClose ;; ret data
  else
    sock (SockSetTimeout 3) ;;
    sock (SockSend REQUEST) ;;
    if negb (send_ok remote) then
      failed host port ;; sock SockClose ;; ret data
    else
      r <- recv_loop (recvs remote) data ;;
      let (data, raised) := r in
      (if raised then failed host port else ret tt) ;;
      sock SockClose ;;
      ret data.

Definition ignored : list string :=
  ["libevent"; "pointer_size"; "time"; "version"; "repcached_version";
   "replication"; "accepting_conns"; "pid"].

(** The pattern [-c\x00(\d+)]. *)
Definition maxconn_re : Re.re :=
  Re.Seq (Re.Chr "-") (Re.Seq (Re.Chr "c") (Re.Seq (Re.Chr Py.nul)
    (Re.Grp 1 (Re.Plus Py.is_digit)))).

(** The body of [for line in data.splitlines()], on the local variables
    [pid] and [stats]. *)
Definition parse_line (acc : option string * list (string * value))
    (line : string) : M (option string * list (string * value)) :=
  let (pid, stats) := acc in
  let pieces := Py.split_on " " line in
  p0 <- lift IndexError (nth_error pieces 0) ;;
  skip <- (if negb (String.eqb p0 "STAT") then ret true
           else p1 <- lift IndexError (nth_error pieces 1) ;;
                ret (mem p1 ignored)) ;;
  if skip then ret (pid, stats)
  else
    p1 <- lift IndexError (nth_error pieces 1) ;;
    if String.eqb p1 "pid" then
      p2 <- lift IndexError (nth_error pieces 2) ;;
      ret (Some p2, stats)
    else
      p2 <- lift IndexError (nth_error pieces 2) ;;
      if Py.contains_char "." p2 then
        v <- lift ValueError (Py.float_of_string p2) ;;
        ret (pid, dict_set p1 (VFloat v) stats)
      else
        v <- lift ValueError (Py.int_of_string p2) ;;
        ret (pid, dict_set p1 (VInt v) stats).

(** ["%s" % pid] *)
Definition show_pid (pid : option string) : string :=
  match pid with Some p => p | None => "None" end.

Definition get_stats (w : world) (host : string) (port : option string)
  : M (list (string * value)) :=
  data <- get_raw_stats w host port ;;
  acc <- fold_each (Py.splitlines data) (None, []) parse_line ;;
  let (pid, stats) := acc in
  log_debug ("pid " ++ show_pid pid) ;;
  try_except
    (let cmdline := ("/proc/" ++ show_pid pid ++ "/cmdline")%string in
     f <- open w cmdline ;;
     match Re.search maxconn_re (readline f) with
     | Some m =>
         limit <- lift IndexError (Re.group 1 m) ;;
         log_debug ("limit connections " ++ limit) ;;
         ret (dict_set "limit_maxconn" (VStr limit) stats)
     | None => ret stats
     end)
    (fun _ => true)
    (fun _ =>
       log_debug "Cannot parse command line options for memcached" ;;
       ret stats).

(** The pattern [((.+)\@)?([^:]+)(:(\d+))?]; the dot takes any character
    but a line feed. *)
Definition host_re : Re.re :=
  Re.Seq
    (Re.Opt (Re.Grp 1 (Re.Seq (Re.Grp 2 (Re.Plus (Re.any_but Py.nl)))
                              (Re.Chr "@"))))
    (Re.Seq (Re.Grp 3 (Re.Plus (Re.any_but ":")))
            (Re.Opt (Re.Grp 4 (Re.Seq (Re.Chr ":")
                                      (Re.Grp 5 (Re.Plus Py.is_digit)))))).

(** The body of [for stat in desired]. *)
Definition publish_stat (alias : string) (stats : list (string * value))
    (stat : string) : M unit :=
  match lookup stat stats with
  | Some v =>
      if mem stat GAUGES
      then publish_gauge (alias ++ "." ++ stat) v
      else publish_counter (alias ++ "." ++ stat) v
  | None =>
      log_error ("No such key '" ++ stat ++ "' available, issue 'stats' " ++
                 "for a full list")
  end.

(** The body of [for host in hosts].  A host the pattern finds nothing in
    gives [None], and [None.group] raises; group 3 is part of every
    match. *)
Definition collect_host (w : world) (c : config) (host : string) : M unit :=
  matches <- lift AttributeError (Re.search host_re host) ;;
  let alias := Re.group 2 matches in
  hostname <- lift TypeError (Re.group 3 matches) ;;
  let port := Re.group 5 matches in
  let alias := match alias with Some a => a | None => hostname end in
  stats <- get_stats w hostname port ;;
  desired <- match publish_names c with
             | Some v => cfg_iter v
             | None => ret (keys stats)
             end ;;
  for_each desired (publish_stat alias stats).

Definition collect (w : world) (c : config) : M unit :=
  hosts <- match hosts c with
           | CStr s => ret [s]
           | other => cfg_iter other
           end ;;
  for_each hosts (collect_host w c).

End MemcachedCollector.

(** ** collectors/mesos_cgroup/mesos_cgroup.py *)

Module MesosCGroupCollector.
Import Host World.
Local Open Scope py_scope.

Record config : Type := Config {
  host : string;
  port : string;
  mesos_state_path : string
}.

Definition default_config : config :=
  Config "localhost" "5051" "state.json".

(** [clean_up] *)
Definition clean_up (text : string) : string :=
  Py.replace_char "/" "." text.

Definition caught (e : exn) : bool :=
  match e with HTTPError | ValueError => true | _ => false end.

(** [get_mesos_state] *)
Definition get_mesos_state (w : world) (c : config) : M json :=
  try_except
    (let url := ("http://" ++ host c ++ ":" ++ port c ++ "/" ++
                 mesos_state_path c)%string in
     match urlopen w url with
     | FetchHTTPError => raise HTTPError
     | FetchURLError => raise URLError
     | FetchUndecodable => raise ValueError
     | FetchDocument doc => ret doc
     end)
    caught
    (fun err =>
       log_error ("Unable to read JSON response: " ++ exn_name err) ;;
       ret (JObj [])).

(** [a, b, c, d = l] *)
Definition unpack4 (l : list string)
  : M (string * string * string * string) :=
  match l with
  | [a; b; c; d] => ret (a, b, c, d)
  | _ => raise ValueError
  end.

(** The body of [for executor in framework['executors']].  The table
    [containers] is looked up with strings only ([task_id], ['flags']), so
    of [containers[container] = ...] the string keys are kept; a list or
    an object as key raises, any other key leaves no entry a lookup can
    reach. *)
Definition add_executor (containers : list (string * json))
    (executor : json) : M (list (string * json)) :=
  container <- getitem executor "container" ;;
  source <- getitem executor "source" ;;
  source <- as_str AttributeError source ;;
  parts <- unpack4 (Py.split_on "." source) ;;
  let '(role, environment, task, number) := parts in
  let info := JObj [("role", JStr role);
                    ("environment", JStr environment);
                    ("task", JStr task);
                    ("id", JStr number)] in
  match container with
  | JStr key => ret (dict_set key info containers)
  | JArr _ | JObj _ => raise TypeError
  | _ => ret containers
  end.

Definition add_framework (containers : list (string * json))
    (framework : json) : M (list (string * json)) :=
  executors <- getitem framework "executors" ;;
  executors <- iter executors ;;
  fold_each executors containers add_executor.

(** [get_containers] *)
Definition get_containers (w : world) (c : config)
  : M (list (string * json)) :=
  state <- get_mesos_state w c ;;
  flags <- getitem state "flags" ;;
  let containers := [("flags", flags)] in
  has <- contains "frameworks" state ;;
  if has then
    frameworks <- getitem state "frameworks" ;;
    frameworks <- iter frameworks ;;
    fold_each frameworks containers add_framework
  else ret containers.

(** ['.'.join(parts)] : every part has to be a string. *)
Fixpoint strings (parts : list json) : M (list string) :=
  match parts with
  | [] => ret []
  | p :: rest =>
      s <- as_str TypeError p ;;
      ss <- strings rest ;;
      ret (s :: ss)
  end.

Definition dotted (parts : list json) : M string :=
  ss <- strings parts ;;
  ret (Py.join "." ss).

(** [key, value = kv_pair.split()] and the publish that follows. *)
Definition publish_pair (key_parts : list json) (kv_pair : string)
  : M unit :=
  match Py.split kv_pair with
  | [key; value] =>
      name <- dotted (key_parts ++ [JStr key]) ;;
      publish (clean_up name) (VStr value)
  | _ => raise ValueError
  end.

(** The body of [for task_id in ...]. *)
Definition collect_task (w : world) (containers : list (string * json))
    (aspect aspect_path task_id : string) : M unit :=
  match lookup task_id containers with
  | None => ret tt
  | Some info =>
      environment <- getitem info "environment" ;;
      role <- getitem info "role" ;;
      task <- getitem info "task" ;;
      id <- getitem info "id" ;;
      let key_parts := [environment; role; task; id; JStr aspect] in
      let task_id := Py.path_join aspect_path task_id in
      (if String.eqb aspect "cpuacct" then
         f <- open w (Py.path_join task_id (aspect ++ ".usage")) ;;
         let value := readline f in
         name <- dotted (key_parts ++ [JStr "usage"]) ;;
         publish (clean_up name) (VStr value)
       else ret tt) ;;
      f <- open w (Py.path_join task_id (aspect ++ ".stat")) ;;
      let data := Py.readlines f in
      for_each data (publish_pair key_parts)
  end.

(** The body of [for aspect in ['cpuacct', 'cpu', 'memory']]. *)
Definition collect_aspect (w : world) (containers : list (string * json))
    (sysfs cgroup_root : json) (aspect : string) : M unit :=
  sysfs <- as_str AttributeError sysfs ;;
  cgroup_root <- as_str AttributeError cgroup_root ;;
  let aspect_path :=
    Py.path_join (Py.path_join sysfs aspect) cgroup_root in
  contents <- listdir w aspect_path ;;
  for_each
    (filter (fun entry => isdir w (Py.path_join aspect_path entry)) contents)
    (collect_task w containers aspect aspect_path).

Definition collect (w : world) (c : config) : M unit :=
  containers <- get_containers w c ;;
  flags <- lift KeyError (lookup "flags" containers) ;;
  sysfs <- getitem flags "cgroups_hierarchy" ;;
  flags <- lift KeyError (lookup "flags" containers) ;;
  cgroup_root <- getitem flags "cgroups_root" ;;
  for_each ["cpuacct"; "cpu"; "memory"]
           (collect_aspect w containers sysfs cgroup_root).

End MesosCGroupCollector.


(** * Statements

    The predicates the properties are stated with, and the inputs their
    examples run on. *)

Module Spec.
Import Host World.

(** [emits P c] : from any state, [c] only adds samples to the published
    ones, and each sample it adds satisfies [P]; whether [c] returns or
    raises. *)
Definition emits (P : sample -> Prop) {A} (c : M A) : Prop :=
  forall st, exists new,
    published (snd (c st)) = published st ++ new /\ Forall P new.


(** The name of [s] came out of [clean_up] and holds no slash. *)
Definition cleaned (s : sample) : Prop :=
  (exists text, s_name s = MesosCGroupCollector.clean_up text) /\
  Py.contains_char "/" (s_name s) = false.

(** *** Socket calls and timeouts *)

Definition is_connect (c : sock_call) : bool :=
  match c with SockConnect _ _ => true | _ => false end.

Definition is_transfer (c : sock_call) : bool :=
  match c with SockSend _ | SockRecv _ => true | _ => false end.

Definition is_connect_or_recv (c : sock_call) : bool :=
  match c with SockConnect _ _ | SockRecv _ => true | _ => false end.

(** [covered blocking armed calls] : every call of [calls] that [blocking]
    accepts is made on a socket with a timeout set.  [armed] tells whether
    the socket has one so far; a socket just created has none. *)
Fixpoint covered (blocking : sock_call -> bool) (armed : bool)
    (calls : list sock_call) : bool :=
  match calls with
  | [] => true
  | SockCreate _ :: rest => covered blocking false rest
  | SockSetTimeout s :: rest => covered blocking (0 <? s)%Z rest
  | c :: rest =>
      (if blocking c then armed else true) && covered blocking armed rest
  end.

Definition timeout_is (seconds : Z) (c : sock_call) : bool :=
  match c with SockSetTimeout s => (s =? seconds)%Z | _ => true end.

(** The sequences of socket calls one [get_raw_stats] can make: the port
    is no number; the connection is refused; the request cannot be sent;
    the answer is read with [k] calls of [recv]. *)
Inductive shape (host : string) : list sock_call -> Prop :=
| shape_bad_port f : shape host [SockCreate f]
| shape_refused f n :
    shape host [SockCreate f; SockConnect host n; SockClose]
| shape_unsent f n :
    shape host [SockCreate f; SockConnect host n; SockSetTimeout 3;
                SockSend MemcachedCollector.REQUEST; SockClose]
| shape_read f n k :
    shape host ([SockCreate f; SockConnect host n; SockSetTimeout 3;
                 SockSend MemcachedCollector.REQUEST] ++
                repeat (SockRecv 4096) k ++ [SockClose]).

(** *** What a cycle reads *)

(** What the KSM collector publishes for a path. *)
Definition item_samples (w : world) (item : string) : list sample :=
  match fs w item with
  | Some (File true t) =>
      match Py.float_of_string (Py.rstrip (readline t)) with
      | Some v => [Sample Plain (Py.basename item) (VFloat v)]
      | None => []
      end
  | _ => []
  end.

Definition visible (name : string) : bool := negb (Py.startswith "." name).

(** The number the KVM collector reads in the file [f] of its
    directory. *)
Definition kvm_observed (w : world) (f : string) : option Py.float :=
  match fs w (Py.path_join KVMCollector.PROC f) with
  | Some (File true c) => Py.float_of_string (readline c)
  | _ => None
  end.




(** The delta of [raw] against what the table held, as [derivative]
    gives it. *)
Definition derived (modulus : Q) (old : option Py.float) (raw : Py.float)
  : Py.float :=
  match old with
  | Some old =>
      if Py.flt_ltb raw old
      then Py.flt_add (Py.flt_sub (Py.Finite modulus) old) raw
      else Py.flt_sub raw old
  | None => Py.Finite 0
  end.

Definition mesos_url (c : MesosCGroupCollector.config) : string :=
  "http://" ++ MesosCGroupCollector.host c ++ ":" ++
  MesosCGroupCollector.port c ++ "/" ++
  MesosCGroupCollector.mesos_state_path c.

(** *** Inputs of the examples *)

Definition crlf : string := String Py.cr (String Py.nl EmptyString).
Definition lf : string := String Py.nl EmptyString.
Definition zero : string := String Py.nul EmptyString.

Definition quiet_peer : peer := Peer false false [].

(** A world whose files are those of [l]. *)
Definition files (l : list (string * node)) : world :=
  Build (fun p => lookup p l) (fun _ _ => quiet_peer)
        (fun _ => FetchURLError).

Definition empty_world : world := files [].

(** A world where fetching the Mesos state ends as [f]. *)
Definition endpoint (f : fetched) : world :=
  Build (fun _ => None) (fun _ _ => quiet_peer) (fun _ => f).

(** A world with [l] as files where every memcached answers [response]
    in one piece. *)
Definition memcached (l : list (string * node)) (response : string)
  : world :=
  Build (fun p => lookup p l) (fun _ _ => Peer true true [Some response])
        (fun _ => FetchURLError).



Definition snmp_unlabelled : string :=
  "Ip: Forwarding InReceives" ++ lf ++ "1 100" ++ lf.

Definition snmp_labelled : string :=
  "Ip: Forwarding InReceives" ++ lf ++ "Ip: 1 100" ++ lf.

Definition forwarding_and_inreceives : list sample :=
  [Sample Gauge "Forwarding" (VInt 1);
   Sample Counter "InReceives" (VInt 100)].

Definition stats_response : string :=
  "STAT curr_items 5" ++ crlf ++ "STAT uptime 10" ++ crlf ++ "END" ++ crlf.

Definition example_stats : list (string * value) :=
  [("curr_items", VInt 5); ("uptime", VInt 10)].

Definition pid_response : string :=
  "STAT pid 1234" ++ crlf ++ "STAT curr_items 5" ++ crlf ++ "END" ++ crlf.

(** The command line of [memcached -c 1024]. *)
Definition cmdline_1024 : string :=
  "memcached" ++ zero ++ "-c" ++ zero ++ "1024" ++ zero.

(** A memcached that reports pid 1234 and was started with [-c 1024]. *)
Definition memcached_with_pid : world :=
  memcached [("/proc/1234/cmdline", File true cmdline_1024)] pid_response.

Definition uptime_content : string := "12345.67 8900.12" ++ lf.

(** A directory [d] with three files, the second of them not a number. *)
Definition three_files (d : string) : list (string * node) :=
  [(d, Dir ["exits"; "notes"; "halts"]);
   (Py.path_join d "exits", File true ("10" ++ lf));
   (Py.path_join d "notes", File true ("none" ++ lf));
   (Py.path_join d "halts", File true ("3" ++ lf))].

Definition kvm_and_ksm : world :=
  files (three_files KVMCollector.PROC ++
         three_files (KSMCollector.ksm_path KSMCollector.default_config)).

(** A KSM directory with a subdirectory between two files. *)
Definition ksm_with_subdirectory : world :=
  files [("/sys/kernel/mm/ksm", Dir ["pages_shared"; "sub"; "pages_sharing"]);
         ("/sys/kernel/mm/ksm/pages_shared", File true ("12" ++ lf));
         ("/sys/kernel/mm/ksm/sub", Dir []);
         ("/sys/kernel/mm/ksm/pages_sharing", File true ("30" ++ lf))].

(** The KVM directory with one counter file holding [n]. *)
Definition kvm_counter (n : string) : world :=
  files [(KVMCollector.PROC, Dir ["exits"]);
         (Py.path_join KVMCollector.PROC "exits", File true (n ++ lf))].



(** *** Further statements *)

(** [c] raises nothing but what [E] accepts. *)
Definition raises_only (E : exn -> bool) {A} (c : M A) : Prop :=
  forall st e, fst (c st) = Raise e -> E e = true.

(** [c] leaves the part [f] of the state as it finds it. *)
Definition keeps {X} (f : state -> X) {A} (c : M A) : Prop :=
  forall st, f (snd (c st)) = f st.

Definition is_IOError (e : exn) : bool :=
  match e with IOError => true | _ => false end.

(** What may leave a cycle of the IP or UDP collector. *)
Definition snmp_errors (e : exn) : bool :=
  match e with IOError | IndexError | ValueError => true | _ => false end.

(** What may leave a cycle of the KVM collector. *)
Definition kvm_errors (e : exn) : bool :=
  match e with IOError | ValueError => true | _ => false end.

(** No line of [ls] starts with [prefix]. *)
Definition unlabelled (prefix : string) (ls : list string) : Prop :=
  Forall (fun l => Py.startswith prefix l = false) ls.

(** A cycle that returned after logging the one error [message] and doing
    nothing else. *)
Definition only_logged (message : string) (st : state)
    (out : result unit * state) : Prop :=
  out = (Ok tt, State (published st) (log st ++ [Entry Error message])
                      (last_values st) (sock_calls st)).

(** The allow-list [L] lets [n] through: it is empty or holds [n]. *)
Definition passes (L : list string) (n : string) : bool :=
  match L with
  | [] => true
  | _ => mem n L
  end.

(** What the IP collector publishes for a name and its value. *)
Definition ip_sample (p : string * Z) : sample :=
  Sample (if mem (fst p) IPCollector.GAUGES then Gauge else Counter)
         (fst p) (VInt (snd p)).

(** The samples of a row: the names paired with the values, those the
    allow-list lets through. *)
Definition ip_samples (L : list string) (names : list string)
    (zs : list Z) : list sample :=
  map ip_sample (filter (fun p => passes L (fst p)) (combine names zs)).

(** A sample as the IP collector classes it: a gauge when its name is
    among [GAUGES], a counter otherwise, with an integer value. *)
Definition ip_classed (s : sample) : Prop :=
  s_kind s = (if mem (s_name s) IPCollector.GAUGES then Gauge else Counter) /\
  exists z, s_value s = VInt z.

Definition is_plain (s : sample) : Prop := s_kind s = Plain.

(** The name [n] holds no slash. *)
Definition slash_free (n : string) : Prop := Py.contains_char "/" n = false.

(** Every character of [s] is in the class [p]. *)
Fixpoint all_chars (p : ascii -> bool) (s : string) : bool :=
  match s with
  | EmptyString => true
  | String c s' => p c && all_chars p s'
  end.

(** A character a host name may hold for the host pattern to give it
    back: neither a colon nor an at sign. *)
Definition host_char (c : ascii) : bool :=
  Re.any_but ":" c && Re.any_but "@" c.

(** The host option written as [[alias@]hostname[:port]]. *)
Definition host_spec (alias : option string) (hostname : string)
    (port : option string) : string :=
  (match alias with Some a => a ++ "@" | None => EmptyString end) ++
  hostname ++
  (match port with Some p => ":" ++ p | None => EmptyString end).

(** The two halves of the host pattern: [(.+)\@] and
    [([^:]+)(:(\d+))?]. *)
Definition alias_re : Re.re :=
  Re.Grp 1 (Re.Seq (Re.Grp 2 (Re.Plus (Re.any_but Py.nl))) (Re.Chr "@")).

Definition hostport_re : Re.re :=
  Re.Seq (Re.Grp 3 (Re.Plus (Re.any_but ":")))
         (Re.Opt (Re.Grp 4 (Re.Seq (Re.Chr ":")
                                   (Re.Grp 5 (Re.Plus Py.is_digit))))).

(** What the host pattern captures for a port. *)
Definition port_captures (port : option string) : Re.captures :=
  match port with
  | Some p => [(4%nat, (":" ++ p)%string); (5%nat, p)]
  | None => []
  end.

Definition port_part (port : option string) : string :=
  match port with Some p => ":" ++ p | None => EmptyString end.

(** A call made on a socket between its creation and its closing. *)
Definition on_open_socket (c : sock_call) : bool :=
  match c with
  | SockCreate _ | SockClose => false
  | _ => true
  end.

(** The pieces of [chunks] put end to end. *)
Definition glue (chunks : list string) : string :=
  fold_right String.append EmptyString chunks.

(** A memcached that refuses every connection. *)
Definition refusing : world :=
  Build (fun _ => None) (fun _ _ => Peer false true [])
        (fun _ => FetchURLError).

(** A memcached whose answer comes in the pieces [chunks]. *)
Definition answering (chunks : list string) : world :=
  Build (fun _ => None) (fun _ _ => Peer true true (map Some chunks))
        (fun _ => FetchURLError).

(** The sample [collect] publishes for the stat [stat] of value [v]. *)
Definition memcached_sample (alias stat : string) (v : value) : sample :=
  Sample (if mem stat MemcachedCollector.GAUGES then Gauge else Counter)
         (alias ++ "." ++ stat) v.

(** What a [for] loop over the option value [v] goes through. *)
Definition iterated (v : cfgval) : list string :=
  match v with
  | CNone => []
  | CStr s => chars s
  | CList l => l
  end.

(** The samples for those of [names] that the table [stats] has. *)
Definition wanted (alias : string) (stats : list (string * value))
    (names : list string) : list sample :=
  flat_map (fun stat => match lookup stat stats with
                        | Some v => [memcached_sample alias stat v]
                        | None => []
                        end) names.

(** The complaints about those of [names] that [stats] does not have. *)
Definition missing (stats : list (string * value)) (names : list string)
  : list entry :=
  map (fun stat =>
         Entry Error ("No such key '" ++ stat ++ "' available, issue 'stats' "
                      ++ "for a full list"))
      (filter (fun stat => match lookup stat stats with
                           | Some _ => false
                           | None => true
                           end) names).

Definition numeric (v : value) : Prop :=
  match v with
  | VInt _ | VFloat _ => True
  | VStr _ => False
  end.

(** The name a host's metrics go under. *)
Definition alias_of (m : Re.captures) (hostname : string) : string :=
  match Re.group 2 m with Some a => a | None => hostname end.

(** The host options a cycle goes through. *)
Definition host_specs (v : cfgval) : list string :=
  match v with
  | CNone => []
  | CStr s => [s]
  | CList l => l
  end.

(** The sample [s] is what the memcached collector publishes for a stat
    of a configured host: the host is an option [spec] of the
    configuration, [get_stats] returned for it a table that holds the
    value [v] under [stat], and [s] is named [alias.stat] with the alias
    of that host, carries [v], and is a gauge when [stat] is among
    [GAUGES] and a counter otherwise. *)
Definition memcached_published (w : world) (c : MemcachedCollector.config)
    (s : sample) : Prop :=
  exists spec m hostname stats stat v st0 st1,
    In spec (host_specs (MemcachedCollector.hosts c)) /\
    Re.search MemcachedCollector.host_re spec = Some m /\
    Re.group 3 m = Some hostname /\
    MemcachedCollector.get_stats w hostname (Re.group 5 m) st0 =
      (Ok stats, st1) /\
    lookup stat stats = Some v /\
    s = memcached_sample (alias_of m hostname) stat v.

(** What holds of the table while the response is read. *)
Definition stats_table (stats : list (string * value)) : Prop :=
  NoDup (keys stats) /\
  (forall k, In k (keys stats) -> mem k MemcachedCollector.ignored = false) /\
  (forall k v, In (k, v) stats -> numeric v).

(** The state [get_stats] leaves, from [initial], with a memcached at
    [localhost:11211] that answers in one piece and no command line to
    read. *)
Definition stats_fetched : state :=
  State [] [Entry Debug "pid None";
            Entry Debug "Cannot parse command line options for memcached"]
        []
        [SockCreate AF_INET; SockConnect "localhost" (Some 11211%Z);
         SockSetTimeout 3; SockSend MemcachedCollector.REQUEST;
         SockRecv 4096; SockClose].

Definition cache_captures : Re.captures :=
  [(4, ":11211"); (5, "11211"); (3, "localhost"); (1, "cache@");
   (2, "cache")]%nat.

(** What [get_containers] stores for an executor. *)
Definition task_info (role environment task number : string) : json :=
  JObj [("role", JStr role); ("environment", JStr environment);
        ("task", JStr task); ("id", JStr number)].

Definition is_task_info (j : json) : Prop :=
  exists role environment task number,
    j = task_info role environment task number.

(** What holds of the table of containers while the state is gone
    through. *)
Definition containers_table (containers : list (string * json)) : Prop :=
  NoDup (keys containers) /\
  In "flags" (keys containers) /\
  (forall k v, In (k, v) containers -> k = "flags" \/ is_task_info v).

(** A state document of one framework with one executor. *)
Definition one_task_state : json :=
  JObj [("flags", JObj [("cgroups_hierarchy", JStr "/sys/fs/cgroup");
                        ("cgroups_root", JStr "mesos")]);
        ("frameworks",
         JArr [JObj [("executors",
                      JArr [JObj [("container", JStr "c1");
                                  ("source", JStr "www.prod.web.0")]])]])].

Definition one_task_table : list (string * json) :=
  [("flags", JObj [("cgroups_hierarchy", JStr "/sys/fs/cgroup");
                   ("cgroups_root", JStr "mesos")]);
   ("c1", task_info "www" "prod" "web" "0")].

Definition aspects : list string := ["cpuacct"; "cpu"; "memory"].

(** The sample [s] is named after an entry of the table [containers], one
    of the three aspects and some key. *)
Definition named_after (containers : list (string * json)) (s : sample)
  : Prop :=
  exists task_id info environment role task number aspect key,
    lookup task_id containers = Some (JObj info) /\
    lookup "environment" info = Some (JStr environment) /\
    lookup "role" info = Some (JStr role) /\
    lookup "task" info = Some (JStr task) /\
    lookup "id" info = Some (JStr number) /\
    In aspect aspects /\
    s_name s =
      MesosCGroupCollector.clean_up
        (Py.join "." [environment; role; task; number; aspect; key]).

(** The directory [collect] lists for [aspect]. *)
Definition aspect_path (sysfs root aspect : string) : string :=
  Py.path_join (Py.path_join sysfs aspect) root.

(** The sample [s] is what the Mesos collector publishes for a key of a
    task: the task is an entry [task_id] of the table and a directory
    under one of the three aspects, the name is made of the entry's four
    texts, the aspect and the key, and the value is a text read in the
    task's directory: for the key [usage] of [cpuacct] the first line of
    [cpuacct.usage], as it stands; otherwise the second of the two words
    of a line of the aspect's [.stat] file, whose first word is the
    key. *)
Definition cgroup_sample (w : world) (containers : list (string * json))
    (sysfs root : string) (s : sample) : Prop :=
  exists task_id info environment role task number aspect key text content,
    lookup task_id containers = Some (JObj info) /\
    lookup "environment" info = Some (JStr environment) /\
    lookup "role" info = Some (JStr role) /\
    lookup "task" info = Some (JStr task) /\
    lookup "id" info = Some (JStr number) /\
    In aspect aspects /\
    isdir w (Py.path_join (aspect_path sysfs root aspect) task_id) = true /\
    s = Sample Plain
          (MesosCGroupCollector.clean_up
             (Py.join "." [environment; role; task; number; aspect; key]))
          (VStr text) /\
    ((aspect = "cpuacct" /\ key = "usage" /\
      fs w (Py.path_join
              (Py.path_join (aspect_path sysfs root aspect) task_id)
              "cpuacct.usage") = Some (File true content) /\
      text = readline content) \/
     (exists line,
        fs w (Py.path_join
                (Py.path_join (aspect_path sysfs root aspect) task_id)
                (aspect ++ ".stat")) = Some (File true content) /\
        In line (Py.readlines content) /\
        Py.split line = [key; text])).

(** A world with [l] as files where the Mesos state is [doc]. *)
Definition mesos (doc : json) (l : list (string * node)) : world :=
  Build (fun p => lookup p l) (fun _ _ => quiet_peer)
        (fun _ => FetchDocument doc).

(** A cgroup hierarchy whose only directory under [cpuacct] is not a task
    of the state. *)
Definition foreign_cgroups : list (string * node) :=
  [("/sys/fs/cgroup/cpuacct/mesos", Dir ["other"; "tasks"]);
   ("/sys/fs/cgroup/cpuacct/mesos/other", Dir []);
   ("/sys/fs/cgroup/cpuacct/mesos/tasks", File true EmptyString);
   ("/sys/fs/cgroup/cpu/mesos", Dir []);
   ("/sys/fs/cgroup/memory/mesos", Dir [])].

(** The executor [executor] has gone into the table [containers]: its
    source has the four parts, and its container, if a text, is a key. *)
Definition recorded (containers : list (string * json)) (executor : json)
  : Prop :=
  forall o source,
    executor = JObj o -> lookup "source" o = Some (JStr source) ->
    (exists role environment task number,
       Py.split_on "." source = [role; environment; task; number]) /\
    (forall key, lookup "container" o = Some (JStr key) ->
       In key (keys containers)).

(** Every executor of the framework [framework] has gone into the
    table. *)
Definition framework_recorded (containers : list (string * json))
    (framework : json) : Prop :=
  forall o executors executor,
    framework = JObj o -> lookup "executors" o = Some (JArr executors) ->
    In executor executors -> recorded containers executor.

End Spec.

(** * Properties *)

Import Host World Spec.

(** ** Running a computation step by step *)

Lemma bind_ok {A B} (c : M A) (k : A -> M B) (st st' : state) (a : A) :
  c st = (Ok a, st') -> bind c k st = k a st'.
Proof. intros H. unfold bind. now rewrite H. Qed.

Lemma bind_raise {A B} (c : M A) (k : A -> M B) (st st' : state) (e : exn) :
  c st = (Raise e, st') -> bind c k st = (Raise e, st').
Proof. intros H. unfold bind. now rewrite H. Qed.

Lemma bind_ret {A B} (a : A) (k : A -> M B) (st : state) :
  bind (ret a) k st = k a st.
Proof. reflexivity. Qed.

Lemma state_eta (st : state) :
  State (published st) (log st) (last_values st) (sock_calls st) = st.
Proof. now destruct st. Qed.

(** A loop whose body raises at [bad] without a trace stops there: what is
    left is the state after the elements before [bad]. *)
Lemma for_each_stops {A} (body : A -> M unit) (pre post : list A) (bad : A) :
  (forall st, exists e, body bad st = (Raise e, st)) ->
  forall st, exists e,
    for_each (pre ++ bad :: post) body st =
      (Raise e, snd (for_each pre body st)).
Proof.
  intros Hbad. induction pre as [| x pre IH]; intros st; cbn [app for_each].
  - destruct (Hbad st) as [e He]. exists e. unfold bind. now rewrite He.
  - unfold bind. destruct (body x st) as [[[] | e] st1].
    + apply IH.
    + now exists e.
Qed.

(** A loop does not see an element its body does nothing for. *)
Lemma for_each_skips {A} (body : A -> M unit) (pre post : list A) (x : A) :
  (forall st, body x st = (Ok tt, st)) ->
  forall st,
    for_each (pre ++ x :: post) body st = for_each (pre ++ post) body st.
Proof.
  intros Hx. induction pre as [| y pre IH]; intros st; cbn [app for_each].
  - now rewrite (bind_ok _ _ _ _ _ (Hx st)).
  - unfold bind. destruct (body y st) as [[[] | e] st1]; [apply IH | easy].
Qed.

Lemma mem_In (x : string) (l : list string) : mem x l = true <-> In x l.
Proof.
  induction l as [| y l IH]; cbn [mem In]; [easy |].
  rewrite orb_true_iff, IH, String.eqb_eq. intuition congruence.
Qed.

Lemma NoDup_app_disjoint {A} (l1 l2 : list A) (x : A) :
  NoDup (l1 ++ l2) -> In x l1 -> ~ In x l2.
Proof.
  induction l1 as [| y l1 IH]; cbn; intros Hnd Hin; [destruct Hin |].
  inversion Hnd as [| ? ? Hy Hrest]; subst.
  destruct Hin as [-> | Hin].
  - intros H2. apply Hy. apply in_or_app. now right.
  - now apply IH.
Qed.

(** ** What a computation publishes *)

Section Emits.
Variable P : sample -> Prop.

Lemma emits_same {A} (c : M A) :
  (forall st, published (snd (c st)) = published st) -> emits P c.
Proof.
  intros H st. exists []. rewrite app_nil_r. split; [apply H | constructor].
Qed.

Lemma emits_ret {A} (a : A) : emits P (ret a).
Proof. now apply emits_same. Qed.

Lemma emits_raise {A} (e : exn) : emits P (@raise A e).
Proof. now apply emits_same. Qed.

Lemma emits_lift {A} (e : exn) (o : option A) : emits P (lift e o).
Proof. destruct o; [apply emits_ret | apply emits_raise]. Qed.

Lemma emits_log_at (l : level) (t : string) : emits P (log_at l t).
Proof. now apply emits_same. Qed.

Lemma emits_sock (c : sock_call) : emits P (sock c).
Proof. now apply emits_same. Qed.

Lemma emits_derivative (n : string) (v : Py.float) (m : Q) :
  emits P (derivative n v m).
Proof. now apply emits_same. Qed.

Lemma emits_emit (s : sample) : P s -> emits P (emit s).
Proof.
  intros H st. exists [s]. split; [reflexivity | now constructor].
Qed.

Lemma emits_bind {A B} (c : M A) (k : A -> M B) :
  emits P c -> (forall a, emits P (k a)) -> emits P (bind c k).
Proof.
  intros Hc Hk st. unfold bind.
  destruct (Hc st) as [n1 [E1 F1]].
  destruct (c st) as [[a | e] st1]; cbn [snd] in E1.
  - destruct (Hk a st1) as [n2 [E2 F2]].
    exists (n1 ++ n2). rewrite E2, E1, app_assoc.
    split; [reflexivity | now apply Forall_app].
  - exists n1. now split.
Qed.

Lemma emits_try_except {A} (c : M A) (caught : exn -> bool)
    (h : exn -> M A) :
  emits P c -> (forall e, emits P (h e)) -> emits P (try_except c caught h).
Proof.
  intros Hc Hh st. unfold try_except.
  destruct (Hc st) as [n1 [E1 F1]].
  destruct (c st) as [[a | e] st1]; cbn [snd] in E1.
  - exists n1. now split.
  - destruct (caught e).
    + destruct (Hh e st1) as [n2 [E2 F2]].
      exists (n1 ++ n2). rewrite E2, E1, app_assoc.
      split; [reflexivity | now apply Forall_app].
    + exists n1. now split.
Qed.

Lemma emits_for_each_in {A} (l : list A) (body : A -> M unit) :
  (forall x, In x l -> emits P (body x)) -> emits P (for_each l body).
Proof.
  induction l as [| x rest IH]; intros Hb; cbn [for_each].
  - apply emits_ret.
  - apply emits_bind.
    + apply Hb. now left.
    + intros _. apply IH. intros y Hy. apply Hb. now right.
Qed.

Lemma emits_for_each {A} (l : list A) (body : A -> M unit) :
  (forall x, emits P (body x)) -> emits P (for_each l body).
Proof. intros Hb. apply emits_for_each_in. intros x _. apply Hb. Qed.

Lemma emits_fold_each {A B} (l : list A) (body : B -> A -> M B) :
  (forall acc x, emits P (body acc x)) ->
  forall acc, emits P (fold_each l acc body).
Proof.
  intros Hb. induction l as [| x rest IH]; intros acc; cbn [fold_each].
  - apply emits_ret.
  - apply emits_bind; [apply Hb | intros acc'; apply IH].
Qed.

End Emits.

Lemma emits_weaken (P Q : sample -> Prop) {A} (c : M A) :
  (forall s, P s -> Q s) -> emits P c -> emits Q c.
Proof.
  intros HPQ Hc st. destruct (Hc st) as [new [E F]].
  exists new. split; [exact E |]. eapply Forall_impl; [exact HPQ | exact F].
Qed.

Create HintDb emits.

(** Breaks a goal [emits P c] down along the structure of [c]. *)
Ltac emits_step :=
  match goal with
  | |- emits _ (bind _ _) => apply emits_bind; [| intros ?]
  | |- emits _ (ret _) => apply emits_ret
  | |- emits _ (raise _) => apply emits_raise
  | |- emits _ (lift _ _) => apply emits_lift
  | |- emits _ (log_at _ _) => apply emits_log_at
  | |- emits _ (log_error _) => apply emits_log_at
  | |- emits _ (log_debug _) => apply emits_log_at
  | |- emits _ (log_exception _) => apply emits_log_at
  | |- emits _ (sock _) => apply emits_sock
  | |- emits _ (derivative _ _ _) => apply emits_derivative
  | |- emits _ (for_each _ _) => apply emits_for_each; intros ?
  | |- emits _ (fold_each _ _ _) => apply emits_fold_each; intros ? ?
  | |- emits _ (try_except _ _ _) => apply emits_try_except; [| intros ?]
  | |- emits _ (if ?b then _ else _) => destruct b
  | |- emits _ (match ?x with _ => _ end) => destruct x
  end.

Ltac emits_go := repeat first [ solve [auto with emits] | emits_step ].

Section Primitives.
Variable P : sample -> Prop.

Lemma emits_getitem j k : emits P (getitem j k).
Proof. unfold getitem. emits_go. Qed.

Lemma emits_contains k j : emits P (World.contains k j).
Proof. unfold World.contains. emits_go. Qed.

Lemma emits_iter j : emits P (iter j).
Proof. unfold iter. emits_go. Qed.

Lemma emits_as_str e j : emits P (as_str e j).
Proof. unfold as_str. emits_go. Qed.

Lemma emits_listdir w p : emits P (listdir w p).
Proof. unfold listdir. emits_go. Qed.

Lemma emits_open w p : emits P (open w p).
Proof. unfold open. emits_go. Qed.

Lemma emits_cfg_len v : emits P (cfg_len v).
Proof. unfold cfg_len. emits_go. Qed.

Lemma emits_cfg_contains x v : emits P (cfg_contains x v).
Proof. unfold cfg_contains. emits_go. Qed.

Lemma emits_cfg_iter v : emits P (cfg_iter v).
Proof. unfold cfg_iter. emits_go. Qed.
End Primitives.

#[local] Hint Resolve emits_getitem emits_contains emits_iter emits_as_str
  emits_listdir emits_open emits_cfg_len emits_cfg_contains emits_cfg_iter
  : emits.

(** ** The allow-list of the IP and UDP collectors *)

Section AllowList.
Import IPCollector.


Lemma emits_zip_up P names : forall i data metrics,
  emits P (zip_up names i data metrics).
Proof. induction names; intros; cbn [zip_up]; emits_go. Qed.

Hint Resolve emits_zip_up : emits.

Lemma emits_read_file P w prefix missing metrics filepath :
  emits P (read_file w prefix missing metrics filepath).
Proof.
  unfold read_file. emits_go.
Qed.





End AllowList.



(** ** The names the Mesos collector publishes *)

Lemma replace_char_clean (a b : ascii) (s : string) :
  a <> b -> Py.contains_char a (Py.replace_char a b s) = false.
Proof.
  intros Hab. induction s as [| c s IH]; cbn [Py.replace_char Py.contains_char];
    [reflexivity |].
  rewrite IH, orb_false_r.
  destruct (Ascii.eqb c a) eqn:E.
  - apply Ascii.eqb_neq. exact Hab.
  - apply Ascii.eqb_neq. apply Ascii.eqb_neq in E. congruence.
Qed.

Section MesosNames.
Import MesosCGroupCollector.

Lemma cleaned_publish (text : string) (v : value) :
  emits cleaned (publish (clean_up text) v).
Proof.
  apply emits_emit. split; cbn [s_name].
  - now exists text.
  - apply replace_char_clean. discriminate.
Qed.

Lemma emits_get_containers P w c : emits P (get_containers w c).
Proof.
  unfold get_containers, get_mesos_state, add_framework, add_executor,
    unpack4.
  emits_go.
Qed.

Lemma emits_strings P parts : emits P (strings parts).
Proof. induction parts; cbn [strings]; emits_go. Qed.

Hint Resolve cleaned_publish emits_get_containers emits_strings : emits.



End MesosNames.


(** ** The IP collector on the two-line example *)

(** C5, as the claim has it.  On ["Ip: Forwarding InReceives\n1 100\n"] the
    data row has no label of its own: index 0 of the row, which the
    collector skips, is the first value, [data[1]] is 100, and [data[2]]
    raises [IndexError] before anything is published. *)
Lemma ip_example_unlabelled_raises :
  IPCollector.collect (files [("/proc/net/snmp", File true snmp_unlabelled)])
    (IPCollector.Config (CList [])) initial = (Raise IndexError, initial) /\
  ~ Permutation
      (published (snd (IPCollector.collect
         (files [("/proc/net/snmp", File true snmp_unlabelled)])
         (IPCollector.Config (CList [])) initial)))
      forwarding_and_inreceives.
Proof.
  split; [reflexivity |].
  intros H. apply Permutation_length in H. discriminate H.
Qed.

(** C5, amended.  On ["Ip: Forwarding InReceives\nIp: 1 100\n"], the data
    row labelled as [/proc/net/snmp] has it, and with an empty allow-list:
    the cycle returns, logs nothing, and publishes exactly two samples,
    Forwarding with 1 as a gauge and InReceives with 100 as a counter. *)
Theorem ip_example_labelled (w : world) (st : state) :
  fs w "/proc/net/snmp" = Some (File true snmp_labelled) ->
  exists new,
    IPCollector.collect w (IPCollector.Config (CList [])) st =
      (Ok tt, State (published st ++ new) (log st) (last_values st)
                    (sock_calls st)) /\
    Permutation new forwarding_and_inreceives.
Proof.
  intros H. exists forwarding_and_inreceives. split; [| apply Permutation_refl].
  unfold IPCollector.collect, IPCollector.scan, IPCollector.PROC, fold_each,
    IPCollector.read_file, access, open, bind.
  rewrite H. destruct st. vm_compute.
  fold (@app sample). rewrite <- !app_assoc. reflexivity.
Qed.

Lemma ip_example_labelled_witness :
  exists new,
    IPCollector.collect (files [("/proc/net/snmp", File true snmp_labelled)])
      (IPCollector.Config (CList [])) initial =
      (Ok tt, State ([] ++ new) [] [] []) /\
    Permutation new forwarding_and_inreceives.
Proof.
  exact (ip_example_labelled
           (files [("/proc/net/snmp", File true snmp_labelled)]) initial
           eq_refl).
Defined.

(** ** The memcached collector on the two-stat example *)

Section MemcachedExample.
Import MemcachedCollector.

Lemma get_raw_stats_example (w : world) (hostname : string)
    (port : option string) (rest : list (option string)) (st : state) :
  (forall number,
     peer_at w hostname number =
       Peer true true (Some stats_response :: rest)) ->
  (forall p, port = Some p -> Py.int_of_string p <> None) ->
  exists calls,
    get_raw_stats w hostname port st =
      (Ok stats_response,
       State (published st) (log st) (last_values st)
             (sock_calls st ++ calls)).
Proof.
  intros Hpeer Hport. unfold get_raw_stats.
  destruct port as [p |].
  - destruct (Py.int_of_string p) as [n |] eqn:E;
      [| now destruct (Hport p eq_refl)].
    unfold bind at 1 2 3. unfold sock at 1, lift, ret. cbv beta iota.
    rewrite Hpeer. eexists. destruct st. vm_compute.
    fold (@app sock_call). rewrite <- !app_assoc. reflexivity.
  - unfold bind at 1 2. unfold sock at 1, ret. cbv beta iota.
    rewrite Hpeer. eexists. destruct st. vm_compute.
    fold (@app sock_call). rewrite <- !app_assoc. reflexivity.
Qed.

Lemma parse_example (st : state) :
  fold_each (Py.splitlines stats_response) (None, []) parse_line st =
    (Ok (None, example_stats), st).
Proof. reflexivity. Qed.

Lemma get_stats_example (w : world) (hostname : string)
    (port : option string) (rest : list (option string)) (st : state) :
  (forall number,
     peer_at w hostname number =
       Peer true true (Some stats_response :: rest)) ->
  (forall p, port = Some p -> Py.int_of_string p <> None) ->
  fs w "/proc/None/cmdline" = None ->
  exists st',
    get_stats w hostname port st = (Ok example_stats, st') /\
    published st' = published st.
Proof.
  intros Hpeer Hport Hfs.
  destruct (get_raw_stats_example w hostname port rest st Hpeer Hport)
    as [calls Hraw].
  unfold get_stats.
  rewrite (bind_ok _ _ _ _ _ Hraw).
  rewrite (bind_ok _ _ _ _ _ (parse_example _)).
  cbv beta iota.
  unfold try_except, bind, log_debug, log_at, open.
  change ("/proc/" ++ show_pid None ++ "/cmdline")%string
    with "/proc/None/cmdline".
  rewrite Hfs. cbn. eexists. split; reflexivity.
Qed.

End MemcachedExample.

(** C6, amended.  For a host of the configuration on which the pattern
    finds the name [hostname] and the alias [alias] (the host name when no
    alias is given), with no [publish] option, and a memcached there that
    answers ["STAT curr_items 5\r\nSTAT uptime 10\r\nEND\r\n"]: the cycle
    returns and publishes [alias.curr_items] with 5 and [alias.uptime] with
    10, both as gauges, [curr_items] being in [GAUGES]. *)
Theorem memcached_example (w : world) (c : MemcachedCollector.config)
    (spec hostname alias : string) (m : Re.captures)
    (rest : list (option string)) (st : state) :
  MemcachedCollector.hosts c = CList [spec] ->
  MemcachedCollector.publish_names c = None ->
  Re.search MemcachedCollector.host_re spec = Some m ->
  Re.group 3 m = Some hostname ->
  alias = match Re.group 2 m with Some a => a | None => hostname end ->
  (forall p, Re.group 5 m = Some p -> Py.int_of_string p <> None) ->
  (forall number,
     peer_at w hostname number =
       Peer true true (Some stats_response :: rest)) ->
  fs w "/proc/None/cmdline" = None ->
  exists st' new,
    MemcachedCollector.collect w c st = (Ok tt, st') /\
    published st' = published st ++ new /\
    Permutation new
      [Sample Gauge (alias ++ ".curr_items") (VInt 5);
       Sample Gauge (alias ++ ".uptime") (VInt 10)].
Proof.
  intros Hhosts Hpub Hm H3 Halias H5 Hpeer Hfs.
  destruct (get_stats_example w hostname (Re.group 5 m) rest st Hpeer H5 Hfs)
    as [st1 [Hstats Hsame]].
  assert (Hhost : MemcachedCollector.collect_host w c spec st =
            (Ok tt, State (published st1 ++
                      [Sample Gauge (alias ++ ".curr_items") (VInt 5);
                       Sample Gauge (alias ++ ".uptime") (VInt 10)])
                     (log st1) (last_values st1) (sock_calls st1))).
  { unfold MemcachedCollector.collect_host.
    rewrite Hm. unfold lift at 1. rewrite bind_ret.
    rewrite H3. unfold lift at 1. rewrite bind_ret.
    rewrite (bind_ok _ _ _ _ _ Hstats).
    rewrite Hpub, bind_ret, <- Halias.
    cbn. rewrite <- app_assoc. reflexivity. }
  unfold MemcachedCollector.collect. rewrite Hhosts.
  unfold cfg_iter. cbv beta iota. rewrite bind_ret.
  unfold for_each. rewrite (bind_ok _ _ _ _ _ Hhost).
  eexists. eexists. split; [reflexivity |].
  split; [| apply Permutation_refl]. cbn. now rewrite Hsame.
Qed.

Lemma memcached_example_witness :
  exists st' new,
    MemcachedCollector.collect (memcached [] stats_response)
      MemcachedCollector.default_config initial = (Ok tt, st') /\
    published st' = published initial ++ new /\
    Permutation new
      [Sample Gauge ("localhost" ++ ".curr_items") (VInt 5);
       Sample Gauge ("localhost" ++ ".uptime") (VInt 10)].
Proof.
  apply (memcached_example (memcached [] stats_response)
           MemcachedCollector.default_config "localhost:11211" "localhost"
           "localhost"
           [(4, ":11211"); (5, "11211"); (3, "localhost")]%nat []).
  - reflexivity.
  - reflexivity.
  - reflexivity.
  - reflexivity.
  - reflexivity.
  - intros p H. injection H as <-. discriminate.
  - reflexivity.
  - reflexivity.
Defined.

(** C6, as the claim has it: with the default host [localhost:11211], no
    call of [publish_counter] is made for [localhost.curr_items]. *)
Lemma memcached_curr_items_no_counter :
  ~ In (Sample Counter "localhost.curr_items" (VInt 5))
       (published (snd (MemcachedCollector.collect
          (memcached [] stats_response)
          MemcachedCollector.default_config initial))).
Proof.
  vm_compute. intros [H | [H | []]]; discriminate H.
Qed.

(** ** The uptime collector *)

(** C8.  When [/proc/uptime] does not exist, the cycle publishes nothing
    and logs one error.  When it holds ["12345.67 8900.12\n"] and the
    configured name and unit is [minutes], the cycle logs nothing and
    publishes one sample, with the value 12345.67/60. *)
Theorem uptime_missing_and_present (w : world) (st : state) :
  (fs w UptimeCollector.PROC = None ->
   forall c, exists message,
     UptimeCollector.collect w c st =
       (Ok REmptyDict,
        State (published st) (log st ++ [Entry Error message])
              (last_values st) (sock_calls st))) /\
  (fs w UptimeCollector.PROC = Some (File true uptime_content) ->
   exists v,
     UptimeCollector.collect w (UptimeCollector.Config "minutes") st =
       (Ok RNone,
        State (published st ++ [Sample Plain "minutes" (VFloat (Py.Finite v))])
              (log st) (last_values st) (sock_calls st)) /\
     (v == (1234567 # 100) / inject_Z 60)%Q).
Proof.
  split.
  - intros H c. eexists.
    unfold UptimeCollector.collect, exists_. rewrite H. reflexivity.
  - intros H. exists (1234567 # 6000). split; [| reflexivity].
    unfold UptimeCollector.collect, exists_, UptimeCollector.read, open.
    rewrite H. destruct st. reflexivity.
Qed.

Lemma uptime_missing_and_present_witness :
  (exists message,
     UptimeCollector.collect empty_world UptimeCollector.default_config
       initial =
       (Ok REmptyDict, State [] [Entry Error message] [] [])) /\
  (exists v,
     UptimeCollector.collect
       (files [("/proc/uptime", File true uptime_content)])
       (UptimeCollector.Config "minutes") initial =
       (Ok RNone,
        State [Sample Plain "minutes" (VFloat (Py.Finite v))] [] [] []) /\
     (v == (1234567 # 100) / inject_Z 60)%Q).
Proof.
  split.
  - exact (proj1 (uptime_missing_and_present empty_world initial) eq_refl
             UptimeCollector.default_config).
  - exact (proj2 (uptime_missing_and_present
                    (files [("/proc/uptime", File true uptime_content)])
                    initial) eq_refl).
Defined.

(** ** The Mesos collector when the state cannot be fetched *)

(** C2, at the failing inputs.  When [urlopen] raises [HTTPError] or the
    body is no JSON, [get_mesos_state] logs one error and returns the empty
    dictionary, and [state['flags']] in [get_containers] raises [KeyError],
    which leaves [collect]: nothing is published, but the cycle raises. *)
Theorem mesos_fetch_failure_raises (w : world)
    (c : MesosCGroupCollector.config) (st : state) :
  urlopen w (mesos_url c) = FetchHTTPError \/
  urlopen w (mesos_url c) = FetchUndecodable ->
  exists message,
    MesosCGroupCollector.collect w c st =
      (Raise KeyError,
       State (published st) (log st ++ [Entry Error message])
             (last_values st) (sock_calls st)).
Proof.
  intros H.
  unfold MesosCGroupCollector.collect, MesosCGroupCollector.get_containers,
    MesosCGroupCollector.get_mesos_state, bind, try_except.
  fold (mesos_url c).
  destruct H as [H | H]; rewrite H; eexists; reflexivity.
Qed.

Lemma mesos_fetch_failure_raises_witness :
  exists message,
    MesosCGroupCollector.collect (endpoint FetchHTTPError)
      MesosCGroupCollector.default_config initial =
      (Raise KeyError, State [] [Entry Error message] [] []).
Proof.
  exact (mesos_fetch_failure_raises (endpoint FetchHTTPError)
           MesosCGroupCollector.default_config initial (or_introl eq_refl)).
Defined.

(** ** The pid line of memcached *)

Section MemcachedPid.
Import MemcachedCollector.

Lemma parse_line_keeps_no_pid stats line st :
  forall pid stats' st',
    parse_line (None, stats) line st = (Ok (pid, stats'), st') -> pid = None.
Proof.
  intros pid stats' st'. unfold parse_line.
  destruct (nth_error (Py.split_on " " line) 0) as [p0 |]; [| discriminate].
  unfold lift at 1. rewrite (bind_ok _ _ st st p0 eq_refl).
  destruct (String.eqb p0 "STAT"); cbn [negb].
  - destruct (nth_error (Py.split_on " " line) 1) as [p1 |]; [| discriminate].
    unfold lift at 1 2.
    rewrite (bind_ok _ _ st st (mem p1 ignored) eq_refl).
    destruct (mem p1 ignored) eqn:Hm; [intros H; now inversion H |].
    rewrite (bind_ok _ _ st st p1 eq_refl).
    destruct (String.eqb p1 "pid") eqn:Hp.
    + apply String.eqb_eq in Hp. subst p1. discriminate Hm.
    + destruct (nth_error (Py.split_on " " line) 2) as [p2 |];
        [| discriminate].
      unfold lift at 1. rewrite (bind_ok _ _ st st p2 eq_refl).
      destruct (Py.contains_char "." p2).
      * destruct (Py.float_of_string p2); [| discriminate].
        intros H. now inversion H.
      * destruct (Py.int_of_string p2); [| discriminate].
        intros H. now inversion H.
  - rewrite (bind_ok _ _ st st true eq_refl). intros H. now inversion H.
Qed.

(** No line of a response sets [pid]: the name is among the ignored ones,
    which are tested first, and the loop leaves [pid] as it was,
    [None]. *)
Lemma pid_never_captured lines :
  forall stats st pid stats' st',
    fold_each lines (None, stats) parse_line st = (Ok (pid, stats'), st') ->
    pid = None.
Proof.
  induction lines as [| line rest IH]; intros stats st pid stats' st'.
  - intros H. now inversion H.
  - cbn [fold_each]. unfold bind.
    destruct (parse_line (None, stats) line st) as [[[pid1 stats1] | e] st1]
      eqn:E; [| discriminate].
    apply parse_line_keeps_no_pid in E. subst pid1. apply IH.
Qed.

End MemcachedPid.

(** C3, at the failing input.  A memcached that answers [STAT pid 1234],
    with [/proc/1234/cmdline] holding [-c 1024]: [get_stats] logs
    [pid None], fails to open [/proc/None/cmdline], and returns the stats
    without [limit_maxconn]. *)
Theorem memcached_pid_not_captured :
  MemcachedCollector.get_stats memcached_with_pid "localhost" (Some "11211")
    initial =
  (Ok [("curr_items", VInt 5)],
   State [] [Entry Debug "pid None";
             Entry Debug "Cannot parse command line options for memcached"]
         []
         [SockCreate AF_INET; SockConnect "localhost" (Some 11211%Z);
          SockSetTimeout 3; SockSend MemcachedCollector.REQUEST;
          SockRecv 4096; SockClose]).
Proof. reflexivity. Qed.

(** ** The socket calls of the memcached collector *)

Section MemcachedCalls.
Import MemcachedCollector.

(** [recv_loop] returns, and all it does is call [recv]. *)
Lemma recv_loop_calls (evs : list (option string)) :
  forall data st, exists r n,
    recv_loop evs data st =
      (Ok r, State (published st) (log st) (last_values st)
                   (sock_calls st ++ repeat (SockRecv 4096) (S n))).
Proof.
  induction evs as [| [received |] rest IH]; intros data st.
  - now exists (data, false), 0%nat.
  - cbn [recv_loop]. unfold bind at 1. cbn [sock].
    destruct (Py.is_empty received); [now exists (data, false), 0%nat |].
    destruct (Py.endswith END (data ++ received));
      [now exists ((data ++ received)%string, false), 0%nat |].
    destruct (IH (data ++ received)%string
                (State (published st) (log st) (last_values st)
                       (sock_calls st ++ [SockRecv 4096]))) as [r [n Hn]].
    exists r, (S n). rewrite Hn. cbn [published log last_values sock_calls].
    now rewrite <- app_assoc.
  - now exists (data, true), 0%nat.
Qed.

(** After [socket.socket]: connect, then set the timeout, send and
    read. *)
Ltac connected host f number :=
  destruct (connect_ok (peer_at _ host number)); cbn [negb];
  [ destruct (send_ok (peer_at _ host number)); cbn [negb];
    [ unfold bind at 1 2 3; cbn [sock];
      match goal with
      | |- context [recv_loop ?evs ?d ?s] =>
          let data := fresh "data" in
          let raised := fresh "raised" in
          let k := fresh "k" in
          let Hk := fresh "Hk" in
          destruct (recv_loop_calls evs d s) as [[data raised] [k Hk]];
          rewrite Hk;
          eexists; split; [| apply (shape_read host f number (S k))];
          destruct raised; cbn; now rewrite <- !app_assoc
      end
    | eexists; split; [| apply (shape_unsent host f number)];
      cbn; now rewrite <- !app_assoc ]
  | eexists; split; [| apply (shape_refused host f number)];
    cbn; now rewrite <- !app_assoc ].

(** The calls [get_raw_stats] makes, whatever the peer does. *)
Lemma get_raw_stats_calls (w : world) (host : string)
    (port : option string) (st : state) :
  exists calls,
    sock_calls (snd (get_raw_stats w host port st)) =
      sock_calls st ++ calls /\
    shape host calls.
Proof.
  unfold get_raw_stats. destruct port as [p |].
  - destruct (Py.int_of_string p) as [n |] eqn:E.
    + unfold bind at 1 2 3. cbn [sock]. unfold lift, ret at 1 2.
      unfold bind at 1. cbn [sock].
      connected host AF_INET (Some n).
    + exists [SockCreate AF_INET]. split; [| constructor].
      unfold bind at 1 2 3. cbn [sock]. reflexivity.
  - unfold bind at 1 2. cbn [sock]. unfold ret at 1.
    unfold bind at 1. cbn [sock].
    connected host AF_UNIX (@None Z).
Qed.

Lemma covered_recvs blocking n rest :
  covered blocking true (repeat (SockRecv 4096) n ++ rest) =
  covered blocking true rest.
Proof.
  induction n as [| n IH]; [reflexivity |].
  cbn [repeat app covered]. rewrite IH. now destruct (blocking _).
Qed.

Lemma existsb_recvs n rest :
  existsb is_connect (repeat (SockRecv 4096) n ++ rest) =
  existsb is_connect rest.
Proof. induction n as [| n IH]; [reflexivity | exact IH]. Qed.

Lemma forallb_recvs n rest :
  forallb (timeout_is 3) (repeat (SockRecv 4096) n ++ rest) =
  forallb (timeout_is 3) rest.
Proof. induction n as [| n IH]; [reflexivity | exact IH]. Qed.

End MemcachedCalls.

(** C7, amended.  Whatever the host, the port and the peer, among the
    socket calls of [get_raw_stats]: every [send] and [recv] is made with a
    timeout set; the only timeout ever set is 3 seconds; and no [connect]
    is made with a timeout set ([connect] is covered only when there is
    none), the timeout being set once [connect] has returned. *)
Theorem memcached_timeout_after_connect (w : world) (host : string)
    (port : option string) (st : state) :
  exists calls,
    sock_calls (snd (MemcachedCollector.get_raw_stats w host port st)) =
      sock_calls st ++ calls /\
    covered is_transfer false calls = true /\
    forallb (timeout_is 3) calls = true /\
    covered is_connect false calls = negb (existsb is_connect calls).
Proof.
  destruct (get_raw_stats_calls w host port st) as [calls [Hcalls Hshape]].
  exists calls. split; [exact Hcalls |].
  destruct Hshape; try (repeat split; reflexivity).
  cbn [app covered is_transfer is_connect existsb forallb timeout_is
       Z.ltb Z.compare Z.eqb Pos.eqb andb orb negb].
  rewrite ?covered_recvs, ?existsb_recvs, ?forallb_recvs.
  repeat split.
Qed.

(** C7, as the claim has it: with the default host and a memcached that
    answers, the [connect] is made before any timeout is set. *)
Lemma memcached_connect_not_timed :
  covered is_connect_or_recv false
    (sock_calls (snd (MemcachedCollector.get_raw_stats
       (memcached [] stats_response) "localhost" (Some "11211") initial)))
  = false.
Proof. reflexivity. Qed.

(** ** A file that is no number, in the KVM and in the KSM directory *)

Section SysfsLeaves.

Lemma kvm_collect_file_name (w : world) (filename : string) :
  emits (fun s => s_name s = filename) (KVMCollector.collect_file w filename).
Proof.
  unfold KVMCollector.collect_file. emits_go. now apply emits_emit.
Qed.

Lemma kvm_collect_file_bad (w : world) (bad content : string) (st : state) :
  fs w (Py.path_join KVMCollector.PROC bad) = Some (File true content) ->
  Py.float_of_string (readline content) = None ->
  KVMCollector.collect_file w bad st = (Raise ValueError, st).
Proof.
  intros Hf Hp. unfold KVMCollector.collect_file, open. rewrite Hf.
  rewrite (bind_ok _ _ st st content eq_refl), Hp. reflexivity.
Qed.

Lemma ksm_collect_item_file (w : world) (item : string) (r : bool)
    (t : string) (st : state) :
  fs w item = Some (File r t) ->
  KSMCollector.collect_item w item st =
    (Ok tt, State (published st ++ item_samples w item) (log st)
                  (last_values st) (sock_calls st)).
Proof.
  intros Hf. unfold KSMCollector.collect_item, item_samples, access, open.
  rewrite Hf. destruct r.
  - rewrite (bind_ok _ _ st st t eq_refl).
    unfold try_except, bind, lift.
    destruct (Py.float_of_string (Py.rstrip (readline t))); cbn.
    + reflexivity.
    + rewrite app_nil_r. now destruct st.
  - cbn. rewrite app_nil_r. now destruct st.
Qed.

Lemma ksm_collect_items_files (w : world) (items : list string) :
  (forall item, In item items -> exists r t, fs w item = Some (File r t)) ->
  forall st,
    for_each items (KSMCollector.collect_item w) st =
      (Ok tt, State (published st ++ flat_map (item_samples w) items)
                    (log st) (last_values st) (sock_calls st)).
Proof.
  induction items as [| item rest IH]; intros Hfiles st;
    cbn [for_each flat_map].
  - cbn. rewrite app_nil_r. now destruct st.
  - destruct (Hfiles item (or_introl eq_refl)) as [r [t Hf]].
    rewrite (bind_ok _ _ _ _ _ (ksm_collect_item_file w item r t st Hf)).
    rewrite IH by (intros i Hi; apply Hfiles; now right).
    cbn. now rewrite app_assoc.
Qed.

End SysfsLeaves.

(** *** White space around a number *)

Section Strip.
Import Py.

Lemma append_empty_r (s : string) : (s ++ EmptyString)%string = s.
Proof. induction s as [| c s IH]; cbn; [reflexivity | now rewrite IH]. Qed.

Lemma append_assoc (a b c : string) :
  ((a ++ b) ++ c)%string = (a ++ (b ++ c))%string.
Proof. induction a as [| x a IH]; cbn; [reflexivity | now rewrite IH]. Qed.

Lemma rev_string_snoc (s : string) (c : ascii) :
  rev_string (s ++ String c EmptyString) = String c (rev_string s).
Proof.
  induction s as [| d s IH]; cbn; [reflexivity | now rewrite IH].
Qed.

Lemma rev_string_involutive (s : string) : rev_string (rev_string s) = s.
Proof.
  induction s as [| c s IH]; cbn; [reflexivity |].
  now rewrite rev_string_snoc, IH.
Qed.

Lemma is_empty_rev (s : string) : is_empty (rev_string s) = is_empty s.
Proof.
  destruct s as [| c s]; cbn; [reflexivity |].
  now destruct (rev_string s).
Qed.

Lemma lstrip_snoc (t : string) (c : ascii) :
  lstrip (t ++ String c EmptyString) =
  if is_empty (lstrip t)
  then (if is_space c then EmptyString else String c EmptyString)
  else (lstrip t ++ String c EmptyString)%string.
Proof.
  induction t as [| d t IH]; cbn [append lstrip is_empty].
  - reflexivity.
  - destruct (is_space d); [exact IH | reflexivity].
Qed.

Lemma rstrip_cons (c : ascii) (s : string) :
  rstrip (String c s) =
  if is_empty (rstrip s) && is_space c then EmptyString
  else String c (rstrip s).
Proof.
  unfold rstrip. cbn [rev_string]. rewrite lstrip_snoc, is_empty_rev.
  destruct (lstrip (rev_string s)) as [| d t] eqn:E; cbn [is_empty andb].
  - now destruct (is_space c).
  - now rewrite rev_string_snoc.
Qed.

Lemma lstrip_rstrip (s : string) : lstrip (rstrip s) = rstrip (lstrip s).
Proof.
  induction s as [| c s IH]; [reflexivity |].
  rewrite rstrip_cons. cbn [lstrip].
  destruct (is_space c) eqn:Hc.
  - rewrite <- IH, andb_true_r.
    destruct (rstrip s) as [| d t]; cbn [is_empty lstrip]; [reflexivity |].
    now rewrite Hc.
  - rewrite andb_false_r, rstrip_cons, Hc, andb_false_r.
    cbn [lstrip]. now rewrite Hc.
Qed.

Lemma lstrip_idempotent (s : string) : lstrip (lstrip s) = lstrip s.
Proof.
  induction s as [| c s IH]; [reflexivity |]. cbn [lstrip].
  destruct (is_space c) eqn:Hc; [exact IH |]. cbn [lstrip]. now rewrite Hc.
Qed.

Lemma rstrip_idempotent (s : string) : rstrip (rstrip s) = rstrip s.
Proof.
  unfold rstrip. now rewrite rev_string_involutive, lstrip_idempotent.
Qed.

Lemma strip_rstrip (s : string) : strip (rstrip s) = strip s.
Proof.
  unfold strip. now rewrite lstrip_rstrip, rstrip_idempotent.
Qed.

(** [float(s.rstrip())] is [float(s)]. *)
Lemma float_of_string_rstrip (s : string) :
  float_of_string (rstrip s) = float_of_string s.
Proof. unfold float_of_string. now rewrite strip_rstrip. Qed.

End Strip.

(** C10.  In a KVM directory and a KSM directory with the same listing and
    a readable file [bad] whose first line [float] does not take (a text
    that is neither a decimal literal nor [inf], [infinity] or [nan]): the
    KVM cycle raises, and what it publishes comes from the files listed
    before [bad], none from [bad] or a later file; the KSM cycle, all its
    entries being files, returns, logs nothing, and publishes what it
    would without [bad] in the listing, so every readable sibling whose
    first line [float] takes, before or after [bad].  The path of the KSM
    directory holds none of the characters [glob] reads as a pattern, so
    that [glob] lists that directory. *)
Theorem kvm_aborts_ksm_continues (w : world) (c : KSMCollector.config)
    (pre post : list string) (bad content : string) (st : state) :
  NoDup (pre ++ bad :: post) ->
  fs w KVMCollector.PROC = Some (Dir (pre ++ bad :: post)) ->
  fs w (Py.path_join KVMCollector.PROC bad) = Some (File true content) ->
  Py.has_magic (KSMCollector.ksm_path c) = false ->
  fs w (KSMCollector.ksm_path c) = Some (Dir (pre ++ bad :: post)) ->
  (forall n, In n (pre ++ bad :: post) ->
     exists r t,
       fs w (Py.path_join (KSMCollector.ksm_path c) n) = Some (File r t)) ->
  fs w (Py.path_join (KSMCollector.ksm_path c) bad) =
    Some (File true content) ->
  Py.float_of_string (readline content) = None ->
  (exists e new,
     fst (KVMCollector.collect w st) = Raise e /\
     published (snd (KVMCollector.collect w st)) = published st ++ new /\
     Forall (fun s => In (s_name s) pre /\ ~ In (s_name s) (bad :: post)) new) /\
  (exists new,
     KSMCollector.collect w c st =
       (Ok tt, State (published st ++ new) (log st) (last_values st)
                     (sock_calls st)) /\
     new = flat_map (item_samples w)
             (map (Py.path_join (KSMCollector.ksm_path c))
                  (filter visible (pre ++ post))) /\
     forall g t v,
       In g (pre ++ post) ->
       visible g = true ->
       fs w (Py.path_join (KSMCollector.ksm_path c) g) = Some (File true t) ->
       Py.float_of_string (Py.rstrip (readline t)) = Some v ->
       In (Sample Plain
             (Py.basename (Py.path_join (KSMCollector.ksm_path c) g))
             (VFloat v)) new).
Proof.
  intros Hnodup Hkvm Hbad Hliteral Hksm Hfiles Hbad' Hnum.
  split.
  - unfold KVMCollector.collect, isdir, listdir. rewrite Hkvm.
    cbv beta iota. cbn [negb]. rewrite bind_ret.
    destruct (for_each_stops (KVMCollector.collect_file w) pre post bad) with
      (st := st) as [e He].
    { intros st0. exists ValueError.
      now apply kvm_collect_file_bad with (content := content). }
    destruct (emits_for_each_in (fun s => In (s_name s) pre) pre
                (KVMCollector.collect_file w)) with (st := st)
      as [new [Hnew Hall]].
    { intros x Hx. apply emits_weaken with (P := fun s => s_name s = x).
      - now intros s ->.
      - apply kvm_collect_file_name. }
    exists e, new. rewrite (bind_raise _ _ _ _ _ He). cbn [fst snd].
    repeat split; [exact Hnew |].
    eapply Forall_impl; [| exact Hall]. cbn beta. intros s Hs.
    split; [exact Hs |].
    now apply (NoDup_app_disjoint pre (bad :: post)).
  - unfold KSMCollector.collect, glob_all. rewrite Hksm.
    fold visible.
    assert (Hskip :
      for_each (map (Py.path_join (KSMCollector.ksm_path c))
                    (filter visible (pre ++ bad :: post)))
               (KSMCollector.collect_item w) st =
      for_each (map (Py.path_join (KSMCollector.ksm_path c))
                    (filter visible (pre ++ post)))
               (KSMCollector.collect_item w) st).
    { rewrite !filter_app. cbn [filter].
      destruct (visible bad); [| reflexivity].
      rewrite !map_app. cbn [map]. apply for_each_skips.
      intros st0.
      rewrite (ksm_collect_item_file w _ true content st0 Hbad').
      unfold item_samples.
      rewrite Hbad', float_of_string_rstrip, Hnum, app_nil_r.
      now rewrite state_eta. }
    rewrite Hskip.
    set (items := map _ _).
    assert (Hitems : forall item, In item items ->
              exists r t, fs w item = Some (File r t)).
    { intros item Hi. apply in_map_iff in Hi as [n [<- Hn]].
      apply filter_In in Hn as [Hn _]. apply Hfiles.
      apply in_app_or in Hn. apply in_or_app.
      destruct Hn; [now left | right; now right]. }
    rewrite (ksm_collect_items_files w items Hitems).
    eexists. split; [reflexivity |]. split; [reflexivity |].
    intros g t v Hg Hvis Hf Hv.
    apply in_flat_map.
    exists (Py.path_join (KSMCollector.ksm_path c) g). split.
    + apply in_map. apply filter_In. now split.
    + unfold item_samples. rewrite Hf, Hv. now left.
Qed.

Lemma kvm_aborts_ksm_continues_witness :
  (exists e new,
     fst (KVMCollector.collect kvm_and_ksm initial) = Raise e /\
     published (snd (KVMCollector.collect kvm_and_ksm initial)) =
       published initial ++ new /\
     Forall (fun s => In (s_name s) ["exits"] /\
                      ~ In (s_name s) ["notes"; "halts"]) new) /\
  (exists new,
     KSMCollector.collect kvm_and_ksm KSMCollector.default_config initial =
       (Ok tt, State (published initial ++ new) (log initial)
                     (last_values initial) (sock_calls initial)) /\
     new = flat_map (item_samples kvm_and_ksm)
             (map (Py.path_join
                     (KSMCollector.ksm_path KSMCollector.default_config))
                  (filter visible (["exits"] ++ ["halts"]))) /\
     forall g t v,
       In g (["exits"] ++ ["halts"]) ->
       visible g = true ->
       fs kvm_and_ksm
          (Py.path_join (KSMCollector.ksm_path KSMCollector.default_config) g)
         = Some (File true t) ->
       Py.float_of_string (Py.rstrip (readline t)) = Some v ->
       In (Sample Plain
             (Py.basename
                (Py.path_join
                   (KSMCollector.ksm_path KSMCollector.default_config) g))
             (VFloat v)) new).
Proof.
  apply (kvm_aborts_ksm_continues kvm_and_ksm KSMCollector.default_config
           ["exits"] ["halts"] "notes" ("none" ++ lf) initial).
  - repeat constructor; cbn; intuition discriminate.
  - reflexivity.
  - reflexivity.
  - reflexivity.
  - reflexivity.
  - intros n [<- | [<- | [<- | []]]]; eexists; eexists; reflexivity.
  - reflexivity.
  - reflexivity.
Defined.

(** ** Deltas of the derivative collectors *)



Lemma for_each_cons_ok {A} (body : A -> M unit) (x : A) (rest : list A)
    (st st' : state) :
  for_each (x :: rest) body st = (Ok tt, st') ->
  exists st1, body x st = (Ok tt, st1) /\ for_each rest body st1 = (Ok tt, st').
Proof.
  cbn [for_each]. unfold bind.
  destruct (body x st) as [[[] | e] st1]; [| discriminate].
  intros H. now exists st1.
Qed.

Section DerivativeLoop.
Variable body : string -> M unit.
Variable obs : string -> option Py.float.
Variable modulus : Q.
Variable f : string.

(** A turn of the loop that returns either skips a name other than [f],
    or publishes the delta of what it reads and records what it read. *)
Hypothesis body_ok : forall x st st',
  body x st = (Ok tt, st') ->
  (st' = st /\ x <> f) \/
  (exists raw,
     obs x = Some raw /\
     st' = State (published st ++
                    [Sample Plain x
                       (VFloat (derived modulus
                                  (lookup x (last_values st)) raw))])
                 (log st) (dict_set x raw (last_values st))
                 (sock_calls st)).




End DerivativeLoop.



(** *** KVM *)

Lemma kvm_collect_file_ok (w : world) (x : string) (st st' : state) :
  KVMCollector.collect_file w x st = (Ok tt, st') ->
  exists raw,
    kvm_observed w x = Some raw /\
    st' = State (published st ++
                   [Sample Plain x
                      (VFloat (derived KVMCollector.MAX
                                 (lookup x (last_values st)) raw))])
                (log st) (dict_set x raw (last_values st)) (sock_calls st).
Proof.
  unfold KVMCollector.collect_file, kvm_observed, open.
  destruct (fs w (Py.path_join KVMCollector.PROC x)) as [[[|] t | es] |];
    try discriminate.
  rewrite bind_ret.
  destruct (Py.float_of_string (readline t)) as [raw |]; [| discriminate].
  unfold lift. rewrite bind_ret. intros H. exists raw. split; [reflexivity |].
  cbn in H. now inversion H.
Qed.

Lemma kvm_collect_ok (w : world) (st : state) (names : list string) :
  fs w KVMCollector.PROC = Some (Dir names) ->
  fst (KVMCollector.collect w st) = Ok RNone ->
  exists st',
    for_each names (KVMCollector.collect_file w) st = (Ok tt, st') /\
    snd (KVMCollector.collect w st) = st'.
Proof.
  intros Hdir. unfold KVMCollector.collect, isdir, listdir. rewrite Hdir.
  cbv beta iota. cbn [negb]. rewrite bind_ret. unfold bind.
  destruct (for_each names (KVMCollector.collect_file w) st)
    as [[[] | e] st']; [| discriminate].
  intros _. now exists st'.
Qed.


(** *** UDP *)




Lemma lookup_In_keys {A} (k : string) (d : list (string * A)) (v : A) :
  lookup k d = Some v -> In k (keys d).
Proof.
  induction d as [| [k' v'] d IH]; cbn [lookup keys map fst In];
    [discriminate |].
  destruct (String.eqb_spec k k') as [-> | Hne]; [now left |].
  intros H. right. now apply IH.
Qed.







(** * Further properties *)

(** ** What a computation raises *)

Section RaisesOnly.
Variable E : exn -> bool.

Lemma ro_ret {A} (a : A) : raises_only E (ret a).
Proof. intros st e H. discriminate H. Qed.

Lemma ro_raise {A} (e : exn) : E e = true -> raises_only E (@raise A e).
Proof. intros He st e' H. cbn in H. now inversion H; subst. Qed.

Lemma ro_lift {A} (e : exn) (o : option A) :
  E e = true -> raises_only E (lift e o).
Proof. destruct o; [intros _; apply ro_ret | apply ro_raise]. Qed.

Lemma ro_lift_some {A} (e : exn) (a : A) : raises_only E (lift e (Some a)).
Proof. apply ro_ret. Qed.

Lemma ro_log_at (l : level) (t : string) : raises_only E (log_at l t).
Proof. intros st e H. discriminate H. Qed.

Lemma ro_emit (s : sample) : raises_only E (emit s).
Proof. intros st e H. discriminate H. Qed.

Lemma ro_sock (c : sock_call) : raises_only E (sock c).
Proof. intros st e H. discriminate H. Qed.

Lemma ro_derivative (n : string) (v : Py.float) (m : Q) :
  raises_only E (derivative n v m).
Proof. intros st e H. discriminate H. Qed.

Lemma ro_bind {A B} (c : M A) (k : A -> M B) :
  raises_only E c -> (forall a, raises_only E (k a)) ->
  raises_only E (bind c k).
Proof.
  intros Hc Hk st e. unfold bind.
  pose proof (Hc st) as Hc'.
  destruct (c st) as [[a | e1] st1]; cbn [fst] in *.
  - apply Hk.
  - intros H. inversion H; subst. now apply Hc'.
Qed.

(** A handler that catches everything takes over what the body raises. *)
Lemma ro_try_all {A} (c : M A) (h : exn -> M A) :
  (forall e, raises_only E (h e)) ->
  raises_only E (try_except c (fun _ => true) h).
Proof.
  intros Hh st e. unfold try_except.
  destruct (c st) as [[a | e1] st1]; [discriminate | apply Hh].
Qed.

Lemma ro_try_except {A} (c : M A) (caught : exn -> bool) (h : exn -> M A) :
  raises_only (fun e => caught e || E e) c ->
  (forall e, raises_only E (h e)) ->
  raises_only E (try_except c caught h).
Proof.
  intros Hc Hh st e. unfold try_except.
  pose proof (Hc st) as Hc'.
  destruct (c st) as [[a | e1] st1]; cbn [fst] in *; [discriminate |].
  destruct (caught e1) eqn:Hcaught; [apply Hh |].
  intros H. inversion H; subst.
  specialize (Hc' e eq_refl). now rewrite Hcaught in Hc'.
Qed.

Lemma ro_for_each_in {A} (l : list A) (body : A -> M unit) :
  (forall x, In x l -> raises_only E (body x)) ->
  raises_only E (for_each l body).
Proof.
  induction l as [| x rest IH]; intros Hb; cbn [for_each].
  - apply ro_ret.
  - apply ro_bind.
    + apply Hb. now left.
    + intros _. apply IH. intros y Hy. apply Hb. now right.
Qed.

Lemma ro_for_each {A} (l : list A) (body : A -> M unit) :
  (forall x, raises_only E (body x)) -> raises_only E (for_each l body).
Proof. intros Hb. apply ro_for_each_in. intros x _. apply Hb. Qed.

Lemma ro_fold_each {A B} (l : list A) (body : B -> A -> M B) :
  (forall acc x, raises_only E (body acc x)) ->
  forall acc, raises_only E (fold_each l acc body).
Proof.
  intros Hb. induction l as [| x rest IH]; intros acc; cbn [fold_each].
  - apply ro_ret.
  - apply ro_bind; [apply Hb | intros acc'; apply IH].
Qed.

End RaisesOnly.

Lemma ro_weaken (E F : exn -> bool) {A} (c : M A) :
  (forall e, E e = true -> F e = true) -> raises_only E c -> raises_only F c.
Proof. intros HEF Hc st e H. apply HEF. now apply (Hc st). Qed.

Create HintDb raises.

(** Breaks a goal [raises_only E c] down along the structure of [c]. *)
Ltac ro_step :=
  match goal with
  | |- raises_only _ (bind _ _) => apply ro_bind; [| intros ?]
  | |- raises_only _ (ret _) => apply ro_ret
  | |- raises_only _ (raise _) => apply ro_raise; reflexivity
  | |- raises_only _ (lift _ (Some _)) => apply ro_lift_some
  | |- raises_only _ (lift _ _) => apply ro_lift; reflexivity
  | |- raises_only _ (log_at _ _) => apply ro_log_at
  | |- raises_only _ (log_error _) => apply ro_log_at
  | |- raises_only _ (log_debug _) => apply ro_log_at
  | |- raises_only _ (log_exception _) => apply ro_log_at
  | |- raises_only _ (emit _) => apply ro_emit
  | |- raises_only _ (publish _ _) => apply ro_emit
  | |- raises_only _ (publish_gauge _ _) => apply ro_emit
  | |- raises_only _ (publish_counter _ _) => apply ro_emit
  | |- raises_only _ (sock _) => apply ro_sock
  | |- raises_only _ (derivative _ _ _) => apply ro_derivative
  | |- raises_only _ (for_each _ _) => apply ro_for_each; intros ?
  | |- raises_only _ (fold_each _ _ _) => apply ro_fold_each; intros ? ?
  | |- raises_only _ (try_except _ (fun _ => true) _) =>
      apply ro_try_all; intros ?
  | |- raises_only _ (if ?b then _ else _) => destruct b eqn:?
  | |- raises_only _ (match ?x with _ => _ end) => destruct x eqn:?
  end.

Ltac ro_go := repeat first [ solve [auto with raises] | ro_step ].

(** ** What a computation leaves alone *)

Section Keeps.
Context {X : Type}.
Variable f : state -> X.

Lemma keeps_ret {A} (a : A) : keeps f (ret a).
Proof. now intros st. Qed.

Lemma keeps_raise {A} (e : exn) : keeps f (@raise A e).
Proof. now intros st. Qed.

Lemma keeps_lift {A} (e : exn) (o : option A) : keeps f (lift e o).
Proof. destruct o; [apply keeps_ret | apply keeps_raise]. Qed.

Lemma keeps_bind {A B} (c : M A) (k : A -> M B) :
  keeps f c -> (forall a, keeps f (k a)) -> keeps f (bind c k).
Proof.
  intros Hc Hk st. unfold bind. pose proof (Hc st) as Hc'.
  destruct (c st) as [[a | e] st1]; cbn [snd] in *.
  - now rewrite Hk.
  - exact Hc'.
Qed.

Lemma keeps_try_except {A} (c : M A) (caught : exn -> bool)
    (h : exn -> M A) :
  keeps f c -> (forall e, keeps f (h e)) -> keeps f (try_except c caught h).
Proof.
  intros Hc Hh st. unfold try_except. pose proof (Hc st) as Hc'.
  destruct (c st) as [[a | e] st1]; cbn [snd] in *; [exact Hc' |].
  destruct (caught e); [now rewrite Hh | exact Hc'].
Qed.

Lemma keeps_for_each {A} (l : list A) (body : A -> M unit) :
  (forall x, keeps f (body x)) -> keeps f (for_each l body).
Proof.
  intros Hb. induction l as [| x rest IH]; cbn [for_each].
  - apply keeps_ret.
  - apply keeps_bind; [apply Hb | intros _; exact IH].
Qed.

Lemma keeps_fold_each {A B} (l : list A) (body : B -> A -> M B) :
  (forall acc x, keeps f (body acc x)) ->
  forall acc, keeps f (fold_each l acc body).
Proof.
  intros Hb. induction l as [| x rest IH]; intros acc; cbn [fold_each].
  - apply keeps_ret.
  - apply keeps_bind; [apply Hb | intros acc'; apply IH].
Qed.

End Keeps.

(** Breaks a goal [keeps f c] down along the structure of [c]; a step that
    changes the state has to leave [f] alone by computation. *)
Ltac keeps_step :=
  match goal with
  | |- keeps _ (bind _ _) => apply keeps_bind; [| intros ?]
  | |- keeps _ (ret _) => apply keeps_ret
  | |- keeps _ (raise _) => apply keeps_raise
  | |- keeps _ (lift _ _) => apply keeps_lift
  | |- keeps _ (for_each _ _) => apply keeps_for_each; intros ?
  | |- keeps _ (fold_each _ _ _) => apply keeps_fold_each; intros ? ?
  | |- keeps _ (try_except _ _ _) => apply keeps_try_except; [| intros ?]
  | |- keeps _ (log_at _ _) => intros ?; reflexivity
  | |- keeps _ (log_error _) => intros ?; reflexivity
  | |- keeps _ (log_debug _) => intros ?; reflexivity
  | |- keeps _ (log_exception _) => intros ?; reflexivity
  | |- keeps _ (emit _) => intros ?; reflexivity
  | |- keeps _ (publish _ _) => intros ?; reflexivity
  | |- keeps _ (publish_gauge _ _) => intros ?; reflexivity
  | |- keeps _ (publish_counter _ _) => intros ?; reflexivity
  | |- keeps _ (sock _) => intros ?; reflexivity
  | |- keeps _ (derivative _ _ _) => intros ?; reflexivity
  | |- keeps _ (if ?b then _ else _) => destruct b
  | |- keeps _ (match ?x with _ => _ end) => destruct x
  end.

Create HintDb keeps.

Ltac keeps_go := repeat first [ solve [auto with keeps] | keeps_step ].

Section WorldSteps.
Variable E : exn -> bool.
Context {X : Type}.
Variable f : state -> X.

Lemma keeps_open w p : keeps f (open w p).
Proof. unfold open. keeps_go. Qed.

Lemma keeps_listdir w p : keeps f (listdir w p).
Proof. unfold listdir. keeps_go. Qed.

Lemma keeps_getitem j k : keeps f (getitem j k).
Proof. unfold getitem. keeps_go. Qed.

Lemma keeps_contains k j : keeps f (World.contains k j).
Proof. unfold World.contains. keeps_go. Qed.

Lemma keeps_iter j : keeps f (iter j).
Proof. unfold iter. keeps_go. Qed.

Lemma keeps_as_str e j : keeps f (as_str e j).
Proof. unfold as_str. keeps_go. Qed.

Lemma keeps_cfg_len v : keeps f (cfg_len v).
Proof. unfold cfg_len. keeps_go. Qed.

Lemma keeps_cfg_contains x v : keeps f (cfg_contains x v).
Proof. unfold cfg_contains. keeps_go. Qed.

Lemma keeps_cfg_iter v : keeps f (cfg_iter v).
Proof. unfold cfg_iter. keeps_go. Qed.

Lemma ro_open w p : E IOError = true -> raises_only E (open w p).
Proof. intros H. unfold open. ro_go; now apply ro_raise. Qed.

End WorldSteps.

#[local] Hint Resolve keeps_open keeps_listdir keeps_getitem keeps_contains
  keeps_iter keeps_as_str keeps_cfg_len keeps_cfg_contains keeps_cfg_iter
  : keeps.

Lemma In_keys_lookup {A} (k : string) (d : list (string * A)) :
  In k (keys d) -> exists v, lookup k d = Some v.
Proof.
  induction d as [| [k' v'] d IH]; cbn [keys map fst In lookup]; [easy |].
  intros [-> | Hin].
  - exists v'. now rewrite String.eqb_refl.
  - destruct (String.eqb k k'); [now exists v' | now apply IH].
Qed.

(** ** What leaves a cycle *)

Lemma ro_zip_up names : forall i data metrics,
  raises_only snmp_errors (IPCollector.zip_up names i data metrics).
Proof. induction names; intros; cbn [IPCollector.zip_up]; ro_go. Qed.

Lemma ro_read_file w prefix missing metrics filepath :
  raises_only snmp_errors
    (IPCollector.read_file w prefix missing metrics filepath).
Proof.
  pose proof ro_zip_up. pose proof (ro_open snmp_errors).
  unfold IPCollector.read_file. ro_go.
Qed.

Lemma ro_filtered_out v n :
  v <> CNone -> raises_only snmp_errors (IPCollector.filtered_out v n).
Proof.
  intros Hv. unfold IPCollector.filtered_out, cfg_len, cfg_contains.
  destruct v; [easy | |]; ro_go.
Qed.

Lemma process_config_not_none (c : IPCollector.config) :
  IPCollector.allowed_names (IPCollector.process_config c) <> CNone.
Proof. destruct c as [[| s | l]]; discriminate. Qed.

Lemma udp_process_config_not_none (c : UDPCollector.config) :
  UDPCollector.allowed_names (UDPCollector.process_config c) <> CNone.
Proof. destruct c as [[| s | l]]; discriminate. Qed.

(** X3.  Once [process_config] has run, whatever the option
    [allowed_names] was ([None] too), a cycle of the IP collector or of the
    UDP collector returns or raises one of [IOError] (the file cannot be
    opened), [IndexError] (the data row is shorter than the header) and
    [ValueError] (a value is no integer): the filter itself never raises,
    and every name of the loop has its value. *)
Theorem snmp_cycle_raises_only (w : world) (d : defaults) (st : state)
    (c_ip : IPCollector.config) (c_udp : UDPCollector.config) (e : exn) :
  (fst (IPCollector.collect w (IPCollector.process_config c_ip) st) = Raise e
   -> e = IOError \/ e = IndexError \/ e = ValueError) /\
  (fst (UDPCollector.collect w d (UDPCollector.process_config c_udp) st)
     = Raise e
   -> e = IOError \/ e = IndexError \/ e = ValueError).
Proof.
  assert (Hcases : snmp_errors e = true ->
            e = IOError \/ e = IndexError \/ e = ValueError).
  { destruct e; cbn; intros H; try discriminate H; auto. }
  pose proof ro_read_file as Hread.
  split; intros H; apply Hcases; revert st e H Hcases.
  - intros st e H _. revert st e H.
    change (raises_only snmp_errors
              (IPCollector.collect w (IPCollector.process_config c_ip))).
    unfold IPCollector.collect, IPCollector.scan.
    apply ro_bind; [ro_go |]. intros metrics.
    apply ro_for_each_in. intros n Hn.
    destruct (In_keys_lookup n metrics Hn) as [raw Hraw].
    unfold IPCollector.publish_metric. rewrite Hraw.
    apply ro_bind;
      [apply ro_filtered_out, process_config_not_none | intros skip].
    ro_go.
  - intros st e H _. revert st e H.
    change (raises_only snmp_errors
              (UDPCollector.collect w d (UDPCollector.process_config c_udp))).
    unfold UDPCollector.collect, UDPCollector.scan.
    apply ro_bind; [ro_go |]. intros metrics.
    apply ro_for_each_in. intros n Hn.
    destruct (In_keys_lookup n metrics Hn) as [raw Hraw].
    unfold UDPCollector.publish_metric. rewrite Hraw.
    apply ro_bind;
      [apply ro_filtered_out, udp_process_config_not_none | intros skip].
    ro_go.
Qed.

Lemma snmp_cycle_raises_only_witness :
  IndexError = IOError \/ IndexError = IndexError \/ IndexError = ValueError.
Proof.
  exact (proj1 (snmp_cycle_raises_only
                  (files [("/proc/net/snmp", File true snmp_unlabelled)])
                  (Defaults 0) initial (IPCollector.Config (CList []))
                  (UDPCollector.Config (CList [])) IndexError) eq_refl).
Defined.

(** ** Nothing to read in [/proc/net/snmp] *)

Lemma seek_unlabelled (prefix : string) (ls : list string) :
  unlabelled prefix (removelast ls) ->
  Py.is_empty (fst (IPCollector.seek prefix ls)) ||
  Py.is_empty (snd (IPCollector.seek prefix ls)) = true.
Proof.
  induction ls as [| l rest IH]; [reflexivity |].
  destruct rest as [| r rs].
  - intros _. cbn [IPCollector.seek].
    destruct (Py.startswith prefix l); [apply orb_true_r | reflexivity].
  - intros H. inversion H as [| ? ? Hl Hrest]; subst.
    cbn [IPCollector.seek]. rewrite Hl. now apply IH.
Qed.

Lemma read_file_unreadable (w : world) (prefix missing : string)
    (metrics : list (string * string)) (filepath : string) (st : state) :
  access w filepath = false ->
  IPCollector.read_file w prefix missing metrics filepath st =
    (Ok metrics,
     State (published st)
           (log st ++ [Entry Error
                         ("Permission to access " ++ filepath ++ " denied")])
           (last_values st) (sock_calls st)).
Proof. intros H. unfold IPCollector.read_file. now rewrite H. Qed.

Lemma read_file_unlabelled (w : world) (prefix missing : string)
    (metrics : list (string * string)) (filepath content : string)
    (st : state) :
  fs w filepath = Some (File true content) ->
  unlabelled prefix (removelast (lines content)) ->
  IPCollector.read_file w prefix missing metrics filepath st =
    (Ok metrics,
     State (published st) (log st ++ [Entry Error (filepath ++ missing)])
           (last_values st) (sock_calls st)).
Proof.
  intros Hf Hu. unfold IPCollector.read_file, access, open. rewrite Hf.
  cbn [negb]. rewrite bind_ret.
  pose proof (seek_unlabelled prefix (lines content) Hu) as Hseek.
  destruct (IPCollector.seek prefix (lines content)) as [header data].
  cbn [fst snd] in Hseek. now rewrite Hseek.
Qed.

(** X4.  When [/proc/net/snmp] cannot be read, and when it can but none of
    its lines starts with the prefix, or only the last one does so that no
    data row follows: the cycle of the IP collector, and that of the UDP
    collector, logs one error, publishes nothing and returns. *)
Theorem snmp_nothing_to_read (w : world) (d : defaults) (st : state)
    (c_ip : IPCollector.config) (c_udp : UDPCollector.config) :
  (access w "/proc/net/snmp" = false ->
   only_logged "Permission to access /proc/net/snmp denied" st
     (IPCollector.collect w c_ip st) /\
   only_logged "Permission to access /proc/net/snmp denied" st
     (UDPCollector.collect w d c_udp st)) /\
  (forall content,
     fs w "/proc/net/snmp" = Some (File true content) ->
     (unlabelled "Ip" (removelast (lines content)) ->
      only_logged "/proc/net/snmp has no lines starting with Ip" st
        (IPCollector.collect w c_ip st)) /\
     (unlabelled "Udp" (removelast (lines content)) ->
      only_logged "/proc/net/snmp has no lines with Udp" st
        (UDPCollector.collect w d c_udp st))).
Proof.
  unfold only_logged, IPCollector.collect, UDPCollector.collect,
    IPCollector.scan, UDPCollector.scan, IPCollector.PROC, UDPCollector.PROC.
  cbn [fold_each].
  split; [intros H; split | intros content Hf; split; intros Hu].
  - now rewrite (bind_ok _ _ _ _ _
                   (bind_ok _ _ _ _ _ (read_file_unreadable _ _ _ _ _ _ H))).
  - now rewrite (bind_ok _ _ _ _ _
                   (bind_ok _ _ _ _ _ (read_file_unreadable _ _ _ _ _ _ H))).
  - now rewrite (bind_ok _ _ _ _ _
                   (bind_ok _ _ _ _ _
                      (read_file_unlabelled _ _ _ _ _ _ _ Hf Hu))).
  - now rewrite (bind_ok _ _ _ _ _
                   (bind_ok _ _ _ _ _
                      (read_file_unlabelled _ _ _ _ _ _ _ Hf Hu))).
Qed.

Lemma snmp_nothing_to_read_witness :
  (only_logged "Permission to access /proc/net/snmp denied" initial
     (IPCollector.collect empty_world (IPCollector.Config (CList [])) initial)
   /\
   only_logged "Permission to access /proc/net/snmp denied" initial
     (UDPCollector.collect empty_world (Defaults 0)
        (UDPCollector.Config (CList [])) initial)) /\
  only_logged "/proc/net/snmp has no lines with Udp" initial
    (UDPCollector.collect
       (files [("/proc/net/snmp", File true snmp_labelled)]) (Defaults 0)
       (UDPCollector.Config (CList [])) initial).
Proof.
  split.
  - exact (proj1 (snmp_nothing_to_read empty_world (Defaults 0) initial
                    (IPCollector.Config (CList []))
                    (UDPCollector.Config (CList []))) eq_refl).
  - apply (proj2 (snmp_nothing_to_read
                    (files [("/proc/net/snmp", File true snmp_labelled)])
                    (Defaults 0) initial (IPCollector.Config (CList []))
                    (UDPCollector.Config (CList []))) snmp_labelled eq_refl).
    repeat constructor.
Defined.

(** ** The IP collector on a well-formed file *)

Lemma seek_found (prefix : string) (pre rest : list string) (h : string) :
  unlabelled prefix pre ->
  Py.startswith prefix h = true ->
  IPCollector.seek prefix (pre ++ h :: rest) = (h, hd EmptyString rest).
Proof.
  intros Hpre Hh. induction Hpre as [| l pre Hl _ IH]; cbn [app IPCollector.seek].
  - now rewrite Hh.
  - now rewrite Hl.
Qed.

Lemma nth_error_skipn {A} (l : list A) (i : nat) :
  (i < List.length l)%nat ->
  exists v, nth_error l i = Some v /\ skipn i l = v :: skipn (S i) l.
Proof.
  revert i. induction l as [| x l IH]; intros i Hi; cbn in Hi; [lia |].
  destruct i as [| i]; [now exists x |].
  destruct (IH i) as [v [Hv Hs]]; [lia |]. exists v. now split.
Qed.

(** With a data row long enough, the loop over the header stores each name
    with the value at its index. *)
Lemma zip_up_ok (names : list string) :
  forall i data metrics st,
    (i + List.length names <= List.length data)%nat ->
    IPCollector.zip_up names i data metrics st =
      (Ok (fold_left (fun m p => dict_set (fst p) (snd p) m)
                     (combine names (skipn i data)) metrics), st).
Proof.
  induction names as [| n rest IH]; intros i data metrics st Hlen;
    cbn [IPCollector.zip_up]; [reflexivity |].
  cbn [List.length] in Hlen.
  destruct (nth_error_skipn data i) as [v [Hv Hs]]; [lia |].
  rewrite Hv, Hs. unfold lift. rewrite bind_ret.
  rewrite IH by lia. reflexivity.
Qed.

(** With a data row too short, it raises [IndexError]. *)
Lemma zip_up_short (names : list string) :
  forall i data metrics st,
    names <> [] ->
    (List.length data < i + List.length names)%nat ->
    IPCollector.zip_up names i data metrics st = (Raise IndexError, st).
Proof.
  induction names as [| n rest IH]; intros i data metrics st Hne Hlen;
    [easy |].
  cbn [IPCollector.zip_up]. cbn [List.length] in Hlen.
  destruct (nth_error data i) as [v |] eqn:Hv; [| reflexivity].
  unfold lift. rewrite bind_ret.
  assert (Hi : (i < List.length data)%nat).
  { apply nth_error_Some. congruence. }
  apply IH; [| lia].
  intros ->. cbn in Hlen. lia.
Qed.

Lemma dict_set_fresh {A} (k : string) (v : A) (d : list (string * A)) :
  ~ In k (keys d) -> dict_set k v d = d ++ [(k, v)].
Proof.
  induction d as [| [k' v'] d IH]; cbn [keys map fst In dict_set app];
    intros H; [reflexivity |].
  destruct (String.eqb_spec k k') as [-> | Hne]; [tauto |].
  rewrite IH; [reflexivity | tauto].
Qed.

Lemma keys_app {A} (d1 d2 : list (string * A)) :
  keys (d1 ++ d2) = keys d1 ++ keys d2.
Proof. apply map_app. Qed.

(** Names that are all different are stored in the order they come. *)
Lemma fold_dict_set_fresh {A} (ps : list (string * A)) :
  forall acc,
    NoDup (keys acc ++ keys ps) ->
    fold_left (fun m p => dict_set (fst p) (snd p) m) ps acc = acc ++ ps.
Proof.
  induction ps as [| [k v] ps IH]; intros acc Hnd; cbn [fold_left fst snd].
  - now rewrite app_nil_r.
  - cbn [keys map fst] in Hnd.
    rewrite dict_set_fresh.
    + rewrite IH.
      * now rewrite <- app_assoc.
      * rewrite keys_app. cbn [keys map fst]. now rewrite <- app_assoc.
    + intros Hin. apply NoDup_remove_2 in Hnd. apply Hnd.
      apply in_or_app. now left.
Qed.

Lemma lookup_NoDup {A} (d : list (string * A)) (k : string) (v : A) :
  NoDup (keys d) -> In (k, v) d -> lookup k d = Some v.
Proof.
  induction d as [| [k' v'] d IH]; cbn [keys map fst In lookup]; [easy |].
  intros Hnd [Heq | Hin].
  - inversion Heq; subst. now rewrite String.eqb_refl.
  - inversion Hnd as [| ? ? Hk' Hd]; subst.
    destruct (String.eqb_spec k k') as [-> | Hne].
    + exfalso. apply Hk'. change (In k' (map fst d)).
      apply in_map_iff. now exists (k', v).
    + now apply IH.
Qed.

Lemma filtered_out_list (L : list string) (n : string) (st : state) :
  IPCollector.filtered_out (CList L) n st = (Ok (negb (passes L n)), st).
Proof. destruct L; [reflexivity |]. reflexivity. Qed.

(** The loop over the names, for names whose values are all integers. *)
Lemma ip_publish_all (L : list string) (metrics : list (string * string))
    (sub : list (string * string)) :
  forall (zs : list Z) (st : state),
    (forall p, In p sub -> lookup (fst p) metrics = Some (snd p)) ->
    Forall2 (fun raw z => Py.long_of_string raw = Some z) (map snd sub) zs ->
    for_each (keys sub)
      (IPCollector.publish_metric (IPCollector.Config (CList L)) metrics) st =
      (Ok tt, State (published st ++ ip_samples L (keys sub) zs) (log st)
                    (last_values st) (sock_calls st)).
Proof.
  unfold ip_samples.
  induction sub as [| [n raw] sub IH]; intros zs st Hlook Hparse.
  - cbn. rewrite app_nil_r. now rewrite state_eta.
  - cbn [map snd] in Hparse. inversion Hparse as [| ? z ? zs' Hz Hzs]; subst.
    cbn [keys map fst for_each combine filter].
    assert (Hstep :
      IPCollector.publish_metric (IPCollector.Config (CList L)) metrics n st =
        (Ok tt,
         State (published st ++
                  (if passes L n then [ip_sample (n, z)] else []))
               (log st) (last_values st) (sock_calls st))).
    { unfold IPCollector.publish_metric. cbn [IPCollector.allowed_names].
      rewrite (bind_ok _ _ _ _ _ (filtered_out_list L n st)).
      destruct (passes L n); cbn [negb].
      - pose proof (Hlook (n, raw) (or_introl eq_refl)) as Hraw.
        cbn [fst snd] in Hraw. rewrite Hraw.
        unfold lift. rewrite bind_ret, Hz, bind_ret.
        unfold ip_sample. cbn [fst snd].
        now destruct (mem n IPCollector.GAUGES).
      - cbn. rewrite app_nil_r. now rewrite state_eta. }
    rewrite (bind_ok _ _ _ _ _ Hstep).
    change (map fst sub) with (keys sub).
    rewrite (IH zs' _ (fun p Hp => Hlook p (or_intror Hp)) Hzs).
    cbn [published log last_values sock_calls fst].
    destruct (passes L n); cbn [map app]; now rewrite <- app_assoc.
Qed.

Lemma split_labelled (prefix h : string) :
  Py.startswith prefix h = true -> Py.is_empty prefix = false ->
  Py.is_empty h = false.
Proof. destruct h; [now destruct prefix | reflexivity]. Qed.

Lemma split_not_empty (s : string) (t : string) (ts : list string) :
  Py.split s = t :: ts -> Py.is_empty s = false.
Proof. destruct s; [discriminate | reflexivity]. Qed.

Lemma keys_combine {A} (names : list string) (values : list A) :
  List.length names = List.length values ->
  keys (combine names values) = names.
Proof.
  revert values. induction names as [| n names IH]; intros [| v values] H;
    try discriminate H; [reflexivity |].
  cbn [combine keys map fst]. f_equal. apply IH. now inversion H.
Qed.

Lemma snd_combine {A} (names : list string) (values : list A) :
  List.length names = List.length values ->
  map snd (combine names values) = values.
Proof.
  revert values. induction names as [| n names IH]; intros [| v values] H;
    try discriminate H; [reflexivity |].
  cbn [combine map snd]. f_equal. apply IH. now inversion H.
Qed.

(** X5.  A file whose first line starting with [Ip] is a header of
    [label names...] followed by a data row of [label values...], with as
    many values as names, the names all different and the values all
    integers, and a list as allow-list: the cycle returns, logs nothing,
    and publishes for each name the allow-list lets through one sample,
    with the value at the same index, as a gauge for [Forwarding] and
    [DefaultTTL] and as a counter otherwise, and nothing else.  The order
    in which they are published is that of the keys of a dictionary, and
    is left open. *)
Theorem ip_well_formed (w : world) (L : list string) (st : state)
    (content header data label dlabel : string) (pre post : list string)
    (names values : list string) (zs : list Z) :
  fs w "/proc/net/snmp" = Some (File true content) ->
  lines content = pre ++ header :: data :: post ->
  unlabelled "Ip" pre ->
  Py.startswith "Ip" header = true ->
  Py.split header = label :: names ->
  Py.split data = dlabel :: values ->
  List.length names = List.length values ->
  NoDup names ->
  Forall2 (fun raw z => Py.long_of_string raw = Some z) values zs ->
  exists new,
    IPCollector.collect w (IPCollector.Config (CList L)) st =
      (Ok tt, State (published st ++ new) (log st) (last_values st)
                    (sock_calls st)) /\
    Permutation new (ip_samples L names zs).
Proof.
  intros Hf Hlines Hpre Hh Hsh Hsd Hlen Hnd Hparse.
  exists (ip_samples L names zs). split; [| apply Permutation_refl].
  assert (Hkeys : keys (combine names values) = names)
    by now apply keys_combine.
  assert (Hread : IPCollector.read_file w "Ip" " has no lines starting with Ip"
                    [] "/proc/net/snmp" st = (Ok (combine names values), st)).
  { unfold IPCollector.read_file, access, open. rewrite Hf. cbn [negb].
    rewrite bind_ret, Hlines,
      (seek_found "Ip" pre (data :: post) header Hpre Hh).
    cbn [hd].
    rewrite (split_labelled "Ip" header Hh eq_refl),
      (split_not_empty data dlabel values Hsd).
    cbn [orb]. rewrite Hsh, Hsd. cbn [tl].
    assert (Hroom : (1 + List.length names <= List.length (dlabel :: values))%nat)
      by (cbn [List.length]; lia).
    rewrite (zip_up_ok names 1 (dlabel :: values) [] st Hroom).
    cbn [skipn]. rewrite fold_dict_set_fresh; [reflexivity |].
    cbn [keys map app]. change (map fst (combine names values))
      with (keys (combine names values)). now rewrite Hkeys. }
  assert (Hscan : IPCollector.scan w st = (Ok (combine names values), st)).
  { unfold IPCollector.scan, IPCollector.PROC. cbn [fold_each].
    now rewrite (bind_ok _ _ _ _ _ Hread). }
  unfold IPCollector.collect. rewrite (bind_ok _ _ _ _ _ Hscan).
  rewrite (ip_publish_all L (combine names values) (combine names values) zs st).
  - now rewrite Hkeys.
  - intros [n raw] Hp. apply lookup_NoDup; [now rewrite Hkeys | exact Hp].
  - now rewrite snd_combine.
Qed.

Lemma ip_well_formed_witness :
  exists new,
    IPCollector.collect (files [("/proc/net/snmp", File true snmp_labelled)])
      (IPCollector.Config (CList ["InReceives"])) initial =
      (Ok tt, State ([] ++ new) [] [] []) /\
    Permutation new
      (ip_samples ["InReceives"] ["Forwarding"; "InReceives"] [1%Z; 100%Z]).
Proof.
  apply (ip_well_formed (files [("/proc/net/snmp", File true snmp_labelled)])
           ["InReceives"] initial snmp_labelled
           ("Ip: Forwarding InReceives" ++ lf) ("Ip: 1 100" ++ lf)
           "Ip:" "Ip:" [] [] ["Forwarding"; "InReceives"] ["1"; "100"]
           [1%Z; 100%Z]).
  - reflexivity.
  - reflexivity.
  - constructor.
  - reflexivity.
  - reflexivity.
  - reflexivity.
  - reflexivity.
  - repeat constructor; cbn; intuition discriminate.
  - repeat constructor.
Defined.

(** ** A data row shorter than its header *)

Lemma readlines_limit_nonempty (limit : N) (s : string) :
  forall room,
    Forall (fun l => Py.is_empty l = false) (Py.readlines_limit limit room s).
Proof.
  induction s as [| c s IH]; intros room; cbn [Py.readlines_limit];
    [constructor |].
  destruct (Ascii.eqb c Py.nl || (room <=? 1)%N).
  - constructor; [reflexivity | apply IH].
  - specialize (IH (room - 1)%N).
    destruct (Py.readlines_limit limit (room - 1) s) as [| l ls].
    + now repeat constructor.
    + inversion IH; subst. now constructor.
Qed.

Lemma read_file_short_row (w : world) (prefix missing : string)
    (metrics : list (string * string)) (filepath content header data : string)
    (pre post : list string) (st : state) :
  fs w filepath = Some (File true content) ->
  lines content = pre ++ header :: data :: post ->
  unlabelled prefix pre ->
  Py.startswith prefix header = true ->
  Py.is_empty prefix = false ->
  (1 < List.length (Py.split header))%nat ->
  (List.length (Py.split data) < List.length (Py.split header))%nat ->
  IPCollector.read_file w prefix missing metrics filepath st =
    (Raise IndexError, st).
Proof.
  intros Hf Hlines Hpre Hh Hp Hmany Hshort.
  unfold IPCollector.read_file, access, open. rewrite Hf. cbn [negb].
  rewrite bind_ret, Hlines, (seek_found prefix pre (data :: post) header Hpre Hh).
  cbn [hd]. rewrite (split_labelled prefix header Hh Hp).
  assert (Hdata : Py.is_empty data = false).
  { pose proof (readlines_limit_nonempty LIMIT content LIMIT) as Hall.
    fold (lines content) in Hall. rewrite Hlines in Hall.
    apply Forall_app in Hall as [_ Hall].
    inversion Hall as [| ? ? _ Hrest]; subst. now inversion Hrest. }
  rewrite Hdata. cbn [orb].
  destruct (Py.split header) as [| label names]; cbn [List.length] in *;
    [lia |].
  cbn [tl]. apply zip_up_short.
  - intros ->. cbn in Hmany. lia.
  - lia.
Qed.

(** X6.  A header of two tokens or more, followed by a data row of fewer
    tokens than the header: the cycle of the IP collector, and that of the
    UDP collector, raises [IndexError] out of [collect], with nothing
    published and nothing logged. *)
Theorem snmp_short_row (w : world) (d : defaults) (st : state)
    (c_ip : IPCollector.config) (c_udp : UDPCollector.config)
    (content header data : string) (pre post : list string) :
  fs w "/proc/net/snmp" = Some (File true content) ->
  lines content = pre ++ header :: data :: post ->
  (1 < List.length (Py.split header))%nat ->
  (List.length (Py.split data) < List.length (Py.split header))%nat ->
  (unlabelled "Ip" pre -> Py.startswith "Ip" header = true ->
   IPCollector.collect w c_ip st = (Raise IndexError, st)) /\
  (unlabelled "Udp" pre -> Py.startswith "Udp" header = true ->
   UDPCollector.collect w d c_udp st = (Raise IndexError, st)).
Proof.
  intros Hf Hlines Hmany Hshort.
  unfold IPCollector.collect, UDPCollector.collect, IPCollector.scan,
    UDPCollector.scan, IPCollector.PROC, UDPCollector.PROC.
  cbn [fold_each].
  split; intros Hpre Hh.
  - now rewrite (bind_raise _ _ _ _ _
                   (bind_raise _ _ _ _ _
                      (read_file_short_row w "Ip" _ [] _ content header data
                         pre post st Hf Hlines Hpre Hh eq_refl Hmany Hshort))).
  - now rewrite (bind_raise _ _ _ _ _
                   (bind_raise _ _ _ _ _
                      (read_file_short_row w "Udp" _ [] _ content header data
                         pre post st Hf Hlines Hpre Hh eq_refl Hmany Hshort))).
Qed.

Lemma snmp_short_row_witness :
  IPCollector.collect (files [("/proc/net/snmp", File true snmp_unlabelled)])
    (IPCollector.Config (CList [])) initial = (Raise IndexError, initial).
Proof.
  apply (proj1 (snmp_short_row
                  (files [("/proc/net/snmp", File true snmp_unlabelled)])
                  (Defaults 0) initial (IPCollector.Config (CList []))
                  (UDPCollector.Config (CList [])) snmp_unlabelled
                  ("Ip: Forwarding InReceives" ++ lf) ("1 100" ++ lf) [] []
                  eq_refl eq_refl
                  ltac:(vm_compute; lia) ltac:(vm_compute; lia))).
  - constructor.
  - reflexivity.
Defined.

(** ** Gauges and counters *)

Lemma emits_recv_loop P evs : forall data,
  emits P (MemcachedCollector.recv_loop evs data).
Proof.
  induction evs as [| [r |] evs IH]; intros data;
    cbn [MemcachedCollector.recv_loop]; emits_go.
Qed.

Lemma emits_get_stats P w host port :
  emits P (MemcachedCollector.get_stats w host port).
Proof.
  pose proof (emits_recv_loop P).
  unfold MemcachedCollector.get_stats, MemcachedCollector.get_raw_stats,
    MemcachedCollector.parse_line, MemcachedCollector.failed.
  emits_go.
Qed.

Lemma emits_bind_outcome (P : sample -> Prop) {A B} (c : M A)
    (k : A -> M B) :
  emits P c ->
  (forall a, (exists st0 st1, c st0 = (Ok a, st1)) -> emits P (k a)) ->
  emits P (bind c k).
Proof.
  intros Hc Hk st. unfold bind.
  destruct (Hc st) as [n1 [E1 F1]].
  destruct (c st) as [[a | e] st1] eqn:E; cbn [snd] in E1.
  - destruct (Hk a (ex_intro _ st (ex_intro _ st1 E)) st1) as [n2 [E2 F2]].
    exists (n1 ++ n2). rewrite E2, E1, app_assoc.
    split; [reflexivity | now apply Forall_app].
  - exists n1. now split.
Qed.

Lemma memcached_host_published (w : world) (c : MemcachedCollector.config)
    (spec : string) :
  In spec (host_specs (MemcachedCollector.hosts c)) ->
  emits (memcached_published w c) (MemcachedCollector.collect_host w c spec).
Proof.
  intros Hin. unfold MemcachedCollector.collect_host.
  apply emits_bind_outcome; [apply emits_lift | intros m [s0 [s1 Hm]]].
  assert (Hsearch : Re.search MemcachedCollector.host_re spec = Some m).
  { destruct (Re.search MemcachedCollector.host_re spec);
      [now inversion Hm | discriminate Hm]. }
  apply emits_bind_outcome; [apply emits_lift | intros hostname [s2 [s3 Hh]]].
  assert (Hgroup : Re.group 3 m = Some hostname).
  { destruct (Re.group 3 m); [now inversion Hh | discriminate Hh]. }
  apply emits_bind_outcome;
    [apply emits_get_stats | intros stats [st0 [st1 Hstats]]].
  apply emits_bind;
    [destruct (MemcachedCollector.publish_names c); emits_go
    | intros desired].
  apply emits_for_each. intros stat.
  unfold MemcachedCollector.publish_stat.
  destruct (lookup stat stats) as [v |] eqn:Hl; [| apply emits_log_at].
  fold (alias_of m hostname).
  assert (Hs : memcached_published w c
                 (memcached_sample (alias_of m hostname) stat v)).
  { now exists spec, m, hostname, stats, stat, v, st0, st1. }
  unfold memcached_sample in Hs.
  destruct (mem stat MemcachedCollector.GAUGES); now apply emits_emit.
Qed.

(** X7.  Whatever the file and the configuration, and whether the cycle
    returns or raises: every sample the IP collector publishes is a gauge
    if its name is [Forwarding] or [DefaultTTL] and a counter otherwise,
    with an integer value; every sample the memcached collector publishes
    is the sample of a stat of a configured host: named [alias.stat] with
    the alias of that host and a name [stat] of the table [get_stats]
    returned for it, with the value the table holds, and a gauge if that
    [stat] is among [GAUGES] and a counter otherwise.  Neither calls the
    plain [publish]. *)
Theorem gauges_and_counters (w : world) (st : state)
    (c_ip : IPCollector.config) (c_mc : MemcachedCollector.config) :
  (exists new,
     published (snd (IPCollector.collect w c_ip st)) = published st ++ new /\
     Forall ip_classed new) /\
  (exists new,
     published (snd (MemcachedCollector.collect w c_mc st))
       = published st ++ new /\
     Forall (fun s =>
               exists spec m hostname stats stat v st0 st1,
                 In spec (host_specs (MemcachedCollector.hosts c_mc)) /\
                 Re.search MemcachedCollector.host_re spec = Some m /\
                 Re.group 3 m = Some hostname /\
                 MemcachedCollector.get_stats w hostname (Re.group 5 m) st0 =
                   (Ok stats, st1) /\
                 lookup stat stats = Some v /\
                 s = Sample (if mem stat MemcachedCollector.GAUGES
                             then Gauge else Counter)
                            (alias_of m hostname ++ "." ++ stat) v) new).
Proof.
  split.
  - revert st. change (emits ip_classed (IPCollector.collect w c_ip)).
    pose proof emits_read_file.
    unfold IPCollector.collect, IPCollector.scan. emits_go.
    unfold IPCollector.publish_metric, IPCollector.filtered_out.
    apply emits_bind; [emits_go | intros skip].
    destruct skip; [apply emits_ret |].
    apply emits_bind; [emits_go | intros raw].
    apply emits_bind; [emits_go | intros z].
    destruct (mem x IPCollector.GAUGES) eqn:Hg; apply emits_emit;
      unfold ip_classed; cbn [s_kind s_name s_value]; rewrite Hg; eauto.
  - revert st.
    change (emits (memcached_published w c_mc)
                  (MemcachedCollector.collect w c_mc)).
    pose proof (memcached_host_published w c_mc) as Hhost.
    unfold MemcachedCollector.collect.
    destruct (MemcachedCollector.hosts c_mc) as [| s | l];
      cbn [cfg_iter host_specs] in *.
    + intros st. exists []. now rewrite app_nil_r.
    + change (emits (memcached_published w c_mc)
                (for_each [s] (MemcachedCollector.collect_host w c_mc))).
      now apply emits_for_each_in.
    + change (emits (memcached_published w c_mc)
                (for_each l (MemcachedCollector.collect_host w c_mc))).
      now apply emits_for_each_in.
Qed.

(** ** The KVM collector *)

Lemma kvm_loop_names (w : world) (names : list string) :
  forall st st',
    for_each names (KVMCollector.collect_file w) st = (Ok tt, st') ->
    exists new,
      st' = State (published st ++ new) (log st) (last_values st')
                  (sock_calls st) /\
      map s_name new = names /\ Forall is_plain new.
Proof.
  induction names as [| x rest IH]; intros st st' H.
  - inversion H; subst. exists []. rewrite app_nil_r.
    now rewrite state_eta.
  - apply for_each_cons_ok in H as [st1 [Hx Hrest]].
    apply kvm_collect_file_ok in Hx as [raw [_ ->]].
    destruct (IH _ _ Hrest) as [new [Hst' [Hnames Hplain]]].
    cbn [published log sock_calls] in Hst'.
    eexists (_ :: new). split; [| split].
    + rewrite Hst' at 1. now rewrite <- app_assoc.
    + cbn [map s_name]. now rewrite Hnames.
    + constructor; [reflexivity | exact Hplain].
Qed.

Lemma ro_kvm_collect (w : world) :
  raises_only kvm_errors (KVMCollector.collect w).
Proof.
  pose proof (ro_open kvm_errors).
  unfold KVMCollector.collect, isdir, listdir, KVMCollector.collect_file.
  destruct (fs w KVMCollector.PROC) as [[r t | es] |]; cbn [negb]; ro_go.
Qed.

(** X8.  A cycle of the KVM collector.  Without the directory it logs the
    one hint, publishes nothing and returns the empty dictionary.  When it
    returns otherwise, it has logged nothing and published one sample per
    name of the listing, in its order and under that name, through the
    plain [publish]: no name is filtered.  When it raises, it raises
    [IOError] (an entry cannot be opened) or [ValueError] (a first line is
    no number). *)
Theorem kvm_cycle (w : world) (st : state) :
  (isdir w KVMCollector.PROC = false ->
   exists hint,
     KVMCollector.collect w st =
       (Ok REmptyDict,
        State (published st) (log st ++ [Entry Error hint])
              (last_values st) (sock_calls st))) /\
  (forall names,
     fs w KVMCollector.PROC = Some (Dir names) ->
     fst (KVMCollector.collect w st) = Ok RNone ->
     exists new,
       published (snd (KVMCollector.collect w st)) = published st ++ new /\
       log (snd (KVMCollector.collect w st)) = log st /\
       map s_name new = names /\ Forall is_plain new) /\
  (forall e,
     fst (KVMCollector.collect w st) = Raise e ->
     e = IOError \/ e = ValueError).
Proof.
  split; [| split].
  - intros H. unfold KVMCollector.collect. rewrite H. eexists. reflexivity.
  - intros names Hdir Hok.
    destruct (kvm_collect_ok w st names Hdir Hok) as [st' [Hrun Hst']].
    rewrite Hst'.
    destruct (kvm_loop_names w names st st' Hrun) as [new [Heq [Hn Hp]]].
    exists new. rewrite Heq. now repeat split.
  - intros e H. pose proof (ro_kvm_collect w st e H) as He.
    destruct e; cbn in He; try discriminate He; auto.
Qed.

Lemma kvm_cycle_witness :
  (exists hint,
     KVMCollector.collect empty_world initial =
       (Ok REmptyDict, State [] ([] ++ [Entry Error hint]) [] [])) /\
  (exists new,
     published (snd (KVMCollector.collect (kvm_counter "5") initial))
       = [] ++ new /\
     log (snd (KVMCollector.collect (kvm_counter "5") initial)) = [] /\
     map s_name new = ["exits"] /\ Forall is_plain new) /\
  (ValueError = IOError \/ ValueError = ValueError).
Proof.
  split; [| split].
  - exact (proj1 (kvm_cycle empty_world initial) eq_refl).
  - exact (proj1 (proj2 (kvm_cycle (kvm_counter "5") initial)) ["exits"]
             eq_refl eq_refl).
  - exact (proj2 (proj2 (kvm_cycle kvm_and_ksm initial)) ValueError eq_refl).
Defined.

(** ** The KSM collector *)

Lemma split_on_cons (sep : ascii) (s : string) :
  exists w ws, Py.split_on sep s = w :: ws.
Proof.
  destruct s as [| c s]; cbn [Py.split_on]; [now exists EmptyString, [] |].
  destruct (Py.split_on sep s) as [| w ws]; [now exists EmptyString, [] |].
  destruct (Ascii.eqb c sep); eauto.
Qed.

(** Splitting at a separator splits on both sides of it. *)
Lemma split_on_app (sep : ascii) (a b : string) :
  Py.split_on sep (a ++ String sep b) =
  Py.split_on sep a ++ Py.split_on sep b.
Proof.
  induction a as [| c a IH]; cbn [append Py.split_on].
  - rewrite Ascii.eqb_refl.
    destruct (split_on_cons sep b) as [w [ws ->]]. reflexivity.
  - rewrite IH.
    destruct (split_on_cons sep a) as [w [ws ->]]. cbn [app].
    now destruct (Ascii.eqb c sep).
Qed.

Lemma split_on_whole (sep : ascii) (s : string) :
  Py.contains_char sep s = false -> Py.split_on sep s = [s].
Proof.
  induction s as [| c s IH]; cbn [Py.contains_char Py.split_on];
    [reflexivity |].
  intros H. apply orb_false_iff in H as [Hc Hs].
  rewrite (IH Hs). rewrite Ascii.eqb_sym in Hc. now rewrite Hc.
Qed.

Lemma last_app_cons {A} (l1 l2 : list A) (x d : A) :
  last (l1 ++ x :: l2) d = last (x :: l2) d.
Proof.
  induction l1 as [| y l1 IH]; [reflexivity |].
  cbn [app]. rewrite <- IH. cbn [last].
  destruct (l1 ++ x :: l2) eqn:E; [now destruct l1 | reflexivity].
Qed.

Lemma endswith_slash (d : string) :
  Py.endswith "/" d = true -> exists d', d = (d' ++ "/")%string.
Proof.
  unfold Py.endswith. cbn [Py.rev_string append].
  intros H. destruct (Py.rev_string d) as [| c r] eqn:E; [discriminate |].
  cbn [String.prefix] in H.
  destruct (ascii_dec "/" c) as [<- | Hne]; [| discriminate].
  exists (Py.rev_string r).
  rewrite <- (rev_string_involutive d), E. reflexivity.
Qed.

(** [os.path.basename(os.path.join(d, n))] is [n] for a name without
    slash: the KSM collector publishes a file under its own name. *)
Lemma basename_path_join (d n : string) :
  slash_free n -> Py.basename (Py.path_join d n) = n.
Proof.
  intros Hn. unfold Py.path_join, Py.basename.
  assert (Hstart : Py.startswith "/" n = false).
  { unfold Py.startswith. destruct n as [| c n]; [reflexivity |].
    cbn [String.prefix]. destruct (ascii_dec "/" c) as [<- | _];
      [| reflexivity].
    unfold slash_free in Hn. cbn in Hn. discriminate Hn. }
  rewrite Hstart.
  destruct (Py.is_empty d) eqn:Hd.
  - destruct d; [| discriminate]. cbn [orb append].
    now rewrite (split_on_whole "/" n Hn).
  - cbn [orb]. destruct (Py.endswith "/" d) eqn:He.
    + destruct (endswith_slash d He) as [d' ->].
      rewrite append_assoc. cbn [append].
      rewrite split_on_app, (split_on_whole "/" n Hn).
      apply last_app_cons.
    + cbn [append]. rewrite split_on_app, (split_on_whole "/" n Hn).
      apply last_app_cons.
Qed.

(** X9.  A KSM directory, under a path that holds none of the characters
    [glob] reads as a pattern, whose entries are all files, under names
    without slash: the cycle returns and logs nothing, and what it
    publishes is one plain sample for each entry that does not start with
    a dot, can be read and has a first line that [float] takes once the
    white space at its end is removed ([inf] and [nan] among them), under
    the name of the entry and with the float [float] gives; hidden files,
    files that cannot be read and files whose first line [float] refuses
    are left out without a word. *)
Theorem ksm_publishes_numeric_files (w : world) (c : KSMCollector.config)
    (names : list string) (st : state) :
  Py.has_magic (KSMCollector.ksm_path c) = false ->
  fs w (KSMCollector.ksm_path c) = Some (Dir names) ->
  Forall slash_free names ->
  (forall n, In n names ->
     exists r t,
       fs w (Py.path_join (KSMCollector.ksm_path c) n) = Some (File r t)) ->
  exists new,
    KSMCollector.collect w c st =
      (Ok tt, State (published st ++ new) (log st) (last_values st)
                    (sock_calls st)) /\
    forall s,
      In s new <->
      exists n t v,
        In n names /\ visible n = true /\
        fs w (Py.path_join (KSMCollector.ksm_path c) n)
          = Some (File true t) /\
        Py.float_of_string (Py.rstrip (readline t)) = Some v /\
        s = Sample Plain n (VFloat v).
Proof.
  intros Hliteral Hdir Hfree Hfiles.
  unfold KSMCollector.collect, glob_all. rewrite Hdir. fold visible.
  rewrite ksm_collect_items_files.
  - eexists. split; [reflexivity |]. intros s. rewrite in_flat_map. split.
    + intros [item [Hitem Hs]].
      apply in_map_iff in Hitem as [n [<- Hn]].
      apply filter_In in Hn as [Hn Hvis].
      unfold item_samples in Hs.
      destruct (fs w (Py.path_join (KSMCollector.ksm_path c) n))
        as [[[|] t | es] |] eqn:Hf; try destruct Hs.
      destruct (Py.float_of_string (Py.rstrip (readline t))) as [v |] eqn:Hv;
        [| destruct Hs].
      destruct Hs as [<- | []].
      exists n, t, v. repeat split; try assumption.
      rewrite basename_path_join; [reflexivity |].
      now apply (proj1 (Forall_forall _ _) Hfree).
    + intros [n [t [v [Hn [Hvis [Hf [Hv ->]]]]]]].
      exists (Py.path_join (KSMCollector.ksm_path c) n). split.
      * apply in_map. apply filter_In. now split.
      * unfold item_samples. rewrite Hf, Hv.
        left. rewrite basename_path_join; [reflexivity |].
        now apply (proj1 (Forall_forall _ _) Hfree).
  - intros item Hitem. apply in_map_iff in Hitem as [n [<- Hn]].
    apply filter_In in Hn as [Hn _]. now apply Hfiles.
Qed.

Lemma ksm_publishes_numeric_files_witness :
  exists new,
    KSMCollector.collect kvm_and_ksm KSMCollector.default_config initial =
      (Ok tt, State ([] ++ new) [] [] []) /\
    forall s,
      In s new <->
      exists n t v,
        In n ["exits"; "notes"; "halts"] /\ visible n = true /\
        fs kvm_and_ksm
           (Py.path_join (KSMCollector.ksm_path KSMCollector.default_config) n)
          = Some (File true t) /\
        Py.float_of_string (Py.rstrip (readline t)) = Some v /\
        s = Sample Plain n (VFloat v).
Proof.
  apply (ksm_publishes_numeric_files kvm_and_ksm KSMCollector.default_config
           ["exits"; "notes"; "halts"] initial).
  - reflexivity.
  - reflexivity.
  - repeat constructor.
  - intros n [<- | [<- | [<- | []]]]; eexists; eexists; reflexivity.
Defined.

Lemma ksm_collect_item_name (w : world) (item : string) :
  emits (fun s => s_name s = Py.basename item)
        (KSMCollector.collect_item w item).
Proof.
  unfold KSMCollector.collect_item. emits_go. now apply emits_emit.
Qed.

Lemma ro_ksm_collect (w : world) (c : KSMCollector.config) :
  raises_only is_IOError (KSMCollector.collect w c).
Proof.
  pose proof (ro_open is_IOError).
  unfold KSMCollector.collect, KSMCollector.collect_item.
  apply ro_for_each. intros item.
  destruct (access w item); [| apply ro_ret].
  apply ro_bind; [auto |]. intros fh.
  apply ro_try_except; [| intros e; apply ro_ret].
  ro_go.
Qed.

(** X10.  With a path of the KSM directory that holds none of the
    characters [glob] reads as a pattern: the KSM collector never logs,
    and the one exception that leaves its cycle is the [IOError] of an
    entry that passes [os.access] and cannot be opened.  A subdirectory
    the process may read is such an entry: with one in the listing, under
    a name that does not start with a dot, the cycle raises [IOError], and
    what it has published comes from the entries listed before the
    subdirectory. *)
Theorem ksm_subdirectory_aborts (w : world) (c : KSMCollector.config)
    (st : state) :
  Py.has_magic (KSMCollector.ksm_path c) = false ->
  log (snd (KSMCollector.collect w c st)) = log st /\
  (forall e, fst (KSMCollector.collect w c st) = Raise e -> e = IOError) /\
  (forall pre post sub entries,
     fs w (KSMCollector.ksm_path c) = Some (Dir (pre ++ sub :: post)) ->
     visible sub = true ->
     fs w (Py.path_join (KSMCollector.ksm_path c) sub) = Some (Dir entries) ->
     exists new,
       fst (KSMCollector.collect w c st) = Raise IOError /\
       published (snd (KSMCollector.collect w c st)) = published st ++ new /\
       Forall (fun s =>
                 exists n, In n pre /\
                   s_name s =
                     Py.basename (Py.path_join (KSMCollector.ksm_path c) n))
              new).
Proof.
  intros Hliteral.
  assert (Hio : forall e,
            fst (KSMCollector.collect w c st) = Raise e -> e = IOError).
  { intros e H. pose proof (ro_ksm_collect w c st e H) as He.
    destruct e; cbn in He; try discriminate He; reflexivity. }
  split; [| split; [exact Hio |]].
  - revert st Hio. intros st _. revert st.
    change (keeps log (KSMCollector.collect w c)).
    unfold KSMCollector.collect, KSMCollector.collect_item. keeps_go.
  - intros pre post sub entries Hdir Hvis Hsub.
    assert (Hraise : exists e, fst (KSMCollector.collect w c st) = Raise e /\
              snd (KSMCollector.collect w c st) =
              snd (for_each (map (Py.path_join (KSMCollector.ksm_path c))
                                 (filter visible pre))
                            (KSMCollector.collect_item w) st)).
    { unfold KSMCollector.collect, glob_all. rewrite Hdir. fold visible.
      rewrite filter_app. cbn [filter]. rewrite Hvis, map_app. cbn [map].
      destruct (for_each_stops (KSMCollector.collect_item w)
                  (map (Py.path_join (KSMCollector.ksm_path c))
                       (filter visible pre))
                  (map (Py.path_join (KSMCollector.ksm_path c))
                       (filter visible post))
                  (Py.path_join (KSMCollector.ksm_path c) sub)) with (st := st)
        as [e He].
      - intros st0. exists IOError.
        unfold KSMCollector.collect_item, access, open. now rewrite Hsub.
      - exists e. now rewrite He. }
    destruct Hraise as [e [He Hst]].
    rewrite (Hio e He) in He.
    destruct (emits_for_each_in
                (fun s => exists n, In n pre /\
                   s_name s =
                     Py.basename (Py.path_join (KSMCollector.ksm_path c) n))
                (map (Py.path_join (KSMCollector.ksm_path c))
                     (filter visible pre))
                (KSMCollector.collect_item w)) with (st := st)
      as [new [Hnew Hall]].
    { intros item Hitem. apply in_map_iff in Hitem as [n [<- Hn]].
      apply filter_In in Hn as [Hn _].
      eapply emits_weaken; [| apply ksm_collect_item_name].
      intros s Hs. now exists n. }
    exists new. rewrite Hst. now repeat split.
Qed.

Lemma ksm_subdirectory_aborts_witness :
  exists new,
    fst (KSMCollector.collect ksm_with_subdirectory
           KSMCollector.default_config initial) = Raise IOError /\
    published (snd (KSMCollector.collect ksm_with_subdirectory
                      KSMCollector.default_config initial)) = [] ++ new /\
    Forall (fun s =>
              exists n, In n ["pages_shared"] /\
                s_name s =
                  Py.basename
                    (Py.path_join
                       (KSMCollector.ksm_path KSMCollector.default_config) n))
           new.
Proof.
  exact (proj2 (proj2 (ksm_subdirectory_aborts ksm_with_subdirectory
                         KSMCollector.default_config initial eq_refl))
           ["pages_shared"] ["pages_sharing"] "sub" [] eq_refl eq_refl
           eq_refl).
Defined.

(** ** The uptime collector *)

Lemma uptime_read_outcome (w : world) (c : UptimeCollector.config)
    (st : state) :
  (exists v, UptimeCollector.read w c st = (Ok (Some v), st)) \/
  (exists message,
     UptimeCollector.read w c st =
       (Ok None,
        State (published st) (log st ++ [Entry Error message])
              (last_values st) (sock_calls st))).
Proof.
  unfold UptimeCollector.read, try_except, open, UptimeCollector.convert,
    bind, lift, ret, raise.
  destruct (fs w UptimeCollector.PROC) as [[[|] content | es] |];
    try (right; eexists; reflexivity).
  cbv beta iota.
  destruct (nth_error (Py.split (readline content)) 0) as [tok |];
    [| right; eexists; reflexivity].
  cbv beta iota.
  destruct (Py.float_of_string (Py.strip tok)) as [v |];
    [| right; eexists; reflexivity].
  cbv beta iota. change (negb ("s" =? "s")%string) with false. cbv beta iota.
  destruct (String.eqb (UptimeCollector.metric_name c) "minutes");
    [left; eexists; reflexivity |].
  destruct (String.eqb (UptimeCollector.metric_name c) "seconds");
    [left; eexists; reflexivity | right; eexists; reflexivity].
Qed.

(** X11.  Whatever [/proc/uptime] is (missing, a directory, unreadable,
    empty, no number) and whatever unit is configured, a cycle of the
    uptime collector returns: it either publishes one plain sample under
    the configured name and logs nothing, or publishes nothing and logs
    one error.  No exception leaves [collect]. *)
Theorem uptime_publishes_or_logs (w : world) (c : UptimeCollector.config)
    (st : state) :
  exists r,
    (exists v,
       UptimeCollector.collect w c st =
         (Ok r,
          State (published st ++
                   [Sample Plain (UptimeCollector.metric_name c) (VFloat v)])
                (log st) (last_values st) (sock_calls st))) \/
    (exists message,
       UptimeCollector.collect w c st =
         (Ok r,
          State (published st) (log st ++ [Entry Error message])
                (last_values st) (sock_calls st))).
Proof.
  unfold UptimeCollector.collect.
  destruct (exists_ w UptimeCollector.PROC); cbn [negb].
  - exists RNone.
    destruct (uptime_read_outcome w c st) as [[v Hv] | [message Hm]].
    + left. exists v. now rewrite (bind_ok _ _ _ _ _ Hv).
    + right. exists message. now rewrite (bind_ok _ _ _ _ _ Hm).
  - exists REmptyDict. right. eexists. reflexivity.
Qed.

(** ** The host option of the memcached collector *)

Section HostPattern.
Variable R : Type.

(** A run of the class cannot start where the class does not. *)
Lemma plus_stuck (p : ascii -> bool) (s : string) (k : string -> option R) :
  match s with EmptyString => True | String c _ => p c = false end ->
  Re.plus R p s k = None.
Proof. destruct s as [| c s]; cbn [Re.plus]; [easy | now intros ->]. Qed.

(** The longest run is tried first: when what follows takes it, it is the
    match. *)
Lemma plus_longest (p : ascii -> bool) (s rest : string)
    (k : string -> option R) (r : R) :
  all_chars p s = true -> s <> EmptyString ->
  Re.plus R p rest k = None ->
  k rest = Some r ->
  Re.plus R p (s ++ rest) k = Some r.
Proof.
  intros Hall Hne Hstuck Hk. induction s as [| c s IH]; [easy |].
  cbn [all_chars] in Hall. apply andb_true_iff in Hall as [Hc Hs].
  cbn [append Re.plus]. rewrite Hc.
  destruct s as [| d s].
  - cbn [append]. now rewrite Hstuck.
  - now rewrite (IH Hs ltac:(discriminate)).
Qed.

(** What follows wants the character [c0] first: in a string without it no
    run is taken. *)
Lemma plus_refused (c0 : ascii) (p : ascii -> bool) (s : string)
    (k : string -> option R) :
  (forall s', match s' with
              | EmptyString => True
              | String d _ => Ascii.eqb c0 d = false
              end -> k s' = None) ->
  all_chars (Re.any_but c0) s = true ->
  Re.plus R p s k = None.
Proof.
  intros Hk. induction s as [| c s IH]; intros Hall; cbn [Re.plus];
    [reflexivity |].
  cbn [all_chars] in Hall. apply andb_true_iff in Hall as [_ Hs].
  destruct (p c); [| reflexivity].
  rewrite (IH Hs). apply Hk.
  destruct s as [| d s]; [exact I |].
  cbn [all_chars] in Hs. apply andb_true_iff in Hs as [Hd _].
  unfold Re.any_but in Hd. now destruct (Ascii.eqb c0 d).
Qed.

End HostPattern.

Lemma take_app (a b : string) : Re.take (String.length a) (a ++ b) = a.
Proof. induction a as [| c a IH]; cbn; [now destruct b | now rewrite IH]. Qed.

Lemma length_append (a b : string) :
  String.length (a ++ b) = (String.length a + String.length b)%nat.
Proof. induction a as [| c a IH]; cbn; [reflexivity | now rewrite IH]. Qed.

(** What is consumed in front of a suffix is the part in front of it. *)
Lemma consumed_app (a b : string) : Re.consumed (a ++ b) b = a.
Proof.
  unfold Re.consumed. rewrite length_append.
  replace (String.length a + String.length b - String.length b)%nat
    with (String.length a) by lia.
  apply take_app.
Qed.

Lemma consumed_all (a : string) : Re.consumed a EmptyString = a.
Proof.
  rewrite <- (append_empty_r a) at 1. apply consumed_app.
Qed.

Lemma all_chars_impl (p q : ascii -> bool) (s : string) :
  (forall c, p c = true -> q c = true) ->
  all_chars p s = true -> all_chars q s = true.
Proof.
  intros Hpq. induction s as [| c s IH]; cbn [all_chars]; [reflexivity |].
  intros H. apply andb_true_iff in H as [Hc Hs].
  now rewrite (Hpq c Hc), (IH Hs).
Qed.

Lemma all_chars_app (p : ascii -> bool) (a b : string) :
  all_chars p (a ++ b) = all_chars p a && all_chars p b.
Proof.
  induction a as [| c a IH]; cbn [append all_chars]; [reflexivity |].
  now rewrite IH, andb_assoc.
Qed.

Lemma digit_not_at (c : ascii) :
  Py.is_digit c = true -> Re.any_but "@" c = true.
Proof.
  destruct c as [[] [] [] [] [] [] [] []]; cbn; intros H;
    first [reflexivity | discriminate H].
Qed.

Lemma host_char_parts (c : ascii) :
  host_char c = true ->
  Re.any_but ":" c = true /\ Re.any_but "@" c = true.
Proof. unfold host_char. intros H. now apply andb_true_iff in H. Qed.

(** The second half of the pattern on [hostname[:port]]. *)
Lemma hostport_match (hostname : string) (port : option string)
    (caps : Re.captures) :
  hostname <> EmptyString ->
  all_chars host_char hostname = true ->
  (forall p, port = Some p ->
     p <> EmptyString /\ all_chars Py.is_digit p = true) ->
  Re.run Re.captures hostport_re (hostname ++ port_part port) caps
         (fun _ c => Some c) =
    Some (port_captures port ++ (3%nat, hostname) :: caps).
Proof.
  intros Hne Hhost Hport. unfold hostport_re. cbn [Re.run].
  apply plus_longest.
  - eapply all_chars_impl; [| exact Hhost].
    intros c Hc. now apply host_char_parts in Hc.
  - exact Hne.
  - apply plus_stuck. now destruct port.
  - destruct port as [p |]; cbn [port_part port_captures append app].
    + destruct (Hport p eq_refl) as [Hp Hdigits].
      rewrite Ascii.eqb_refl.
      match goal with
      | |- context [Re.plus _ _ p ?k] =>
          pose proof (plus_longest _ Py.is_digit p EmptyString k _
                        Hdigits Hp eq_refl eq_refl) as Hplus
      end.
      rewrite append_empty_r in Hplus. rewrite Hplus.
      rewrite !consumed_all.
      change (String ":" p) with (":" ++ p)%string.
      now rewrite consumed_app.
    + now rewrite consumed_app.
Qed.

(** X12.  The host pattern gives back what a host option is written from:
    for [[alias@]hostname[:port]], with an alias that is not empty and
    holds no line feed, a host name that is not empty and holds neither
    colon nor at sign, and a port of one digit or more, group 2 is the
    alias (or missing), group 3 the host name and group 5 the port (or
    missing). *)
Theorem host_spec_parsed (alias : option string) (hostname : string)
    (port : option string) :
  (forall a, alias = Some a ->
     a <> EmptyString /\ all_chars (Re.any_but Py.nl) a = true) ->
  hostname <> EmptyString ->
  all_chars host_char hostname = true ->
  (forall p, port = Some p ->
     p <> EmptyString /\ all_chars Py.is_digit p = true) ->
  exists m,
    Re.search MemcachedCollector.host_re (host_spec alias hostname port)
      = Some m /\
    Re.group 2 m = alias /\
    Re.group 3 m = Some hostname /\
    Re.group 5 m = port.
Proof.
  intros Halias Hne Hhost Hport.
  assert (Htail : all_chars (Re.any_but "@") (hostname ++ port_part port)
                  = true).
  { rewrite all_chars_app. apply andb_true_iff. split.
    - eapply all_chars_impl; [| exact Hhost].
      intros c Hc. now apply host_char_parts in Hc.
    - destruct port as [p |]; [| reflexivity].
      destruct (Hport p eq_refl) as [_ Hd]. cbn.
      apply (all_chars_impl _ _ _ digit_not_at Hd). }
  assert (Hhead : match (hostname ++ port_part port)%string with
                  | EmptyString => True
                  | String d _ => Ascii.eqb "@" d = false
                  end).
  { destruct hostname as [| c h]; [easy |]. cbn [append].
    cbn [all_chars] in Hhost. apply andb_true_iff in Hhost as [Hc _].
    apply host_char_parts in Hc as [_ Hat]. unfold Re.any_but in Hat.
    now destruct (Ascii.eqb "@" c). }
  set (captured :=
         port_captures port ++
         (3%nat, hostname) ::
         match alias with
         | Some a => [(1%nat, (a ++ "@")%string); (2%nat, a)]
         | None => []
         end).
  assert (Hmatch : Re.match_here MemcachedCollector.host_re
                     (host_spec alias hostname port) = Some captured).
  { unfold Re.match_here.
    change MemcachedCollector.host_re with (Re.Seq (Re.Opt alias_re) hostport_re).
    unfold host_spec. fold (port_part port).
    cbn [Re.run]. unfold alias_re at 1. cbn [Re.run].
    destruct alias as [a |].
    - destruct (Halias a eq_refl) as [Ha Hdot].
      rewrite append_assoc.
      erewrite plus_longest; [reflexivity | exact Hdot | exact Ha | |].
      + cbn [append Re.plus]. change (Re.any_but Py.nl "@") with true.
        cbv beta iota.
        rewrite (plus_refused _ "@"); [| | exact Htail].
        * destruct (hostname ++ port_part port)%string as [| d t];
            [reflexivity |]. now rewrite Hhead.
        * intros s' Hs'. destruct s' as [| d t]; [reflexivity |].
          now rewrite Hs'.
      + cbn [append]. rewrite Ascii.eqb_refl.
        rewrite (hostport_match hostname port _ Hne Hhost Hport).
        unfold captured.
        change (String "@" (hostname ++ port_part port))
          with ("@" ++ (hostname ++ port_part port))%string.
        rewrite <- (append_assoc a "@"), consumed_app.
        rewrite (append_assoc a "@"), consumed_app.
        reflexivity.
    - cbn [append].
      rewrite (plus_refused _ "@"); [| | exact Htail].
      + exact (hostport_match hostname port [] Hne Hhost Hport).
      + intros s' Hs'. destruct s' as [| d t]; [reflexivity |].
        now rewrite Hs'. }
  exists captured. split; [| split; [| split]].
  - destruct (host_spec alias hostname port); cbn [Re.search];
      now rewrite Hmatch.
  - unfold captured. destruct port, alias; reflexivity.
  - unfold captured. destruct port; reflexivity.
  - unfold captured. destruct port, alias; reflexivity.
Qed.

Lemma host_spec_parsed_witness :
  exists m,
    Re.search MemcachedCollector.host_re
      (host_spec (Some "app-1") "localhost" (Some "11212")) = Some m /\
    Re.group 2 m = Some "app-1" /\
    Re.group 3 m = Some "localhost" /\
    Re.group 5 m = Some "11212".
Proof.
  apply (host_spec_parsed (Some "app-1") "localhost" (Some "11212")).
  - intros a H. injection H as <-. split; [discriminate | reflexivity].
  - discriminate.
  - reflexivity.
  - intros p H. injection H as <-. split; [discriminate | reflexivity].
Defined.

(** ** The socket of the memcached collector *)

Lemma forallb_repeat_recv (n : nat) :
  forallb on_open_socket (repeat (SockRecv 4096) n) = true.
Proof. induction n as [| n IH]; [reflexivity | exact IH]. Qed.

(** After [socket.socket]: what [get_raw_stats] does with the socket [f]
    and the address [number]. *)
Ltac socket_outcome host f number :=
  destruct (connect_ok (peer_at _ host number)); cbn [negb];
  [ destruct (send_ok (peer_at _ host number)); cbn [negb];
    [ unfold bind at 1 2 3; cbn [sock];
      match goal with
      | |- context [MemcachedCollector.recv_loop ?evs ?d ?s] =>
          let data := fresh "data" in
          let raised := fresh "raised" in
          let k := fresh "k" in
          let Hk := fresh "Hk" in
          destruct (recv_loop_calls evs d s) as [[data raised] [k Hk]];
          rewrite Hk; exists data;
          destruct raised;
          [ eexists [_] | exists [] ];
          exists f;
          exists ([SockConnect host number; SockSetTimeout 3;
                   SockSend MemcachedCollector.REQUEST] ++
                  repeat (SockRecv 4096) (S k));
          (split; [cbn; rewrite ?app_nil_r, <- !app_assoc; reflexivity |]);
          (split; [cbn; lia |]);
          cbn [app forallb on_open_socket andb];
          apply (forallb_repeat_recv (S k))
      end
    | exists EmptyString; eexists [_]; exists f;
      exists [SockConnect host number; SockSetTimeout 3;
              SockSend MemcachedCollector.REQUEST];
      split; [cbn; rewrite <- !app_assoc; reflexivity |];
      split; [cbn; lia | reflexivity] ]
  | exists EmptyString; eexists [_]; exists f;
    exists [SockConnect host number];
    split; [cbn; rewrite <- !app_assoc; reflexivity |];
    split; [cbn; lia | reflexivity] ].

(** X13.  [get_raw_stats] with no port, or a port that is a number from
    0 to 65535: whatever the peer does (refuses, breaks off, times out,
    answers), the call returns, with at most one entry added to the log,
    and the socket it created is closed, as the last of its calls.  With a
    port that is no number it raises [ValueError] and the socket it
    created is not closed.  (A number outside 0 to 65535 is no port:
    [connect] refuses it with an error that is no [socket.error]; that
    case is left out.) *)
Theorem get_raw_stats_closes (w : world) (host : string)
    (port : option string) (st : state) :
  ((forall p, port = Some p ->
      exists n, Py.int_of_string p = Some n /\ (0 <= n <= 65535)%Z) ->
   exists data lg f calls,
     MemcachedCollector.get_raw_stats w host port st =
       (Ok data,
        State (published st) (log st ++ lg) (last_values st)
              (sock_calls st ++ SockCreate f :: calls ++ [SockClose])) /\
     (List.length lg <= 1)%nat /\
     forallb on_open_socket calls = true) /\
  (forall p, port = Some p -> Py.int_of_string p = None ->
   MemcachedCollector.get_raw_stats w host port st =
     (Raise ValueError,
      State (published st) (log st) (last_values st)
            (sock_calls st ++ [SockCreate AF_INET]))).
Proof.
  unfold MemcachedCollector.get_raw_stats, MemcachedCollector.failed,
    log_exception.
  split.
  - intros Hport. destruct port as [p |].
    + destruct (Hport p eq_refl) as [n [E _]]. rewrite E.
      unfold bind at 1 2 3. cbn [sock]. unfold lift, ret at 1 2.
      unfold bind at 1. cbn [sock].
      socket_outcome host AF_INET (Some n).
    + unfold bind at 1 2. cbn [sock]. unfold ret at 1.
      unfold bind at 1. cbn [sock].
      socket_outcome host AF_UNIX (@None Z).
  - intros p -> E. unfold bind at 1 2 3. cbn [sock]. now rewrite E.
Qed.

Lemma get_raw_stats_closes_witness :
  (exists data lg f calls,
     MemcachedCollector.get_raw_stats (memcached [] stats_response)
       "localhost" (Some "11211") initial =
       (Ok data,
        State [] ([] ++ lg) []
              ([] ++ SockCreate f :: calls ++ [SockClose])) /\
     (List.length lg <= 1)%nat /\
     forallb on_open_socket calls = true) /\
  MemcachedCollector.get_raw_stats (memcached [] stats_response)
    "localhost" (Some "x") initial =
    (Raise ValueError, State [] [] [] ([] ++ [SockCreate AF_INET])).
Proof.
  split.
  - apply (proj1 (get_raw_stats_closes (memcached [] stats_response)
                    "localhost" (Some "11211") initial)).
    intros p H. injection H as <-. exists 11211%Z. split; [reflexivity | lia].
  - exact (proj2 (get_raw_stats_closes (memcached [] stats_response)
                    "localhost" (Some "x") initial) "x" eq_refl eq_refl).
Defined.

(** ** A memcached that cannot be reached *)

Lemma get_stats_refused (w : world) (hostname : string)
    (port : option string) (st : state) :
  (forall p, port = Some p -> Py.int_of_string p <> None) ->
  (forall number, connect_ok (peer_at w hostname number) = false) ->
  fs w "/proc/None/cmdline" = None ->
  exists lg calls,
    MemcachedCollector.get_stats w hostname port st =
      (Ok [], State (published st) (log st ++ lg) (last_values st)
                    (sock_calls st ++ calls)).
Proof.
  intros Hport Hrefuse Hfs.
  assert (Hraw : exists lg calls,
    MemcachedCollector.get_raw_stats w hostname port st =
      (Ok EmptyString,
       State (published st) (log st ++ lg) (last_values st)
             (sock_calls st ++ calls))).
  { unfold MemcachedCollector.get_raw_stats.
    destruct port as [p |].
    - destruct (Py.int_of_string p) as [n |] eqn:E;
        [| now destruct (Hport p eq_refl)].
      unfold bind at 1 2 3. cbn [sock]. unfold lift, ret at 1 2.
      unfold bind at 1. cbn [sock]. rewrite Hrefuse. cbn [negb].
      eexists [_]. eexists [_; _; _]. cbn. now rewrite <- !app_assoc.
    - unfold bind at 1 2. cbn [sock]. unfold ret at 1.
      unfold bind at 1. cbn [sock]. rewrite Hrefuse. cbn [negb].
      eexists [_]. eexists [_; _; _]. cbn. now rewrite <- !app_assoc. }
  destruct Hraw as [lg [calls Hraw]].
  unfold MemcachedCollector.get_stats.
  rewrite (bind_ok _ _ _ _ _ Hraw).
  cbn [Py.splitlines fold_each]. rewrite bind_ret. cbv beta iota.
  unfold try_except, bind, log_debug, log_at, open.
  change ("/proc/" ++ MemcachedCollector.show_pid None ++ "/cmdline")%string
    with "/proc/None/cmdline".
  rewrite Hfs. cbn.
  exists (lg ++ [Entry Debug "pid None";
                 Entry Debug "Cannot parse command line options for memcached"]).
  exists calls. now rewrite <- !app_assoc.
Qed.

(** X14.  A host of the list where nothing listens, with no [publish]
    option: the refused connection is logged, nothing is published for
    that host, and the cycle goes on with the hosts that follow as if the
    list had started with them. *)
Theorem memcached_refused_host (w : world) (c : MemcachedCollector.config)
    (spec hostname : string) (m : Re.captures) (others : list string)
    (st : state) :
  MemcachedCollector.hosts c = CList (spec :: others) ->
  MemcachedCollector.publish_names c = None ->
  Re.search MemcachedCollector.host_re spec = Some m ->
  Re.group 3 m = Some hostname ->
  (forall p, Re.group 5 m = Some p -> Py.int_of_string p <> None) ->
  (forall number, connect_ok (peer_at w hostname number) = false) ->
  fs w "/proc/None/cmdline" = None ->
  exists lg calls,
    MemcachedCollector.collect w c st =
    MemcachedCollector.collect w
      (MemcachedCollector.Config (CList others) None)
      (State (published st) (log st ++ lg) (last_values st)
             (sock_calls st ++ calls)).
Proof.
  intros Hhosts Hpub Hm H3 H5 Hrefuse Hfs.
  destruct (get_stats_refused w hostname (Re.group 5 m) st H5 Hrefuse Hfs)
    as [lg [calls Hstats]].
  exists lg, calls.
  assert (Hhost : MemcachedCollector.collect_host w c spec st =
            (Ok tt, State (published st) (log st ++ lg) (last_values st)
                          (sock_calls st ++ calls))).
  { unfold MemcachedCollector.collect_host.
    rewrite Hm. unfold lift at 1. rewrite bind_ret.
    rewrite H3. unfold lift at 1. rewrite bind_ret.
    rewrite (bind_ok _ _ _ _ _ Hstats).
    now rewrite Hpub, bind_ret. }
  unfold MemcachedCollector.collect. rewrite Hhosts.
  cbn [MemcachedCollector.hosts cfg_iter]. rewrite !bind_ret.
  cbn [for_each]. rewrite (bind_ok _ _ _ _ _ Hhost).
  unfold MemcachedCollector.collect_host. now rewrite Hpub.
Qed.

Lemma memcached_refused_host_witness :
  exists lg calls,
    MemcachedCollector.collect refusing
      (MemcachedCollector.Config (CList ["localhost:11211"; "other:11212"])
         None) initial =
    MemcachedCollector.collect refusing
      (MemcachedCollector.Config (CList ["other:11212"]) None)
      (State [] ([] ++ lg) [] ([] ++ calls)).
Proof.
  apply (memcached_refused_host refusing
           (MemcachedCollector.Config
              (CList ["localhost:11211"; "other:11212"]) None)
           "localhost:11211" "localhost"
           [(4, ":11211"); (5, "11211"); (3, "localhost")]%nat
           ["other:11212"] initial).
  - reflexivity.
  - reflexivity.
  - reflexivity.
  - reflexivity.
  - intros p H. injection H as <-. discriminate.
  - reflexivity.
  - reflexivity.
Defined.

(** ** An answer that comes in pieces *)

Lemma recv_loop_glue (chunks : list string) :
  forall data rest st,
    chunks <> [] ->
    Forall (fun c => Py.is_empty c = false) chunks ->
    Py.endswith MemcachedCollector.END (data ++ glue chunks) = true ->
    (forall k, (0 < k < List.length chunks)%nat ->
       Py.endswith MemcachedCollector.END (data ++ glue (firstn k chunks))
         = false) ->
    MemcachedCollector.recv_loop (map Some chunks ++ rest) data st =
      (Ok ((data ++ glue chunks)%string, false),
       State (published st) (log st) (last_values st)
             (sock_calls st ++
              repeat (SockRecv 4096) (List.length chunks))).
Proof.
  induction chunks as [| c cs IH]; intros data rest st Hne Hfull Hend Hnot;
    [easy |].
  inversion Hfull as [| ? ? Hc Hcs]; subst.
  cbn [map app MemcachedCollector.recv_loop]. unfold bind at 1. cbn [sock].
  rewrite Hc.
  destruct cs as [| c' cs].
  - cbn [glue fold_right] in *. rewrite append_empty_r in *.
    now rewrite Hend.
  - assert (H1 : Py.endswith MemcachedCollector.END (data ++ c) = false).
    { specialize (Hnot 1%nat). cbn [firstn glue fold_right List.length] in Hnot.
      rewrite append_empty_r in Hnot. apply Hnot. lia. }
    rewrite H1.
    change (Some c' :: map Some cs ++ rest)
      with (map Some (c' :: cs) ++ rest).
    rewrite IH.
    + cbn [glue fold_right published log last_values sock_calls].
      rewrite append_assoc, <- app_assoc. reflexivity.
    + discriminate.
    + exact Hcs.
    + cbn [glue fold_right] in *. now rewrite append_assoc.
    + intros k Hk. specialize (Hnot (S k)).
      cbn [firstn glue fold_right List.length] in *.
      rewrite append_assoc. apply Hnot. lia.
Qed.

(** X15.  A memcached that accepts the connection and the request, and
    whose answer arrives in non-empty pieces of which the last is the first
    to complete a text ending in [END\r\n]: [get_raw_stats] returns the
    pieces put end to end, logs nothing, and makes exactly one [recv] per
    piece before closing, so that nothing sent after the terminator is
    read. *)
Theorem stats_reassembled (w : world) (host : string)
    (port : option string) (chunks : list string)
    (rest : list (option string)) (st : state) :
  (forall p, port = Some p -> Py.int_of_string p <> None) ->
  (forall number,
     peer_at w host number = Peer true true (map Some chunks ++ rest)) ->
  chunks <> [] ->
  Forall (fun c => Py.is_empty c = false) chunks ->
  Py.endswith MemcachedCollector.END (glue chunks) = true ->
  (forall k, (0 < k < List.length chunks)%nat ->
     Py.endswith MemcachedCollector.END (glue (firstn k chunks)) = false) ->
  exists f number,
    MemcachedCollector.get_raw_stats w host port st =
      (Ok (glue chunks),
       State (published st) (log st) (last_values st)
             (sock_calls st ++
              [SockCreate f; SockConnect host number; SockSetTimeout 3;
               SockSend MemcachedCollector.REQUEST] ++
              repeat (SockRecv 4096) (List.length chunks) ++
              [SockClose])).
Proof.
  intros Hport Hpeer Hne Hfull Hend Hnot.
  unfold MemcachedCollector.get_raw_stats.
  destruct port as [p |].
  - destruct (Py.int_of_string p) as [n |] eqn:E;
      [| now destruct (Hport p eq_refl)].
    exists AF_INET, (Some n).
    unfold bind at 1 2 3. cbn [sock]. unfold lift, ret at 1 2.
    unfold bind at 1. cbn [sock]. rewrite Hpeer.
    cbn [connect_ok send_ok recvs negb].
    unfold bind at 1. cbn [sock]. unfold bind at 1. cbn [sock].
    unfold bind at 1.
    rewrite (recv_loop_glue chunks EmptyString rest _ Hne Hfull Hend Hnot).
    cbn. now rewrite <- !app_assoc.
  - exists AF_UNIX, None.
    unfold bind at 1 2. cbn [sock]. unfold ret at 1.
    unfold bind at 1. cbn [sock]. rewrite Hpeer.
    cbn [connect_ok send_ok recvs negb].
    unfold bind at 1. cbn [sock]. unfold bind at 1. cbn [sock].
    unfold bind at 1.
    rewrite (recv_loop_glue chunks EmptyString rest _ Hne Hfull Hend Hnot).
    cbn. now rewrite <- !app_assoc.
Qed.

Lemma stats_reassembled_witness :
  exists f number,
    MemcachedCollector.get_raw_stats
      (answering ["STAT uptime 1"; (crlf ++ "EN")%string; ("D" ++ crlf)%string; "late"])
      "localhost" (Some "11211") initial =
      (Ok (glue ["STAT uptime 1"; (crlf ++ "EN")%string; ("D" ++ crlf)%string]),
       State [] [] []
             ([] ++
              [SockCreate f; SockConnect "localhost" number;
               SockSetTimeout 3; SockSend MemcachedCollector.REQUEST] ++
              repeat (SockRecv 4096) 3 ++ [SockClose])).
Proof.
  apply (stats_reassembled
           (answering ["STAT uptime 1"; (crlf ++ "EN")%string; ("D" ++ crlf)%string; "late"])
           "localhost" (Some "11211")
           ["STAT uptime 1"; (crlf ++ "EN")%string; ("D" ++ crlf)%string] [Some "late"]
           initial).
  - intros p H. injection H as <-. discriminate.
  - reflexivity.
  - discriminate.
  - repeat constructor.
  - reflexivity.
  - intros k Hk. cbn [List.length] in Hk.
    assert (Hcases : k = 1%nat \/ k = 2%nat) by lia.
    destruct Hcases as [-> | ->]; reflexivity.
Defined.

(** ** The table of stats and what is published from it *)

Lemma keys_dict_set {A} (k : string) (v : A) (d : list (string * A)) :
  forall k', In k' (keys (dict_set k v d)) -> k' = k \/ In k' (keys d).
Proof.
  induction d as [| [k0 v0] d IH]; intros k'; cbn [dict_set].
  - cbn. intuition.
  - destruct (String.eqb_spec k k0) as [-> | Hne]; cbn; [intuition |].
    intros [H | H]; [intuition |].
    destruct (IH _ H); intuition.
Qed.

Lemma In_dict_set {A} (k : string) (v : A) (d : list (string * A)) :
  forall p, In p (dict_set k v d) -> p = (k, v) \/ In p d.
Proof.
  induction d as [| [k0 v0] d IH]; intros p; cbn [dict_set].
  - cbn. intuition.
  - destruct (String.eqb_spec k k0) as [-> | Hne]; cbn; [intuition |].
    intros [H | H]; [intuition |].
    destruct (IH _ H); intuition.
Qed.

Lemma NoDup_dict_set {A} (k : string) (v : A) (d : list (string * A)) :
  NoDup (keys d) -> NoDup (keys (dict_set k v d)).
Proof.
  induction d as [| [k0 v0] d IH]; intros Hnd; cbn [dict_set].
  - cbn. constructor; [easy | constructor].
  - cbn in Hnd. inversion Hnd as [| ? ? Hnotin Hrest]; subst.
    destruct (String.eqb_spec k k0) as [-> | Hne]; cbn.
    + now constructor.
    + constructor; [| now apply IH].
      intros Hin. destruct (keys_dict_set _ _ _ _ Hin) as [-> | Hin'];
        [now apply Hne | now apply Hnotin].
Qed.

Ltac split_innermost H :=
  match type of H with
  | context [match ?x with _ => _ end] =>
      lazymatch x with
      | context [match _ with _ => _ end] => fail
      | _ => destruct x eqn:?; cbv beta iota in H; try discriminate H
      end
  end.

Lemma parse_line_table acc line st acc' st' :
  MemcachedCollector.parse_line acc line st = (Ok acc', st') ->
  stats_table (snd acc) -> stats_table (snd acc') /\ st' = st.
Proof.
  destruct acc as [pid stats]. unfold MemcachedCollector.parse_line.
  unfold bind, lift, ret, raise. cbn [snd].
  intros H [Hnd [Hign Hnum]].
  repeat split_innermost H;
    inversion H; subst; cbn [snd]; (split; [| reflexivity]);
    try (now repeat split);
    (split; [now apply NoDup_dict_set |]);
    (split;
     [ intros k Hk; destruct (keys_dict_set _ _ _ _ Hk) as [-> | Hk'];
       [ assumption | now apply Hign ]
     | intros k v Hk; destruct (In_dict_set _ _ _ _ Hk) as [E | Hk'];
       [ inversion E; subst; exact I | now apply (Hnum k) ] ]).
Qed.

Lemma fold_table lines :
  forall acc st acc' st',
    fold_each lines acc MemcachedCollector.parse_line st = (Ok acc', st') ->
    stats_table (snd acc) -> stats_table (snd acc') /\ st' = st.
Proof.
  induction lines as [| line rest IH]; intros acc st acc' st' H Hinv.
  - inversion H; subst. now split.
  - cbn [fold_each] in H. unfold bind in H.
    destruct (MemcachedCollector.parse_line acc line st) as [[acc1 | e] st1]
      eqn:E; [| discriminate].
    destruct (parse_line_table _ _ _ _ _ E Hinv) as [Hinv1 ->].
    exact (IH _ _ _ _ H Hinv1).
Qed.

Lemma get_stats_returns_table (w : world) (host : string) (port : option string)
    (st st1 : state) (stats : list (string * value)) :
  MemcachedCollector.get_stats w host port st = (Ok stats, st1) ->
  NoDup (keys stats) /\
  (forall k, In k (keys stats) -> mem k MemcachedCollector.ignored = false) /\
  (forall k v, In (k, v) stats ->
     numeric v \/ (k = "limit_maxconn" /\ exists s, v = VStr s)).
Proof.
  unfold MemcachedCollector.get_stats. intros H.
  unfold bind at 1 in H.
  destruct (MemcachedCollector.get_raw_stats w host port st)
    as [[data | e] st0]; [| discriminate].
  unfold bind at 1 in H.
  destruct (fold_each (Py.splitlines data) (None, [])
              MemcachedCollector.parse_line st0)
    as [[[pid table] | e] st2] eqn:Efold; [| discriminate].
  destruct (fold_table _ _ _ _ _ Efold) as [[Hnd [Hign Hnum]] _].
  { repeat split; [constructor | easy | easy]. }
  cbn [snd] in *.
  assert (Hkept : stats = table \/
                  exists limit, stats = dict_set "limit_maxconn" (VStr limit)
                                          table).
  { unfold bind, try_except, log_debug, log_at, open, lift, ret, raise in H.
    repeat split_innermost H; inversion H; subst; eauto. }
  destruct Hkept as [-> | [limit ->]].
  - repeat split; [assumption | assumption |].
    intros k v Hk. left. now apply (Hnum k).
  - repeat split.
    + now apply NoDup_dict_set.
    + intros k Hk. destruct (keys_dict_set _ _ _ _ Hk) as [-> | Hk'];
        [reflexivity | now apply Hign].
    + intros k v Hk. destruct (In_dict_set _ _ _ _ Hk) as [E | Hk'].
      * inversion E; subst. right. split; [reflexivity | now exists limit].
      * left. now apply (Hnum k).
Qed.

(** X16.  The table [get_stats] returns has each name once, has none of
    the ignored names (so never [pid]), and holds numbers, but for
    [limit_maxconn], which is the text found on the command line. *)
Theorem get_stats_table (w : world) (host : string) (port : option string)
    (st st1 : state) (stats : list (string * value)) :
  MemcachedCollector.get_stats w host port st = (Ok stats, st1) ->
  NoDup (keys stats) /\
  (forall k, In k (keys stats) -> mem k MemcachedCollector.ignored = false) /\
  (forall k v, In (k, v) stats ->
     numeric v \/ (k = "limit_maxconn" /\ exists s, v = VStr s)).
Proof. exact (get_stats_returns_table w host port st st1 stats). Qed.

Lemma get_stats_table_witness :
  NoDup (keys [("curr_items", VInt 5)]) /\
  (forall k, In k (keys [("curr_items", VInt 5)]) ->
     mem k MemcachedCollector.ignored = false) /\
  (forall k v, In (k, v) [("curr_items", VInt 5)] ->
     numeric v \/ (k = "limit_maxconn" /\ exists s, v = VStr s)).
Proof.
  apply (get_stats_table memcached_with_pid "localhost" (Some "11211")
           initial
           (State [] [Entry Debug "pid None";
                      Entry Debug
                        "Cannot parse command line options for memcached"]
                  []
                  [SockCreate AF_INET;
                   SockConnect "localhost" (Some 11211%Z);
                   SockSetTimeout 3; SockSend MemcachedCollector.REQUEST;
                   SockRecv 4096; SockClose])).
  reflexivity.
Defined.

Lemma publish_loop (alias : string) (stats : list (string * value))
    (names : list string) :
  forall st,
    for_each names (MemcachedCollector.publish_stat alias stats) st =
      (Ok tt, State (published st ++ wanted alias stats names)
                    (log st ++ missing stats names)
                    (last_values st) (sock_calls st)).
Proof.
  induction names as [| stat rest IH]; intros st.
  - cbn. rewrite !app_nil_r. now destruct st.
  - cbn [for_each]. unfold bind at 1.
    unfold MemcachedCollector.publish_stat at 1.
    unfold wanted, missing. cbn [flat_map filter].
    destruct (lookup stat stats) as [v |].
    + unfold publish_gauge, publish_counter, memcached_sample.
      destruct (mem stat MemcachedCollector.GAUGES); cbn [emit];
        rewrite IH; cbn [published log last_values sock_calls app];
        now rewrite <- app_assoc.
    + unfold log_error, log_at. rewrite IH.
      cbn [published log last_values sock_calls app map].
      now rewrite <- app_assoc.
Qed.

Lemma wanted_own_keys (alias : string) (stats : list (string * value)) :
  NoDup (keys stats) ->
  forall part, incl part stats ->
    wanted alias stats (keys part) =
      map (fun kv => memcached_sample alias (fst kv) (snd kv)) part /\
    missing stats (keys part) = [].
Proof.
  intros Hnd. induction part as [| [k v] part IH]; intros Hincl; [easy |].
  destruct (IH (fun p Hp => Hincl p (or_intror Hp))) as [IHw IHm].
  unfold wanted, missing in *. cbn [keys map flat_map filter fst snd].
  rewrite (lookup_NoDup stats k v Hnd (Hincl _ (or_introl eq_refl))).
  cbn [app]. split; [now f_equal | exact IHm].
Qed.

Lemma collect_one_host (w : world) (c : MemcachedCollector.config)
    (spec : string) (st : state) :
  MemcachedCollector.hosts c = CStr spec \/
  MemcachedCollector.hosts c = CList [spec] ->
  MemcachedCollector.collect w c st =
    MemcachedCollector.collect_host w c spec st.
Proof.
  unfold MemcachedCollector.collect.
  intros [-> | ->]; cbn [cfg_iter]; rewrite bind_ret; cbn [for_each];
    unfold bind;
    now destruct (MemcachedCollector.collect_host w c spec st) as [[[] | e] s].
Qed.

(** X17.  One host, no [publish] option, and [get_stats] returning the
    table [stats]: the cycle returns, publishes one sample for each entry
    of the table and nothing else, under [alias.name] with the entry's
    value, as a gauge for the names of [GAUGES] and as a counter for the
    others, and logs no complaint.  The order in which they are published
    is that of the keys of a dictionary, and is left open. *)
Theorem memcached_publishes_table (w : world)
    (c : MemcachedCollector.config) (spec hostname : string)
    (m : Re.captures) (stats : list (string * value)) (st st1 : state) :
  MemcachedCollector.hosts c = CStr spec \/
  MemcachedCollector.hosts c = CList [spec] ->
  MemcachedCollector.publish_names c = None ->
  Re.search MemcachedCollector.host_re spec = Some m ->
  Re.group 3 m = Some hostname ->
  MemcachedCollector.get_stats w hostname (Re.group 5 m) st =
    (Ok stats, st1) ->
  exists new,
    MemcachedCollector.collect w c st =
      (Ok tt,
       State (published st1 ++ new) (log st1) (last_values st1)
             (sock_calls st1)) /\
    Permutation new
      (map (fun kv => memcached_sample (alias_of m hostname)
                        (fst kv) (snd kv)) stats).
Proof.
  intros Hhosts Hpub Hm H3 Hstats.
  eexists. split; [| apply Permutation_refl].
  rewrite (collect_one_host w c spec st Hhosts).
  unfold MemcachedCollector.collect_host.
  rewrite Hm. unfold lift at 1. rewrite bind_ret.
  rewrite H3. unfold lift at 1. rewrite bind_ret.
  rewrite (bind_ok _ _ _ _ _ Hstats), Hpub, bind_ret.
  fold (alias_of m hostname). rewrite publish_loop.
  destruct (get_stats_returns_table _ _ _ _ _ _ Hstats) as [Hnd _].
  destruct (wanted_own_keys (alias_of m hostname) stats Hnd stats
              (fun p Hp => Hp)) as [-> ->].
  now rewrite app_nil_r.
Qed.

Lemma memcached_publishes_table_witness :
  exists new,
    MemcachedCollector.collect (memcached [] stats_response)
      (MemcachedCollector.Config (CStr "cache@localhost:11211") None)
      initial =
      (Ok tt,
       State (published stats_fetched ++ new) (log stats_fetched)
             (last_values stats_fetched) (sock_calls stats_fetched)) /\
    Permutation new
      (map (fun kv => memcached_sample
                        (alias_of cache_captures "localhost")
                        (fst kv) (snd kv)) example_stats).
Proof.
  apply (memcached_publishes_table (memcached [] stats_response)
           (MemcachedCollector.Config (CStr "cache@localhost:11211") None)
           "cache@localhost:11211" "localhost" cache_captures example_stats
           initial stats_fetched).
  - left. reflexivity.
  - reflexivity.
  - reflexivity.
  - reflexivity.
  - reflexivity.
Defined.

(** X18.  One host, the [publish] option set to [v], and [get_stats]
    returning the table [stats]: the cycle goes through what a loop over
    [v] gives (the entries of a list, the characters of a string),
    publishes a sample for each one the table has and logs one error for
    each one it does not have, and returns; names of the table that [v]
    does not give are not published.  With the option set to no value the
    loop raises [TypeError] after the stats were fetched. *)
Theorem memcached_publish_option (w : world)
    (c : MemcachedCollector.config) (spec hostname : string)
    (m : Re.captures) (v : cfgval) (stats : list (string * value))
    (st st1 : state) :
  MemcachedCollector.hosts c = CStr spec \/
  MemcachedCollector.hosts c = CList [spec] ->
  MemcachedCollector.publish_names c = Some v ->
  Re.search MemcachedCollector.host_re spec = Some m ->
  Re.group 3 m = Some hostname ->
  MemcachedCollector.get_stats w hostname (Re.group 5 m) st =
    (Ok stats, st1) ->
  MemcachedCollector.collect w c st =
    match v with
    | CNone => (Raise TypeError, st1)
    | _ =>
        (Ok tt,
         State (published st1 ++
                wanted (alias_of m hostname) stats (iterated v))
               (log st1 ++ missing stats (iterated v))
               (last_values st1) (sock_calls st1))
    end.
Proof.
  intros Hhosts Hpub Hm H3 Hstats.
  rewrite (collect_one_host w c spec st Hhosts).
  unfold MemcachedCollector.collect_host.
  rewrite Hm. unfold lift at 1. rewrite bind_ret.
  rewrite H3. unfold lift at 1. rewrite bind_ret.
  rewrite (bind_ok _ _ _ _ _ Hstats), Hpub.
  fold (alias_of m hostname).
  destruct v as [| s | l]; cbn [cfg_iter iterated].
  - reflexivity.
  - rewrite bind_ret. apply publish_loop.
  - rewrite bind_ret. apply publish_loop.
Qed.

Lemma memcached_publish_option_witness :
  MemcachedCollector.collect (memcached [] stats_response)
    (MemcachedCollector.Config (CStr "cache@localhost:11211")
       (Some (CList ["uptime"; "hits"]))) initial =
    (Ok tt,
     State (published stats_fetched ++
            wanted (alias_of cache_captures "localhost") example_stats
                   (iterated (CList ["uptime"; "hits"])))
           (log stats_fetched ++
            missing example_stats (iterated (CList ["uptime"; "hits"])))
           (last_values stats_fetched) (sock_calls stats_fetched)).
Proof.
  apply (memcached_publish_option (memcached [] stats_response)
           (MemcachedCollector.Config (CStr "cache@localhost:11211")
              (Some (CList ["uptime"; "hits"])))
           "cache@localhost:11211" "localhost" cache_captures
           (CList ["uptime"; "hits"]) example_stats initial stats_fetched).
  - left. reflexivity.
  - reflexivity.
  - reflexivity.
  - reflexivity.
  - reflexivity.
Defined.

(** X19.  [get_stats] takes no process id from the response, so of the
    files it looks at [/proc/None/cmdline] alone: two worlds with the same
    memcached at [host] and the same file, if any, under that path give
    the same stats and the same state, whatever else their file systems
    hold. *)
Theorem get_stats_reads_one_path (w w' : world) (host : string)
    (port : option string) (st : state) :
  (forall number, peer_at w host number = peer_at w' host number) ->
  fs w "/proc/None/cmdline" = fs w' "/proc/None/cmdline" ->
  MemcachedCollector.get_stats w host port st =
  MemcachedCollector.get_stats w' host port st.
Proof.
  intros Hpeer Hfs.
  assert (Hraw : MemcachedCollector.get_raw_stats w host port st =
                 MemcachedCollector.get_raw_stats w' host port st).
  { unfold MemcachedCollector.get_raw_stats, bind, lift, ret, sock.
    destruct port as [p |]; [destruct (Py.int_of_string p) as [n |] |];
      cbv beta iota; try rewrite Hpeer; reflexivity. }
  unfold MemcachedCollector.get_stats.
  destruct (MemcachedCollector.get_raw_stats w' host port st)
    as [[data | e] st0] eqn:E.
  - rewrite (bind_ok _ _ _ _ _ E), (bind_ok _ _ _ _ _ Hraw).
    destruct (fold_each (Py.splitlines data) (None, [])
                MemcachedCollector.parse_line st0)
      as [[[pid table] | e] st2] eqn:Efold.
    + rewrite !(bind_ok _ _ _ _ _ Efold).
      rewrite (pid_never_captured _ _ _ _ _ _ Efold).
      unfold bind, try_except, open.
      cbn [log_debug log_at MemcachedCollector.show_pid].
      change ("/proc/" ++ "None" ++ "/cmdline")%string
        with "/proc/None/cmdline".
      now rewrite Hfs.
    + now rewrite !(bind_raise _ _ _ _ _ Efold).
  - now rewrite (bind_raise _ _ _ _ _ E), (bind_raise _ _ _ _ _ Hraw).
Qed.

Lemma get_stats_reads_one_path_witness :
  MemcachedCollector.get_stats memcached_with_pid "localhost"
    (Some "11211") initial =
  MemcachedCollector.get_stats (memcached [] pid_response) "localhost"
    (Some "11211") initial.
Proof.
  apply (get_stats_reads_one_path memcached_with_pid
           (memcached [] pid_response) "localhost" (Some "11211") initial).
  - reflexivity.
  - reflexivity.
Defined.

(** ** The Mesos cgroup collector *)

Lemma keys_dict_set_kept {A} (k x : string) (v : A) (d : list (string * A)) :
  In k (keys d) -> In k (keys (dict_set x v d)).
Proof.
  induction d as [| [k0 v0] d IH]; [easy |].
  cbn [dict_set]. destruct (String.eqb_spec x k0) as [-> | Hne]; cbn.
  - intuition.
  - intros [H | H]; [now left | right; now apply IH].
Qed.

Lemma containers_table_set (key : string) (info : json)
    (containers : list (string * json)) :
  is_task_info info -> containers_table containers ->
  containers_table (dict_set key info containers).
Proof.
  intros Hinfo [Hnd [Hflags Hvals]]. repeat split.
  - now apply NoDup_dict_set.
  - now apply keys_dict_set_kept.
  - intros k v Hk. destruct (In_dict_set _ _ _ _ Hk) as [E | Hk'].
    + inversion E; subst. now right.
    + now apply Hvals.
Qed.

Lemma add_executor_table containers executor st containers' st' :
  MesosCGroupCollector.add_executor containers executor st =
    (Ok containers', st') ->
  containers_table containers ->
  containers_table containers' /\ st' = st.
Proof.
  unfold MesosCGroupCollector.add_executor, MesosCGroupCollector.unpack4,
    getitem, as_str, bind, lift, ret, raise.
  intros H Hinv.
  repeat split_innermost H; inversion H; subst;
    (split; [| reflexivity]); try assumption;
    apply containers_table_set; try assumption;
    now eexists _, _, _, _.
Qed.

Lemma add_executors_table executors :
  forall containers st containers' st',
    fold_each executors containers MesosCGroupCollector.add_executor st =
      (Ok containers', st') ->
    containers_table containers ->
    containers_table containers' /\ st' = st.
Proof.
  induction executors as [| e rest IH]; intros cs st cs' st' H Hinv.
  - inversion H; subst. now split.
  - cbn [fold_each] in H. unfold bind in H.
    destruct (MesosCGroupCollector.add_executor cs e st) as [[cs1 | x] st1]
      eqn:E; [| discriminate].
    destruct (add_executor_table _ _ _ _ _ E Hinv) as [Hinv1 ->].
    exact (IH _ _ _ _ H Hinv1).
Qed.

Lemma add_framework_table containers framework st containers' st' :
  MesosCGroupCollector.add_framework containers framework st =
    (Ok containers', st') ->
  containers_table containers ->
  containers_table containers' /\ st' = st.
Proof.
  unfold MesosCGroupCollector.add_framework. intros H Hinv.
  unfold bind at 1 in H.
  destruct (getitem framework "executors" st) as [[j | x] st0] eqn:E0;
    [| discriminate].
  assert (st0 = st) as ->.
  { unfold getitem, lift, ret, raise in E0.
    repeat split_innermost E0; now inversion E0. }
  unfold bind at 1 in H.
  destruct (iter j st) as [[l | x] st0] eqn:E1; [| discriminate].
  assert (st0 = st) as ->.
  { unfold iter, ret, raise in E1.
    repeat split_innermost E1; now inversion E1. }
  exact (add_executors_table _ _ _ _ _ H Hinv).
Qed.

Lemma add_frameworks_table frameworks :
  forall containers st containers' st',
    fold_each frameworks containers MesosCGroupCollector.add_framework st =
      (Ok containers', st') ->
    containers_table containers ->
    containers_table containers' /\ st' = st.
Proof.
  induction frameworks as [| f rest IH]; intros cs st cs' st' H Hinv.
  - inversion H; subst. now split.
  - cbn [fold_each] in H. unfold bind in H.
    destruct (MesosCGroupCollector.add_framework cs f st) as [[cs1 | x] st1]
      eqn:E; [| discriminate].
    destruct (add_framework_table _ _ _ _ _ E Hinv) as [Hinv1 ->].
    exact (IH _ _ _ _ H Hinv1).
Qed.

Lemma get_containers_returns_table (w : world)
    (c : MesosCGroupCollector.config) (st st1 : state)
    (containers : list (string * json)) :
  MesosCGroupCollector.get_containers w c st = (Ok containers, st1) ->
  containers_table containers /\
  st1 = st /\
  exists doc,
    urlopen w (mesos_url c) = FetchDocument doc.
Proof.
  unfold MesosCGroupCollector.get_containers. intros H.
  unfold bind at 1 in H.
  destruct (MesosCGroupCollector.get_mesos_state w c st)
    as [[state | x] st0] eqn:E0; [| discriminate].
  unfold bind at 1 in H.
  destruct (getitem state "flags" st0) as [[flags | x] st2] eqn:E1;
    [| discriminate].
  assert (Hdoc : st0 = st /\ urlopen w (mesos_url c) = FetchDocument state).
  { unfold MesosCGroupCollector.get_mesos_state, try_except in E0.
    fold (mesos_url c) in E0.
    destruct (urlopen w (mesos_url c)) as [| | | doc]; cbn in E0;
      inversion E0; subst; try now split.
    all: discriminate E1. }
  destruct Hdoc as [-> Hdoc].
  assert (st2 = st) as ->.
  { unfold getitem, lift, ret, raise in E1.
    repeat split_innermost E1; now inversion E1. }
  assert (Hstart : containers_table [("flags", flags)]).
  { repeat split.
    - repeat constructor. easy.
    - now left.
    - intros k v [E | []]. inversion E. now left. }
  unfold bind at 1 in H.
  destruct (World.contains "frameworks" state st) as [[has | x] st0] eqn:E2;
    [| discriminate].
  assert (st0 = st) as ->.
  { unfold World.contains, ret, raise in E2.
    repeat split_innermost E2; now inversion E2. }
  destruct has.
  - unfold bind at 1 in H.
    destruct (getitem state "frameworks" st) as [[j | x] st0] eqn:E3;
      [| discriminate].
    assert (st0 = st) as ->.
    { unfold getitem, lift, ret, raise in E3.
      repeat split_innermost E3; now inversion E3. }
    unfold bind at 1 in H.
    destruct (iter j st) as [[l | x] st0] eqn:E4; [| discriminate].
    assert (st0 = st) as ->.
    { unfold iter, ret, raise in E4.
      repeat split_innermost E4; now inversion E4. }
    destruct (add_frameworks_table _ _ _ _ _ H Hstart) as [Hinv ->].
    split; [exact Hinv | split; [reflexivity | now exists state]].
  - inversion H; subst.
    split; [exact Hstart | split; [reflexivity | now exists state]].
Qed.

(** X21.  When [get_containers] returns, the state was fetched and
    decoded, nothing was logged or published, and the table has each key
    once, has the key [flags], and under every other key holds the four
    texts [role], [environment], [task] and [id] of an executor. *)
Theorem get_containers_table (w : world) (c : MesosCGroupCollector.config)
    (st st1 : state) (containers : list (string * json)) :
  MesosCGroupCollector.get_containers w c st = (Ok containers, st1) ->
  st1 = st /\
  (exists doc, urlopen w (mesos_url c) = FetchDocument doc) /\
  NoDup (keys containers) /\
  In "flags" (keys containers) /\
  (forall k v, In (k, v) containers ->
     k = "flags" \/
     exists role environment task number,
       v = JObj [("role", JStr role); ("environment", JStr environment);
                 ("task", JStr task); ("id", JStr number)]).
Proof.
  intros H.
  destruct (get_containers_returns_table w c st st1 containers H)
    as [[Hnd [Hflags Hvals]] [Hst Hdoc]].
  repeat split; assumption.
Qed.

Lemma get_containers_table_witness :
  initial = initial /\
  (exists doc,
     urlopen (endpoint (FetchDocument one_task_state))
       (mesos_url MesosCGroupCollector.default_config) = FetchDocument doc) /\
  NoDup (keys one_task_table) /\
  In "flags" (keys one_task_table) /\
  (forall k v, In (k, v) one_task_table ->
     k = "flags" \/
     exists role environment task number,
       v = JObj [("role", JStr role); ("environment", JStr environment);
                 ("task", JStr task); ("id", JStr number)]).
Proof.
  apply (get_containers_table (endpoint (FetchDocument one_task_state))
           MesosCGroupCollector.default_config initial initial
           one_task_table).
  reflexivity.
Defined.

Section MesosNaming.
Import MesosCGroupCollector.
Variable P : sample -> Prop.

Lemma emits_bind_raise {A B} (e : exn) (k : A -> M B) :
  emits P (bind (raise e) k).
Proof. intros st. exists []. now rewrite app_nil_r. Qed.

Lemma emits_bind_lift {A B} (e : exn) (o : option A) (k : A -> M B) :
  (forall a, o = Some a -> emits P (k a)) -> emits P (bind (lift e o) k).
Proof.
  intros H. destruct o as [a |]; cbn [lift].
  - change (bind (ret a) k) with (fun st => k a st). exact (H a eq_refl).
  - apply emits_bind_raise.
Qed.

Lemma strings_outcome parts :
  forall st,
    (exists ss, parts = map JStr ss /\ strings parts st = (Ok ss, st)) \/
    (exists e, strings parts st = (Raise e, st)).
Proof.
  induction parts as [| p rest IH]; intros st.
  - left. now exists [].
  - cbn [strings]. destruct p; cbn [as_str];
      try (right; now eexists).
    rewrite bind_ret.
    destruct (IH st) as [[ss [-> E]] | [e E]].
    + left. exists (s :: ss). split; [reflexivity |].
      now rewrite (bind_ok _ _ _ _ _ E).
    + right. exists e. now rewrite (bind_raise _ _ _ _ _ E).
Qed.

Lemma emits_dotted_publish (parts : list json) (v : value) :
  (forall ss, parts = map JStr ss ->
     P (Sample Plain (clean_up (Py.join "." ss)) v)) ->
  emits P (name <- dotted parts ;; publish (clean_up name) v)%py.
Proof.
  intros H st. unfold dotted.
  destruct (strings_outcome parts st) as [[ss [E Hs]] | [e Hs]].
  - exists [Sample Plain (clean_up (Py.join "." ss)) v].
    unfold bind at 1 2. rewrite Hs. cbn.
    split; [reflexivity | constructor; [now apply H | constructor]].
  - exists []. unfold bind at 1 2. rewrite Hs. cbn. now rewrite app_nil_r.
Qed.

End MesosNaming.

Lemma named_collect_task w containers aspect aspect_path task_id :
  In aspect aspects ->
  emits (named_after containers)
        (MesosCGroupCollector.collect_task w containers aspect aspect_path
           task_id).
Proof.
  intros Haspect. unfold MesosCGroupCollector.collect_task.
  destruct (lookup task_id containers) as [info |] eqn:Hl;
    [| apply emits_ret].
  destruct info as [| b | q | s | l | o]; cbn [getitem];
    try apply emits_bind_raise.
  apply emits_bind_lift; intros environment Henv.
  apply emits_bind_lift; intros role Hrole.
  apply emits_bind_lift; intros task Htask.
  apply emits_bind_lift; intros number Hid.
  assert (Hname : forall key v ss,
    [environment; role; task; number; JStr aspect] ++ [JStr key] =
      map JStr ss ->
    named_after containers
      (Sample Plain (MesosCGroupCollector.clean_up (Py.join "." ss)) v)).
  { intros key v ss E. cbn [app] in E.
    destruct ss as [| e [| r [| t [| n [| a [| k [| x ss]]]]]]];
      try discriminate E.
    inversion E; subst.
    now exists task_id, o, e, r, t, n, a, k. }
  apply emits_bind.
  - destruct (aspect =? "cpuacct")%string; [| apply emits_ret].
    apply emits_bind; [apply emits_open | intros f].
    apply emits_dotted_publish. apply Hname.
  - intros []. apply emits_bind; [apply emits_open | intros f].
    apply emits_for_each. intros line.
    unfold MesosCGroupCollector.publish_pair.
    destruct (Py.split line) as [| k [| v [| x rest]]];
      try apply emits_raise.
    apply emits_dotted_publish. apply Hname.
Qed.

Lemma named_collect_aspect w containers sysfs root aspect :
  In aspect aspects ->
  emits (named_after containers)
        (MesosCGroupCollector.collect_aspect w containers sysfs root aspect).
Proof.
  intros Haspect. unfold MesosCGroupCollector.collect_aspect.
  apply emits_bind; [apply emits_as_str | intros s].
  apply emits_bind; [apply emits_as_str | intros r].
  apply emits_bind; [apply emits_listdir | intros contents].
  apply emits_for_each. intros task_id.
  now apply named_collect_task.
Qed.

(** X22.  Every sample of a Mesos cycle is named after an entry of the
    table [get_containers] returned and one of the aspects [cpuacct],
    [cpu], [memory]: the name is the entry's [environment], [role], [task]
    and [id], in this order, then the aspect and a key, joined with dots
    and passed through [clean_up].  A cycle whose [get_containers] raises
    publishes nothing. *)
Theorem mesos_names_from_table (w : world)
    (c : MesosCGroupCollector.config) (st : state) :
  exists new,
    published (snd (MesosCGroupCollector.collect w c st)) =
      published st ++ new /\
    (new = [] \/
     exists containers,
       MesosCGroupCollector.get_containers w c st = (Ok containers, st) /\
       Forall (named_after containers) new).
Proof.
  unfold MesosCGroupCollector.collect.
  destruct (MesosCGroupCollector.get_containers w c st)
    as [[containers | e] st1] eqn:E.
  - destruct (get_containers_returns_table w c st st1 containers E)
      as [_ [-> _]].
    rewrite (bind_ok _ _ _ _ _ E).
    assert (Hrest : emits (named_after containers)
      (flags <- lift KeyError (lookup "flags" containers) ;;
       sysfs <- getitem flags "cgroups_hierarchy" ;;
       flags <- lift KeyError (lookup "flags" containers) ;;
       cgroup_root <- getitem flags "cgroups_root" ;;
       for_each ["cpuacct"; "cpu"; "memory"]
         (MesosCGroupCollector.collect_aspect w containers sysfs
            cgroup_root))%py).
    { apply emits_bind; [apply emits_lift | intros flags].
      apply emits_bind; [apply emits_getitem | intros sysfs].
      apply emits_bind; [apply emits_lift | intros flags'].
      apply emits_bind; [apply emits_getitem | intros root].
      apply emits_for_each_in. intros aspect Haspect.
      now apply named_collect_aspect. }
    destruct (Hrest st) as [new [Hnew Hall]].
    exists new. split; [exact Hnew | right]. now exists containers.
  - rewrite (bind_raise _ _ _ _ _ E). exists []. cbn [snd].
    split; [| now left].
    destruct (emits_get_containers (fun _ => False) w c st)
      as [new [Hnew Hall]].
    rewrite E in Hnew. cbn [snd] in Hnew.
    destruct new as [| s new]; [exact Hnew |].
    inversion Hall; contradiction.
Qed.

Lemma open_outcome (w : world) (path content : string) (s0 s1 : state) :
  open w path s0 = (Ok content, s1) ->
  fs w path = Some (File true content).
Proof.
  unfold open.
  destruct (fs w path) as [[[|] t | es] |]; try discriminate.
  intros H. now inversion H.
Qed.

Lemma cgroup_collect_task w containers sysfs root aspect task_id :
  In aspect aspects ->
  isdir w (Py.path_join (aspect_path sysfs root aspect) task_id) = true ->
  emits (cgroup_sample w containers sysfs root)
        (MesosCGroupCollector.collect_task w containers aspect
           (aspect_path sysfs root aspect) task_id).
Proof.
  intros Haspect Hdir. unfold MesosCGroupCollector.collect_task.
  destruct (lookup task_id containers) as [info |] eqn:Hl;
    [| apply emits_ret].
  destruct info as [| b | q | s | l | o]; cbn [getitem];
    try apply emits_bind_raise.
  apply emits_bind_lift; intros environment Henv.
  apply emits_bind_lift; intros role Hrole.
  apply emits_bind_lift; intros task Htask.
  apply emits_bind_lift; intros number Hid.
  assert (Hsample : forall key text content ss,
    [environment; role; task; number; JStr aspect] ++ [JStr key] =
      map JStr ss ->
    (aspect = "cpuacct" /\ key = "usage" /\
     fs w (Py.path_join
             (Py.path_join (aspect_path sysfs root aspect) task_id)
             "cpuacct.usage") = Some (File true content) /\
     text = readline content) \/
    (exists line,
       fs w (Py.path_join
               (Py.path_join (aspect_path sysfs root aspect) task_id)
               (aspect ++ ".stat")) = Some (File true content) /\
       In line (Py.readlines content) /\
       Py.split line = [key; text]) ->
    cgroup_sample w containers sysfs root
      (Sample Plain (MesosCGroupCollector.clean_up (Py.join "." ss))
              (VStr text))).
  { intros key text content ss E Hread. cbn [app] in E.
    destruct ss as [| e [| r [| t [| n [| a [| k [| x ss]]]]]]];
      try discriminate E.
    inversion E; subst.
    exists task_id, o, e, r, t, n, a, k, text, content.
    repeat split; assumption. }
  apply emits_bind.
  - destruct (aspect =? "cpuacct")%string eqn:Ea; [| apply emits_ret].
    apply String.eqb_eq in Ea.
    apply emits_bind_outcome; [apply emits_open | intros f [s0 [s1 Hf]]].
    apply open_outcome in Hf.
    apply emits_dotted_publish. intros ss E.
    apply (Hsample "usage" (readline f) f ss E).
    left. subst aspect. repeat split. exact Hf.
  - intros []. apply emits_bind_outcome;
      [apply emits_open | intros f [s0 [s1 Hf]]].
    apply open_outcome in Hf.
    apply emits_for_each_in. intros line Hline.
    unfold MesosCGroupCollector.publish_pair.
    destruct (Py.split line) as [| k [| v [| x rest]]] eqn:Hsplit;
      try apply emits_raise.
    apply emits_dotted_publish. intros ss E.
    apply (Hsample k v f ss E).
    right. now exists line.
Qed.

Lemma cgroup_collect_aspect w containers sysfs root aspect :
  In aspect aspects ->
  emits (cgroup_sample w containers sysfs root)
        (MesosCGroupCollector.collect_aspect w containers (JStr sysfs)
           (JStr root) aspect).
Proof.
  intros Haspect. unfold MesosCGroupCollector.collect_aspect.
  cbn [as_str].
  change (emits (cgroup_sample w containers sysfs root)
    (bind (listdir w (aspect_path sysfs root aspect)) (fun contents =>
       for_each
         (filter (fun entry =>
                    isdir w (Py.path_join (aspect_path sysfs root aspect)
                                          entry)) contents)
         (MesosCGroupCollector.collect_task w containers aspect
            (aspect_path sysfs root aspect))))).
  apply emits_bind; [apply emits_listdir | intros contents].
  apply emits_for_each_in. intros task_id Hin.
  apply filter_In in Hin as [_ Hdir].
  now apply cgroup_collect_task.
Qed.

(** X20.  Every sample of a Mesos cycle goes through the plain [publish]
    and carries a text read in the directory of a task, never a number
    made of it: for the key [usage] of the aspect [cpuacct] the first
    line of the task's [cpuacct.usage], with its line end; for any other
    sample the second word of a line of the task's [cpuacct.stat],
    [cpu.stat] or [memory.stat], the first word of that line being the
    key in the name.  The task is a directory under the aspect's path,
    which the flags of the state give, and an entry of the table
    [get_containers] returned.  A cycle that does not get that far
    publishes nothing. *)
Theorem mesos_publishes_text (w : world) (c : MesosCGroupCollector.config)
    (st : state) :
  exists new,
    published (snd (MesosCGroupCollector.collect w c st)) =
      published st ++ new /\
    (new = [] \/
     exists containers flags sysfs root,
       MesosCGroupCollector.get_containers w c st = (Ok containers, st) /\
       lookup "flags" containers = Some (JObj flags) /\
       lookup "cgroups_hierarchy" flags = Some (JStr sysfs) /\
       lookup "cgroups_root" flags = Some (JStr root) /\
       Forall (cgroup_sample w containers sysfs root) new).
Proof.
  unfold MesosCGroupCollector.collect.
  destruct (MesosCGroupCollector.get_containers w c st)
    as [[containers | e] st1] eqn:E.
  - destruct (get_containers_returns_table w c st st1 containers E)
      as [_ [-> _]].
    rewrite (bind_ok _ _ _ _ _ E).
    assert (Hnone : forall (e : exn) (out : result unit * state),
      out = (Raise e, st) ->
      exists new,
        published (snd out) = published st ++ new /\
        (new = [] \/
         exists containers' flags sysfs root,
           (Ok containers, st) = (Ok containers', st) /\
           lookup "flags" containers' = Some (JObj flags) /\
           lookup "cgroups_hierarchy" flags = Some (JStr sysfs) /\
           lookup "cgroups_root" flags = Some (JStr root) /\
           Forall (cgroup_sample w containers' sysfs root) new)).
    { intros e out ->. exists []. split; [now rewrite app_nil_r | now left]. }
    destruct (lookup "flags" containers) as [fl |] eqn:Hflags;
      [| now apply (Hnone KeyError)].
    destruct fl as [| b | q | s | l | flags];
      try now apply (Hnone TypeError).
    cbn [lift]. rewrite bind_ret. cbn [getitem].
    destruct (lookup "cgroups_hierarchy" flags) as [sysfs |] eqn:Hsysfs;
      [| now apply (Hnone KeyError)].
    cbn [lift]. rewrite !bind_ret. cbn [getitem].
    destruct (lookup "cgroups_root" flags) as [root |] eqn:Hroot;
      [| now apply (Hnone KeyError)].
    cbn [lift]. rewrite bind_ret.
    destruct sysfs as [| b | q | sysfs | l | o];
      try now apply (Hnone AttributeError).
    destruct root as [| b | q | root | l | o];
      try now apply (Hnone AttributeError).
    destruct (emits_for_each_in (cgroup_sample w containers sysfs root)
                ["cpuacct"; "cpu"; "memory"]
                (MesosCGroupCollector.collect_aspect w containers
                   (JStr sysfs) (JStr root))
                (fun aspect Hin =>
                   cgroup_collect_aspect w containers sysfs root aspect Hin)
                st) as [new [Hnew Hall]].
    exists new. split; [exact Hnew | right].
    now exists containers, flags, sysfs, root.
  - exists []. split; [| now left].
    rewrite (bind_raise _ _ _ _ _ E). cbn [snd].
    destruct (emits_get_containers (fun _ => False) w c st)
      as [new [Hnew Hall]].
    rewrite E in Hnew. cbn [snd] in Hnew.
    destruct new as [| s new]; [exact Hnew |].
    inversion Hall; contradiction.
Qed.

Lemma mesos_prologue (w : world) (c : MesosCGroupCollector.config)
    (st st1 : state) (containers : list (string * json))
    (flags : list (string * json)) (sysfs root : string) :
  MesosCGroupCollector.get_containers w c st = (Ok containers, st1) ->
  lookup "flags" containers = Some (JObj flags) ->
  lookup "cgroups_hierarchy" flags = Some (JStr sysfs) ->
  lookup "cgroups_root" flags = Some (JStr root) ->
  MesosCGroupCollector.collect w c st =
    for_each ["cpuacct"; "cpu"; "memory"]
      (MesosCGroupCollector.collect_aspect w containers (JStr sysfs)
         (JStr root)) st.
Proof.
  intros Hc Hflags Hsysfs Hroot.
  destruct (get_containers_returns_table w c st st1 containers Hc)
    as [_ [-> _]].
  unfold MesosCGroupCollector.collect.
  rewrite (bind_ok _ _ _ _ _ Hc), Hflags.
  unfold lift at 1. rewrite bind_ret. cbn [getitem]. rewrite Hsysfs.
  unfold lift at 1. rewrite bind_ret.
  unfold lift at 1. rewrite bind_ret. cbn [getitem]. rewrite Hroot.
  unfold lift at 1. now rewrite bind_ret.
Qed.

(** X23.  The state was fetched and its flags name the cgroup hierarchy
    and root, but the [cpuacct] directory of the hierarchy is not there:
    [os.listdir] raises [OSError] out of the cycle, and nothing is
    published or logged. *)
Theorem mesos_hierarchy_missing (w : world)
    (c : MesosCGroupCollector.config) (st st1 : state)
    (containers : list (string * json)) (flags : list (string * json))
    (sysfs root : string) :
  MesosCGroupCollector.get_containers w c st = (Ok containers, st1) ->
  lookup "flags" containers = Some (JObj flags) ->
  lookup "cgroups_hierarchy" flags = Some (JStr sysfs) ->
  lookup "cgroups_root" flags = Some (JStr root) ->
  isdir w (aspect_path sysfs root "cpuacct") = false ->
  MesosCGroupCollector.collect w c st = (Raise OSError, st).
Proof.
  intros Hc Hflags Hsysfs Hroot Hdir.
  rewrite (mesos_prologue w c st st1 containers flags sysfs root
             Hc Hflags Hsysfs Hroot).
  cbn [for_each]. unfold MesosCGroupCollector.collect_aspect at 1.
  cbn [as_str]. unfold bind, ret, listdir.
  fold (aspect_path sysfs root "cpuacct").
  unfold isdir in Hdir.
  destruct (fs w (aspect_path sysfs root "cpuacct")) as [[r f | es] |];
    try reflexivity.
  discriminate Hdir.
Qed.

Lemma mesos_hierarchy_missing_witness :
  MesosCGroupCollector.collect (mesos one_task_state [])
    MesosCGroupCollector.default_config initial = (Raise OSError, initial).
Proof.
  apply (mesos_hierarchy_missing (mesos one_task_state [])
           MesosCGroupCollector.default_config initial initial
           one_task_table
           [("cgroups_hierarchy", JStr "/sys/fs/cgroup");
            ("cgroups_root", JStr "mesos")]
           "/sys/fs/cgroup" "mesos").
  - reflexivity.
  - reflexivity.
  - reflexivity.
  - reflexivity.
  - reflexivity.
Defined.

Lemma skip_unknown (w : world) (containers : list (string * json))
    (aspect path : string) (tasks : list string) :
  (forall e, In e tasks -> lookup e containers = None) ->
  forall st,
    for_each tasks
      (MesosCGroupCollector.collect_task w containers aspect path) st =
      (Ok tt, st).
Proof.
  induction tasks as [| e rest IH]; intros Hnone st; [reflexivity |].
  cbn [for_each]. unfold MesosCGroupCollector.collect_task at 1.
  rewrite (Hnone e (or_introl eq_refl)). rewrite bind_ret.
  apply IH. intros e' He'. apply Hnone. now right.
Qed.

(** X24.  The state was fetched, the three aspect directories are there,
    and none of their subdirectories is a key of the table of containers:
    every one of them is skipped, and the cycle returns with nothing
    published or logged.  Entries that are not directories do not
    count. *)
Theorem mesos_unknown_tasks_skipped (w : world)
    (c : MesosCGroupCollector.config) (st st1 : state)
    (containers : list (string * json)) (flags : list (string * json))
    (sysfs root : string) :
  MesosCGroupCollector.get_containers w c st = (Ok containers, st1) ->
  lookup "flags" containers = Some (JObj flags) ->
  lookup "cgroups_hierarchy" flags = Some (JStr sysfs) ->
  lookup "cgroups_root" flags = Some (JStr root) ->
  (forall aspect, In aspect aspects ->
     exists entries,
       fs w (aspect_path sysfs root aspect) = Some (Dir entries) /\
       forall e, In e entries ->
         isdir w (Py.path_join (aspect_path sysfs root aspect) e) = true ->
         lookup e containers = None) ->
  MesosCGroupCollector.collect w c st = (Ok tt, st).
Proof.
  intros Hc Hflags Hsysfs Hroot Hdirs.
  rewrite (mesos_prologue w c st st1 containers flags sysfs root
             Hc Hflags Hsysfs Hroot).
  assert (Haspect : forall aspect, In aspect aspects -> forall s,
    MesosCGroupCollector.collect_aspect w containers (JStr sysfs)
      (JStr root) aspect s = (Ok tt, s)).
  { intros aspect Hin s.
    destruct (Hdirs aspect Hin) as [entries [Hfs Hnone]].
    unfold MesosCGroupCollector.collect_aspect. cbn [as_str].
    rewrite !bind_ret. fold (aspect_path sysfs root aspect).
    unfold listdir. rewrite Hfs, bind_ret.
    apply skip_unknown. intros e He.
    apply filter_In in He. destruct He as [He Hd]. now apply Hnone. }
  cbn [for_each].
  rewrite (bind_ok _ _ _ _ _ (Haspect "cpuacct" (or_introl eq_refl) st)).
  rewrite (bind_ok _ _ _ _ _
             (Haspect "cpu" (or_intror (or_introl eq_refl)) st)).
  rewrite (bind_ok _ _ _ _ _
             (Haspect "memory"
                (or_intror (or_intror (or_introl eq_refl))) st)).
  reflexivity.
Qed.

Lemma mesos_unknown_tasks_skipped_witness :
  MesosCGroupCollector.collect (mesos one_task_state foreign_cgroups)
    MesosCGroupCollector.default_config initial = (Ok tt, initial).
Proof.
  apply (mesos_unknown_tasks_skipped (mesos one_task_state foreign_cgroups)
           MesosCGroupCollector.default_config initial initial
           one_task_table
           [("cgroups_hierarchy", JStr "/sys/fs/cgroup");
            ("cgroups_root", JStr "mesos")]
           "/sys/fs/cgroup" "mesos").
  - reflexivity.
  - reflexivity.
  - reflexivity.
  - reflexivity.
  - intros aspect [<- | [<- | [<- | []]]].
    + exists ["other"; "tasks"]. split; [reflexivity |].
      intros e [<- | [<- | []]]; [reflexivity | discriminate].
    + exists []. split; [reflexivity | intros e []].
    + exists []. split; [reflexivity | intros e []].
Defined.

Lemma In_keys_dict_set_same {A} (k : string) (v : A)
    (d : list (string * A)) :
  In k (keys (dict_set k v d)).
Proof.
  induction d as [| [k0 v0] d IH]; cbn [dict_set]; [now left |].
  destruct (String.eqb_spec k k0) as [-> | Hne]; cbn; [now left | now right].
Qed.

Lemma add_executor_recorded containers executor st containers' st' :
  MesosCGroupCollector.add_executor containers executor st =
    (Ok containers', st') ->
  recorded containers' executor /\
  (forall k, In k (keys containers) -> In k (keys containers')).
Proof.
  unfold MesosCGroupCollector.add_executor, MesosCGroupCollector.unpack4,
    getitem, as_str, bind, lift, ret, raise.
  intros H.
  repeat split_innermost H; inversion H; subst; clear H;
    (split; [| intros k Hk; try assumption; now apply keys_dict_set_kept]);
    intros o' source Ho Hsrc; inversion Ho; subst o'; split.
  all: try match goal with
           | E : Py.split_on "." ?s = _ |- ex _ =>
               assert (source = s) by congruence; subst source;
               do 4 eexists; exact E
           end.
  all: intros key Hkey; try congruence.
  match goal with
  | |- In key (keys (dict_set ?k _ _)) =>
      assert (key = k) by congruence; subst
  end.
  apply In_keys_dict_set_same.
Qed.

Lemma recorded_kept containers containers' executor :
  recorded containers executor ->
  (forall k, In k (keys containers) -> In k (keys containers')) ->
  recorded containers' executor.
Proof.
  intros Hrec Hincl o source Ho Hsrc.
  destruct (Hrec o source Ho Hsrc) as [Hparts Hkey].
  split; [exact Hparts | intros key Hk; apply Hincl; now apply Hkey].
Qed.

Lemma add_executors_recorded executors :
  forall containers st containers' st',
    fold_each executors containers MesosCGroupCollector.add_executor st =
      (Ok containers', st') ->
    (forall executor, In executor executors ->
       recorded containers' executor) /\
    (forall k, In k (keys containers) -> In k (keys containers')).
Proof.
  induction executors as [| e rest IH]; intros cs st cs' st' H.
  - inversion H; subst. split; [intros x [] | easy].
  - cbn [fold_each] in H. unfold bind in H.
    destruct (MesosCGroupCollector.add_executor cs e st) as [[cs1 | x] st1]
      eqn:E; [| discriminate].
    destruct (add_executor_recorded _ _ _ _ _ E) as [Hrec Hincl].
    destruct (IH _ _ _ _ H) as [Hrest Hincl'].
    split.
    + intros x [<- | Hx]; [| now apply Hrest].
      now apply (recorded_kept cs1).
    + intros k Hk. apply Hincl'. now apply Hincl.
Qed.

Lemma add_framework_recorded containers framework st containers' st' :
  MesosCGroupCollector.add_framework containers framework st =
    (Ok containers', st') ->
  framework_recorded containers' framework /\
  (forall k, In k (keys containers) -> In k (keys containers')).
Proof.
  unfold MesosCGroupCollector.add_framework. intros H.
  destruct framework as [| b | q | s | l | o]; cbn [getitem] in H;
    try discriminate H.
  destruct (lookup "executors" o) as [j |] eqn:Hex; cbn [lift] in H;
    [| discriminate H].
  rewrite bind_ret in H.
  destruct j as [| b | q | s | l | o']; cbn [iter] in H;
    try discriminate H; rewrite bind_ret in H;
    destruct (add_executors_recorded _ _ _ _ _ H) as [Hrec Hincl];
    (split; [| exact Hincl]);
    intros o0 executors executor Ho Hl Hin;
    inversion Ho; subst o0; rewrite Hl in Hex; inversion Hex; subst.
  now apply Hrec.
Qed.

Lemma framework_recorded_kept containers containers' framework :
  framework_recorded containers framework ->
  (forall k, In k (keys containers) -> In k (keys containers')) ->
  framework_recorded containers' framework.
Proof.
  intros Hrec Hincl o executors executor Ho Hl Hin.
  apply (recorded_kept containers); [| exact Hincl].
  exact (Hrec o executors executor Ho Hl Hin).
Qed.

Lemma add_frameworks_recorded frameworks :
  forall containers st containers' st',
    fold_each frameworks containers MesosCGroupCollector.add_framework st =
      (Ok containers', st') ->
    (forall framework, In framework frameworks ->
       framework_recorded containers' framework) /\
    (forall k, In k (keys containers) -> In k (keys containers')).
Proof.
  induction frameworks as [| f rest IH]; intros cs st cs' st' H.
  - inversion H; subst. split; [intros x [] | easy].
  - cbn [fold_each] in H. unfold bind in H.
    destruct (MesosCGroupCollector.add_framework cs f st) as [[cs1 | x] st1]
      eqn:E; [| discriminate].
    destruct (add_framework_recorded _ _ _ _ _ E) as [Hrec Hincl].
    destruct (IH _ _ _ _ H) as [Hrest Hincl'].
    split.
    + intros x [<- | Hx]; [| now apply Hrest].
      now apply (framework_recorded_kept cs1).
    + intros k Hk. apply Hincl'. now apply Hincl.
Qed.

(** X25.  When [get_containers] returns on a state whose frameworks are a
    list, every executor in an [executors] list of a framework has gone
    into the table: a [source] that is a text has exactly four parts
    between its dots, and a [container] that is a text is a key of the
    table.  So one source with another number of dots, a task name with
    a dot in it, makes [get_containers] raise for all tasks. *)
Theorem mesos_executors_recorded (w : world)
    (c : MesosCGroupCollector.config) (st st1 : state)
    (containers state_doc framework executor : list (string * json))
    (frameworks executors : list json) (source : string) :
  MesosCGroupCollector.get_containers w c st = (Ok containers, st1) ->
  urlopen w (mesos_url c) = FetchDocument (JObj state_doc) ->
  lookup "frameworks" state_doc = Some (JArr frameworks) ->
  In (JObj framework) frameworks ->
  lookup "executors" framework = Some (JArr executors) ->
  In (JObj executor) executors ->
  lookup "source" executor = Some (JStr source) ->
  (exists role environment task number,
     Py.split_on "." source = [role; environment; task; number]) /\
  (forall key, lookup "container" executor = Some (JStr key) ->
     exists info, lookup key containers = Some info).
Proof.
  intros H Hdoc Hfws Hfw Hexs Hex Hsrc.
  assert (Hstate : MesosCGroupCollector.get_mesos_state w c st =
                     (Ok (JObj state_doc), st)).
  { unfold MesosCGroupCollector.get_mesos_state, try_except.
    fold (mesos_url c). now rewrite Hdoc. }
  unfold MesosCGroupCollector.get_containers in H.
  rewrite (bind_ok _ _ _ _ _ Hstate) in H. cbn [getitem] in H.
  destruct (lookup "flags" state_doc) as [flags |]; cbn [lift] in H;
    [| discriminate H].
  rewrite bind_ret in H. cbn [World.contains] in H. rewrite bind_ret in H.
  assert (Hmem : mem "frameworks" (keys state_doc) = true).
  { apply mem_In. now apply lookup_In_keys with (v := JArr frameworks). }
  rewrite Hmem, Hfws in H. cbn [lift] in H. rewrite bind_ret in H.
  cbn [iter] in H. rewrite bind_ret in H.
  destruct (add_frameworks_recorded _ _ _ _ _ H) as [Hrec _].
  destruct (Hrec _ Hfw framework executors (JObj executor) eq_refl Hexs Hex
              executor source eq_refl Hsrc) as [Hparts Hkey].
  split; [exact Hparts |].
  intros key Hk. apply In_keys_lookup. now apply Hkey.
Qed.

Lemma mesos_executors_recorded_witness :
  (exists role environment task number,
     Py.split_on "." "www.prod.web.0" = [role; environment; task; number]) /\
  (forall key,
     lookup "container"
       [("container", JStr "c1"); ("source", JStr "www.prod.web.0")] =
       Some (JStr key) ->
     exists info, lookup key one_task_table = Some info).
Proof.
  apply (mesos_executors_recorded (mesos one_task_state [])
           MesosCGroupCollector.default_config initial initial
           one_task_table
           [("flags", JObj [("cgroups_hierarchy", JStr "/sys/fs/cgroup");
                            ("cgroups_root", JStr "mesos")]);
            ("frameworks",
             JArr [JObj [("executors",
                          JArr [JObj [("container", JStr "c1");
                                      ("source", JStr "www.prod.web.0")]])]])]
           [("executors",
             JArr [JObj [("container", JStr "c1");
                         ("source", JStr "www.prod.web.0")]])]
           [("container", JStr "c1"); ("source", JStr "www.prod.web.0")]
           [JObj [("executors",
                   JArr [JObj [("container", JStr "c1");
                               ("source", JStr "www.prod.web.0")]])]]
           [JObj [("container", JStr "c1");
                  ("source", JStr "www.prod.web.0")]]
           "www.prod.web.0").
  - reflexivity.
  - reflexivity.
  - reflexivity.
  - now left.
  - reflexivity.
  - now left.
  - reflexivity.
Defined.
